(** * NIM allocation in the PMB admission backend

    A shallow embedding of the NIM-related code of the repository:
    - [utils.py]        : [generate_nim], the locked per-(year, kode) counter;
    - [models.py]       : the three tables and the [status] enumeration;
    - [main.py]         : the HTTP handler [approve_mahasiswa];
    - [cli_register.py] : the command-line [approve].

    Tables are lists of rows, a session is the database value threaded
    through each operation, an exception is a constructor of the result.
    Concurrent callers of [generate_nim] are modelled by a step function
    on the committed database and the points the callers stand at.
    Python [str] values are modelled by [string] over the ASCII alphabet;
    Python [int] values by [Z]. *)

From Stdlib Require Import ZArith NArith List String Ascii Bool Lia.
From Stdlib Require Import Decimal DecimalFacts DecimalPos DecimalN DecimalZ DecimalString.
Import ListNotations.

Local Open Scope string_scope.
Local Open Scope Z_scope.

(** ** Python string and integer formatting primitives *)

Module PyStr.

(** [str.isspace] on one ASCII character: TAB, LF, VT, FF, CR, the four
    separators FS GS RS US, and the space. Python counts further
    characters above U+007F as white space (U+0085, U+00A0, ...); they
    are outside the alphabet of the model, see [isascii]. *)
Definition is_space (c : ascii) : bool :=
  let n := nat_of_ascii c in
  ((9 <=? n) && (n <=? 13) || (28 <=? n) && (n <=? 32))%nat.

(** [str.lstrip()] *)
Fixpoint lstrip (s : string) : string :=
  match s with
  | EmptyString => EmptyString
  | String c s' => if is_space c then lstrip s' else s
  end.

(** [str.rstrip()] *)
Fixpoint rstrip (s : string) : string :=
  match s with
  | EmptyString => EmptyString
  | String c s' =>
      match rstrip s' with
      | EmptyString => if is_space c then EmptyString else String c EmptyString
      | r => String c r
      end
  end.

(** [str.strip()] *)
Definition strip (s : string) : string := lstrip (rstrip s).

(** [str.upper()] on one ASCII character. Python also maps letters
    above U+007F; they are outside the alphabet of the model, see
    [isascii]. *)
Definition to_upper (c : ascii) : ascii :=
  let n := nat_of_ascii c in
  if ((97 <=? n) && (n <=? 122))%nat then ascii_of_nat (n - 32) else c.

(** [str.upper()] *)
Fixpoint upper (s : string) : string :=
  match s with
  | EmptyString => EmptyString
  | String c s' => String (to_upper c) (upper s')
  end.

(** [bool(s)] for a string: false exactly on the empty string. *)
Definition truthy (s : string) : bool :=
  match s with EmptyString => false | String _ _ => true end.

(** [f"{n}"] for an [int]: signed decimal, no padding. *)
Definition str_of_int (n : Z) : string :=
  NilEmpty.string_of_int (Z.to_int n).

(** Left-fill a digit sequence with zeros up to [w] digits. *)
Definition zfill (w : nat) (d : uint) : uint :=
  Nat.iter (w - nb_digits d) D0 d.

(** [f"{n:04d}"]: sign-aware zero padding to a minimum width of 4; the
    sign, when there is one, counts in the width. Wider numbers are
    printed in full. *)
Definition format_04d (n : Z) : string :=
  match Z.to_int n with
  | Pos d => NilEmpty.string_of_uint (zfill 4 d)
  | Neg d => String "-" (NilEmpty.string_of_uint (zfill 3 d))
  end.

(** [f"{x}"] for an optional string ([None] prints as [None]). *)
Definition str_of_opt (o : option string) : string :=
  match o with Some s => s | None => "None" end.

End PyStr.

(** ** The tables of [models.py] *)

Module Models.

(** [STATUS_OPTIONS]: the [Enum] column holds one of these three values. *)
Inductive Status : Set := pending | approved | rejected.

Definition status_str (s : Status) : string :=
  match s with
  | pending => "pending"
  | approved => "approved"
  | rejected => "rejected"
  end.

(** [==] on two status values. *)
Definition status_eqb (s t : Status) : bool :=
  match s, t with
  | pending, pending | approved, approved | rejected, rejected => true
  | _, _ => false
  end.

(** [JALUR_MASUK_OPTIONS] *)
Inductive JalurMasuk : Set := SNBP | SNBT | Mandiri.

(** A reading of [datetime.now(timezone.utc)]: its [.year] and the
    instant itself. *)
Record DateTime : Set := mkDateTime { dt_year : Z; dt_instant : Z }.

Record ProgramStudi : Set := mkProgramStudi {
  ps_id : Z;
  kode : string;
  nama : string;
  fakultas : string
}.

Record CalonMahasiswa : Set := mkCalonMahasiswa {
  cm_id : Z;
  nama_lengkap : string;
  email : string;
  phone : string;
  tanggal_lahir : Z;
  alamat : option string;
  program_studi_id : Z;
  jalur_masuk : JalurMasuk;
  status : Status;
  created_at : DateTime;
  approved_at : option DateTime;
  nim : option string
}.

Record NIMCounter : Set := mkNIMCounter {
  nc_id : Z;
  year : Z;
  kode_prodi : string;
  last_seq : Z
}.

(** The database a session works on: one list of rows per table. *)
Record DB : Set := mkDB {
  program_studi : list ProgramStudi;
  calon_mahasiswa : list CalonMahasiswa;
  nim_counters : list NIMCounter
}.

Definition set_calon_mahasiswa (db : DB) (rows : list CalonMahasiswa) : DB :=
  mkDB (program_studi db) rows (nim_counters db).

Definition set_nim_counters (db : DB) (rows : list NIMCounter) : DB :=
  mkDB (program_studi db) (calon_mahasiswa db) rows.

End Models.

Import Models.

(** ** What the ORM session does for the approval flow *)

Module Session.

(** SQLite's [LIKE] on one character: equal up to ASCII case. *)
Definition like_chr (p c : ascii) : bool :=
  Ascii.eqb (PyStr.to_upper p) (PyStr.to_upper c).

(** SQLite's [pattern LIKE s], no escape character: [%] matches any run
    of characters, [_] any single one. *)
Fixpoint like (pat s : string) {struct pat} : bool :=
  match pat with
  | EmptyString => negb (PyStr.truthy s)
  | String p pat' =>
      if Ascii.eqb p "%" then
        (fix star (t : string) : bool :=
           like pat' t ||
           match t with
           | EmptyString => false
           | String _ t' => star t'
           end) s
      else
        match s with
        | EmptyString => false
        | String c s' =>
            (Ascii.eqb p "_" || like_chr p c) && like pat' s'
        end
  end.

(** [CalonMahasiswa.nim.like(pattern)]: a NULL [nim] never matches. *)
Definition nim_like (pattern : string) (r : CalonMahasiswa) : bool :=
  match nim r with
  | Some n => like pattern n
  | None => false
  end.

(** [db.query(CalonMahasiswa).filter(CalonMahasiswa.nim.like(p)).count()] *)
Definition count_nim_like (pattern : string) (db : DB) : nat :=
  List.length (filter (nim_like pattern) (calon_mahasiswa db)).

(** [db.query(CalonMahasiswa).filter(CalonMahasiswa.id == id).first()] *)
Definition first_calon (id : Z) (db : DB) : option CalonMahasiswa :=
  find (fun r => cm_id r =? id) (calon_mahasiswa db).

(** The relationship [calon.program_studi]. *)
Definition program_studi_of (c : CalonMahasiswa) (db : DB) : option ProgramStudi :=
  find (fun p => ps_id p =? program_studi_id c) (program_studi db).

(** The three attribute assignments of one attempt, on a row. *)
Definition assign_approval (n : string) (at_ : DateTime) (r : CalonMahasiswa)
  : CalonMahasiswa :=
  mkCalonMahasiswa (cm_id r) (nama_lengkap r) (email r) (phone r)
    (tanggal_lahir r) (alamat r) (program_studi_id r) (jalur_masuk r)
    approved (created_at r) (Some at_) (Some n).

(** The unique index on [nim]: another row already holds the value. *)
Definition nim_taken (id : Z) (n : string) (db : DB) : bool :=
  existsb (fun r => negb (cm_id r =? id) &&
                    match nim r with
                    | Some m => String.eqb m n
                    | None => false
                    end)
          (calon_mahasiswa db).

(** The UPDATE that the commit sends: the three columns of the row with
    this primary key. *)
Definition update_approval (id : Z) (n : string) (at_ : DateTime) (db : DB) : DB :=
  set_calon_mahasiswa db
    (map (fun r => if cm_id r =? id then assign_approval n at_ r else r)
         (calon_mahasiswa db)).

(** [db.add(calon); db.commit()] after the assignments: [None] is the
    [IntegrityError] of the unique index, after which [db.rollback()]
    leaves the database as it was. *)
Definition commit_approval (id : Z) (n : string) (at_ : DateTime) (db : DB)
  : option DB :=
  if nim_taken id n db then None else Some (update_approval id n at_ db).

(** [db.refresh(calon)] followed by reading [calon.nim]. *)
Definition refreshed_nim (id : Z) (db : DB) : option string :=
  match first_calon id db with
  | Some c => nim c
  | None => None
  end.

(** [range(5)] *)
Definition range5 : list nat := [0; 1; 2; 3; 4]%nat.

(** [seq = existing_count + 1 + attempt; nim_candidate = f"{prefix}{seq:04d}"] *)
Definition nim_candidate (prefix : string) (existing_count attempt : nat) : string :=
  prefix ++ PyStr.format_04d (Z.of_nat existing_count + 1 + Z.of_nat attempt).

End Session.

Import Session.

(** ** [main.py]: the HTTP approval handler *)

Module Main.

Inductive Response : Set :=
| Json_nim (nim : option string)                 (* return {"nim": calon.nim} *)
| HTTPException (status_code : Z) (detail : string)
| Unhandled (exc : string).                      (* an uncaught Python exception *)

(** The body of [for attempt in range(5)], with the [raise] that follows
    the loop. Reading [n] of the clock is [clock n]; attempt [k] takes
    reading [k + 1] for [approved_at]. *)
Fixpoint retry (attempts : list nat) (clock : nat -> DateTime) (id : Z)
    (prefix : string) (existing_count : nat) (db : DB) : Response * DB :=
  match attempts with
  | [] => (HTTPException 409 "Could not generate unique NIM; please retry", db)
  | attempt :: rest =>
      let nim_candidate := nim_candidate prefix existing_count attempt in
      match commit_approval id nim_candidate (clock (S attempt)) db with
      | Some db' => (Json_nim (refreshed_nim id db'), db')
      | None => retry rest clock id prefix existing_count db
      end
  end.

(** [PUT /approve/{id}] *)
Definition approve_mahasiswa (clock : nat -> DateTime) (id : Z) (db : DB)
  : Response * DB :=
  match first_calon id db with
  | None => (HTTPException 404 "Calon mahasiswa not found", db)
  | Some calon =>
      let status_val := status calon in
      if status_eqb status_val approved then (Json_nim (nim calon), db)
      else if negb (status_eqb status_val pending) then
        (HTTPException 409
           ("Cannot approve candidate with status " ++ status_str status_val), db)
      else
        let year := dt_year (clock 0%nat) in
        match program_studi_of calon db with
        | None => (Unhandled "AttributeError", db)
        | Some ps =>
            let kode := kode ps in
            let prefix := PyStr.str_of_int year ++ kode in
            let like_pattern := prefix ++ "%" in
            let existing_count := count_nim_like like_pattern db in
            retry range5 clock (cm_id calon) prefix existing_count db
        end
  end.

End Main.

(** ** [cli_register.py]: the command-line approval *)

Module Cli_register.

(** What a run leaves behind: the return code with the printed lines, or
    an exception nobody caught. *)
Inductive Outcome : Set :=
| mkOutcome (rc : Z) (printed : list string)
| Uncaught (exc : string).

Fixpoint retry (attempts : list nat) (clock : nat -> DateTime) (id : Z)
    (prefix : string) (existing_count : nat) (db : DB) : Outcome * DB :=
  match attempts with
  | [] => (mkOutcome 13 ["ERROR: Gagal generate unique NIM setelah 5 percobaan"], db)
  | attempt :: rest =>
      let nim_candidate := nim_candidate prefix existing_count attempt in
      match commit_approval id nim_candidate (clock (S attempt)) db with
      | Some db' =>
          (mkOutcome 0 ["SUCCESS: Calon di-approve, NIM generated: "
                        ++ PyStr.str_of_opt (refreshed_nim id db')], db')
      | None => retry rest clock id prefix existing_count db
      end
  end.

(** [approve(args)], with [args.id] as [args_id]. *)
Definition approve (clock : nat -> DateTime) (args_id : option Z) (db : DB)
  : Outcome * DB :=
  match args_id with
  | None => (mkOutcome 10 ["ERROR: --id diperlukan untuk approve"], db)
  | Some calon_id =>
      match first_calon calon_id db with
      | None =>
          (mkOutcome 11 ["ERROR: Calon mahasiswa dengan id "
                         ++ PyStr.str_of_int calon_id
                         ++ " tidak ditemukan (INVALID DATA)"], db)
      | Some calon =>
          if status_eqb (status calon) approved then
            (mkOutcome 0 ["INFO: Calon sudah di-approve sebelumnya, NIM: "
                          ++ PyStr.str_of_opt (nim calon)], db)
          else if negb (status_eqb (status calon) pending) then
            (mkOutcome 12 ["ERROR: Status calon tidak pending (current: "
                           ++ status_str (status calon) ++ ")"], db)
          else
            let year := dt_year (clock 0%nat) in
            match program_studi_of calon db with
            | None => (Uncaught "AttributeError", db)
            | Some ps =>
                let kode := PyStr.upper (kode ps) in
                let prefix := PyStr.str_of_int year ++ kode in
                let existing_count := count_nim_like (prefix ++ "%") db in
                retry range5 clock (cm_id calon) prefix existing_count db
            end
      end
  end.

End Cli_register.

(** ** [utils.py]: the per-(year, kode) counter *)

Module Utils.

Inductive Exc : Set :=
| ValueError (msg : string)
| MultipleResultsFound.          (* a SQLAlchemyError, re-raised as it is *)

Inductive Result : Set :=
| Returned (nim : string)
| Raised (e : Exc).

(** The filter of the query: [year == tahun] and [kode_prodi == kode]. *)
Definition matches (tahun : Z) (kode : string) (r : NIMCounter) : bool :=
  (year r =? tahun) && String.eqb (kode_prodi r) kode.

(** What [Query.one_or_none()] finds. *)
Inductive OneOrNone : Set :=
| NoRow
| OneRow (r : NIMCounter)
| ManyRows.

Definition one_or_none (rows : list NIMCounter) : OneOrNone :=
  match rows with
  | [] => NoRow
  | [r] => OneRow r
  | _ :: _ :: _ => ManyRows
  end.

(** The primary key an INSERT gets: one past the largest in the table,
    1 in an empty table. *)
Definition next_id (rows : list NIMCounter) : Z :=
  match rows with
  | [] => 1
  | r :: rest => fold_right (fun x m => Z.max (nc_id x) m) (nc_id r) rest + 1
  end.

(** [counter.last_seq = seq; db.add(counter); db.flush()]: the UPDATE of
    the row with the primary key of [counter]. *)
Definition update_last_seq (id seq : Z) (rows : list NIMCounter) : list NIMCounter :=
  map (fun r => if nc_id r =? id
                then mkNIMCounter (nc_id r) (year r) (kode_prodi r) seq
                else r) rows.

(** [generate_nim(tahun, kode_prodi, db)]. The session runs alone, so the
    row lock of [with_for_update()] is always granted at once. *)
Definition generate_nim (tahun : Z) (kode_prodi : string) (db : DB) : Result * DB :=
  let kode := PyStr.upper (PyStr.strip kode_prodi) in
  if negb (PyStr.truthy kode) then
    (Raised (ValueError "kode_prodi must be a non-empty string"), db)
  else if (tahun <? 2000) || (tahun >? 9999) then
    (Raised (ValueError "tahun must be a four-digit year"), db)
  else
    match one_or_none (filter (matches tahun kode) (nim_counters db)) with
    | ManyRows => (Raised MultipleResultsFound, db)
    | NoRow =>
        let counter := mkNIMCounter (next_id (nim_counters db)) tahun kode 1 in
        let seq := 1 in
        (Returned (PyStr.str_of_int tahun ++ kode ++ PyStr.format_04d seq),
         set_nim_counters db (nim_counters db ++ [counter]))
    | OneRow counter =>
        let seq := last_seq counter + 1 in
        (Returned (PyStr.str_of_int tahun ++ kode ++ PyStr.format_04d seq),
         set_nim_counters db (update_last_seq (nc_id counter) seq (nim_counters db)))
    end.

End Utils.

(** ** Observations the statements are written with *)

Module Counters.

(** The pair that [UniqueConstraint('year', 'kode_prodi')] ranges over. *)
Definition key (r : NIMCounter) : Z * string := (year r, kode_prodi r).

(** The two constraints of the table: the primary key and the unique
    constraint on (year, kode_prodi). *)
Definition wf (rows : list NIMCounter) : Prop :=
  NoDup (map nc_id rows) /\ NoDup (map key rows).

Definition row_of (tahun : Z) (kode : string) (rows : list NIMCounter)
  : option NIMCounter :=
  find (Utils.matches tahun kode) rows.

(** The last sequence issued for a key, 0 while the key has no row. *)
Definition last_sequence (tahun : Z) (kode : string) (rows : list NIMCounter) : Z :=
  match row_of tahun kode rows with
  | Some r => last_seq r
  | None => 0
  end.

Definition seq_nonneg (rows : list NIMCounter) : Prop :=
  Forall (fun r => 0 <= last_seq r) rows.

End Counters.

(** The program code as [generate_nim] keys it. *)
Definition normalize (kode_prodi : string) : string :=
  PyStr.upper (PyStr.strip kode_prodi).

(** A string made of white space only. *)
Fixpoint all_space (s : string) : bool :=
  match s with
  | EmptyString => true
  | String c s' => PyStr.is_space c && all_space s'
  end.

(** [k] characters [0]. *)
Fixpoint zeros (k : nat) : string :=
  match k with
  | O => ""
  | S k' => String "0" (zeros k')
  end.

(** The padded digits, before they are printed. *)
Definition padded (d : Decimal.int) : Decimal.int :=
  match d with
  | Pos u => Pos (PyStr.zfill 4 u)
  | Neg u => Neg (PyStr.zfill 3 u)
  end.

(** The numbers from [lo], [len] of them. *)
Fixpoint zrange (lo : Z) (len : nat) : list Z :=
  match len with
  | O => []
  | S k => lo :: zrange (lo + 1) k
  end.

(** The first attempt of [range(5)] whose candidate no other row holds. *)
Definition first_free (id : Z) (prefix : string) (existing_count : nat) (db : DB)
  : option nat :=
  find (fun k => negb (nim_taken id (nim_candidate prefix existing_count k) db)) range5.


(** ** Sample databases *)

Module Samples.

(** A clock that stays in the year 2025; reading [n] is instant [n]. *)
Definition clock2025 (n : nat) : DateTime := mkDateTime 2025 (Z.of_nat n).

(** The first program of the seed data of [run_server.py]. *)
Definition tif : ProgramStudi := mkProgramStudi 1 "TIF" "Teknik Informatika" "Teknik".

(** The same program, stored with its code in lower case. *)
Definition tif_lower : ProgramStudi :=
  mkProgramStudi 1 "tif" "Teknik Informatika" "Teknik".

(** The candidate of [test_flow.py], with a given id, status and NIM. *)
Definition budi (id : Z) (st : Status) (n : option string) : CalonMahasiswa :=
  mkCalonMahasiswa id "Budi" "budi@example.com" "+628123456789" 20040101
    (Some "Jl. Contoh 1") 1 SNBP st (mkDateTime 2025 0)
    (match st with approved => Some (mkDateTime 2025 0) | _ => None end) n.

Definition db_empty : DB := mkDB [tif] [] [].

Definition db_pending : DB := mkDB [tif] [budi 1 pending None] [].

Definition db_approved : DB := mkDB [tif] [budi 1 approved (Some "2025TIF0001")] [].

Definition db_rejected : DB := mkDB [tif] [budi 1 rejected None] [].

(** One NIM was written by another path, out of step with the count. *)
Definition db_legacy : DB :=
  mkDB [tif] [budi 1 approved (Some "2025TIF0002"); budi 2 pending None] [].

(** Five NIMs in the way of all five attempts. *)
Definition db_crowded : DB :=
  mkDB [tif]
    [budi 1 approved (Some "2025TIF0006"); budi 2 approved (Some "2025TIF0007");
     budi 3 approved (Some "2025TIF0008"); budi 4 approved (Some "2025TIF0009");
     budi 5 approved (Some "2025TIF0010"); budi 6 pending None] [].

Definition db_lower : DB := mkDB [tif_lower] [budi 1 pending None] [].


(** The counter of (2025, TIF) has reached 9999. *)
Definition db_tif_9999 : DB := mkDB [tif] [] [mkNIMCounter 1 2025 "TIF" 9999].

End Samples.

(** ** Runs of [generate_nim], one call after the other *)

Module Serial.

(** One successful allocation: the key, the sequence the counter row
    holds after the call, and the NIM that was returned. *)
Record Issued : Set := mkIssued {
  i_year : Z;
  i_kode : string;
  i_seq : Z;
  i_nim : string
}.

(** The calls of [calls] run in this order on one database, each holding
    the lock of its row until it is done; the successful ones are
    logged. *)
Fixpoint allocations (calls : list (Z * string)) (db : DB) : list Issued :=
  match calls with
  | [] => []
  | (tahun, kode_prodi) :: rest =>
      match Utils.generate_nim tahun kode_prodi db with
      | (Utils.Returned n, db') =>
          mkIssued tahun (normalize kode_prodi)
            (Counters.last_sequence tahun (normalize kode_prodi) (nim_counters db')) n
          :: allocations rest db'
      | (Utils.Raised _, db') => allocations rest db'
      end
  end.

(** The checks at the head of [generate_nim]. *)
Definition valid_call (c : Z * string) : bool :=
  (2000 <=? fst c) && (fst c <=? 9999) && PyStr.truthy (PyStr.strip (snd c)).

(** What holds of every entry logged from [db] on. *)
Definition issued_from (db : DB) (e : Issued) : Prop :=
  Counters.last_sequence (i_year e) (i_kode e) (nim_counters db) < i_seq e /\
  2000 <= i_year e <= 9999 /\
  i_nim e = PyStr.str_of_int (i_year e) ++ i_kode e ++ PyStr.format_04d (i_seq e).

(** The relation between an allocation and a later one. *)
Definition apart (a b : Issued) : Prop :=
  ((i_year a, i_kode a) = (i_year b, i_kode b) ->
   i_seq a < i_seq b /\ i_nim a <> i_nim b) /\
  (i_seq a <= 9999 -> i_seq b <= 9999 -> i_nim a <> i_nim b).

End Serial.

(** ** The allocator as the specification words it *)

Module Spec.

(** Section 4.2 of the specification, in its words: call [nextSequence]
    for a sequence, format the NIM, persist; on a uniqueness violation
    call [nextSequence] again, up to the bound; past the bound signal
    [AllocationExhausted] ([None]). [nextSequence] and the format are
    those of [Utils.generate_nim]. *)
Fixpoint spec_allocate (bound : nat) (tahun : Z) (kode : string) (id : Z)
    (at_ : DateTime) (db : DB) : option string * DB :=
  match bound with
  | O => (None, db)
  | S b =>
      match Utils.generate_nim tahun kode db with
      | (Utils.Returned n, db1) =>
          match commit_approval id n at_ db1 with
          | Some db2 => (Some n, db2)
          | None => spec_allocate b tahun kode id at_ db1
          end
      | (Utils.Raised _, db1) => (None, db1)
      end
  end.

End Spec.

(** ** [models.py]: the placeholder method of a candidate *)

Module Models_methods.

(** [CalonMahasiswa.generate_nim(self)]: the NIM with the fixed sequence
    [0001], or [ValueError] for a candidate without a program. *)
Definition generate_nim (clock : nat -> DateTime) (self : CalonMahasiswa) (db : DB)
  : Utils.Result :=
  match program_studi_of self db with
  | None => Utils.Raised (Utils.ValueError "Program studi must be set for NIM generation")
  | Some ps =>
      let year := dt_year (clock 0%nat) in
      let kode := kode ps in
      Utils.Returned (PyStr.str_of_int year ++ kode ++ "0001")
  end.

End Models_methods.

(** ** The candidate table: its constraints and what an approval leaves alone *)

Module Candidates.

(** The primary key of [calon_mahasiswa]. *)
Definition pk_unique (rows : list CalonMahasiswa) : Prop :=
  NoDup (map cm_id rows).

(** The unique index on [nim]: no two rows hold the same NIM. *)
Definition nim_unique (rows : list CalonMahasiswa) : Prop :=
  forall i j a b n,
    nth_error rows i = Some a -> nth_error rows j = Some b ->
    nim a = Some n -> nim b = Some n -> i = j.

(** The columns of a row that an approval does not assign. *)
Definition personal (r : CalonMahasiswa) :=
  (cm_id r, nama_lengkap r, email r, phone r, tanggal_lahir r, alamat r,
   program_studi_id r, jalur_masuk r, created_at r).

(** The rows of the other candidates. *)
Definition others (id : Z) (db : DB) : list CalonMahasiswa :=
  filter (fun r => negb (cm_id r =? id)) (calon_mahasiswa db).

End Candidates.

(** ** Regular expressions, as far as the validators use them *)

Module Re.

(** Patterns without groups to capture: the empty set, the empty word,
    one character of a class, concatenation, alternation, repetition. *)
Inductive regex : Type :=
| Void
| Eps
| Class (p : ascii -> bool)
| Cat (r1 r2 : regex)
| Alt (r1 r2 : regex)
| Star (r : regex).

(** The words of a pattern. *)
Inductive lang : regex -> string -> Prop :=
| lang_eps : lang Eps ""
| lang_class (p : ascii -> bool) (c : ascii) : p c = true -> lang (Class p) (String c "")
| lang_cat (r1 r2 : regex) (s1 s2 : string) :
    lang r1 s1 -> lang r2 s2 -> lang (Cat r1 r2) (s1 ++ s2)
| lang_alt_l (r1 r2 : regex) (s : string) : lang r1 s -> lang (Alt r1 r2) s
| lang_alt_r (r1 r2 : regex) (s : string) : lang r2 s -> lang (Alt r1 r2) s
| lang_star_nil (r : regex) : lang (Star r) ""
| lang_star_cons (r : regex) (s1 s2 : string) :
    lang r s1 -> lang (Star r) s2 -> lang (Star r) (s1 ++ s2).

Fixpoint nullable (r : regex) : bool :=
  match r with
  | Void => false
  | Eps => true
  | Class _ => false
  | Cat r1 r2 => nullable r1 && nullable r2
  | Alt r1 r2 => nullable r1 || nullable r2
  | Star _ => true
  end.

(** The pattern of what may follow the character [c]. *)
Fixpoint deriv (c : ascii) (r : regex) : regex :=
  match r with
  | Void => Void
  | Eps => Void
  | Class p => if p c then Eps else Void
  | Cat r1 r2 =>
      if nullable r1 then Alt (Cat (deriv c r1) r2) (deriv c r2)
      else Cat (deriv c r1) r2
  | Alt r1 r2 => Alt (deriv c r1) (deriv c r2)
  | Star r1 => Cat (deriv c r1) (Star r1)
  end.

(** Whether the whole of [s] is a word of [r]. *)
Fixpoint accepts (r : regex) (s : string) : bool :=
  match s with
  | EmptyString => nullable r
  | String c s' => accepts (deriv c r) s'
  end.

(** One given character. *)
Definition Lit (c : ascii) : regex := Class (Ascii.eqb c).

(** The characters of [s], one after the other. *)
Fixpoint Str (s : string) : regex :=
  match s with
  | EmptyString => Eps
  | String c s' => Cat (Lit c) (Str s')
  end.

(** [r+] *)
Definition Plus (r : regex) : regex := Cat r (Star r).

(** [r{n}] *)
Fixpoint Rep (n : nat) (r : regex) : regex :=
  match n with
  | O => Eps
  | S k => Cat r (Rep k r)
  end.

(** [r{0,n}] *)
Fixpoint UpTo (n : nat) (r : regex) : regex :=
  match n with
  | O => Eps
  | S k => Alt Eps (Cat r (UpTo k r))
  end.

(** [r{m,n}] *)
Definition Between (m n : nat) (r : regex) : regex := Cat (Rep m r) (UpTo (n - m) r).

(** [r{m,}] *)
Definition AtLeast (m : nat) (r : regex) : regex := Cat (Rep m r) (Star r).

(** [re.match(pattern, s) is not None] for a pattern [^r$]: the match
    starts at the first character, and [$] stands at the end of the
    string or before a newline that ends it. *)
Definition re_match (r : regex) (s : string) : bool :=
  accepts (Cat r (Alt Eps (Lit "010"))) s.

(** [0-9] *)
Definition digit (c : ascii) : bool :=
  let n := nat_of_ascii c in ((48 <=? n) && (n <=? 57))%nat.

(** [1-9] *)
Definition digit19 (c : ascii) : bool :=
  let n := nat_of_ascii c in ((49 <=? n) && (n <=? 57))%nat.

(** [A-Za-z] *)
Definition alpha (c : ascii) : bool :=
  let n := nat_of_ascii c in
  ((65 <=? n) && (n <=? 90) || (97 <=? n) && (n <=? 122))%nat.

(** [+] or [0-9] *)
Definition plus_or_digit (c : ascii) : bool := Ascii.eqb c "+" || digit c.

(** Whether every character of [s] is in the class [p]. *)
Fixpoint all_chars (p : ascii -> bool) (s : string) : bool :=
  match s with
  | EmptyString => true
  | String c s' => p c && all_chars p s'
  end.

(** Whether [c] is one of the characters of [s]. *)
Fixpoint one_of (s : string) (c : ascii) : bool :=
  match s with
  | EmptyString => false
  | String d s' => Ascii.eqb c d || one_of s' c
  end.

End Re.

(** ** [models.py]: the patterns and the validators of a candidate *)

Module Models_validators.

Import Re.

(** [EMAIL_REGEX = ^[A-Za-z0-9._%+-]+@[A-Za-z0-9.-]+\.[A-Za-z]{2,}$] *)
Definition EMAIL_REGEX : regex :=
  Cat (Plus (Class (fun c => alpha c || digit c || one_of "._%+-" c)))
    (Cat (Lit "@")
       (Cat (Plus (Class (fun c => alpha c || digit c || one_of ".-" c)))
          (Cat (Lit ".") (AtLeast 2 (Class alpha))))).

(** [PHONE_REGEX = ^(?:\+62|62|0)8[1-9][0-9]{6,10}$] *)
Definition PHONE_REGEX : regex :=
  Cat (Alt (Str "+62") (Alt (Str "62") (Str "0")))
    (Cat (Lit "8") (Cat (Class digit19) (Between 6 10 (Class digit)))).

(** [validate_email(self, key, value)] *)
Definition validate_email (value : string) : Utils.Result :=
  if negb (re_match EMAIL_REGEX value) then
    Utils.Raised (Utils.ValueError "Invalid email format")
  else Utils.Returned value.

(** [validate_phone(self, key, value)] *)
Definition validate_phone (value : string) : Utils.Result :=
  let val := PyStr.strip value in
  if negb (re_match PHONE_REGEX val) then
    Utils.Raised
      (Utils.ValueError
         "Invalid Indonesian phone number format (expect +62/62/0 followed by 8...)")
  else Utils.Returned val.

End Models_validators.

(** ** [schemas.py]: the phone check of the request body *)

Module Schemas.

(** [PHONE_REGEX], the same pattern as in [models.py]. *)
Definition PHONE_REGEX : Re.regex := Models_validators.PHONE_REGEX.

(** [CalonMahasiswaBase.validate_phone(cls, v)] *)
Definition validate_phone (v : string) : Utils.Result :=
  if negb (Re.re_match PHONE_REGEX v) then
    Utils.Raised (Utils.ValueError "Invalid Indonesian phone number format")
  else Utils.Returned v.

End Schemas.

(** ** What the ORM session does for the other commands *)

Module Tables.

(** The primary key an INSERT gets: one past the largest in the table,
    1 in an empty table. *)
Definition fresh_id (ids : list Z) : Z :=
  match ids with
  | [] => 1
  | i :: rest => fold_right Z.max i rest + 1
  end.

(** [str.lower()] on one ASCII character; SQLite's [lower()] is the same. *)
Definition to_lower (c : ascii) : ascii :=
  let n := nat_of_ascii c in
  if ((65 <=? n) && (n <=? 90))%nat then ascii_of_nat (n + 32) else c.

(** [str.lower()] *)
Fixpoint lower (s : string) : string :=
  match s with
  | EmptyString => EmptyString
  | String c s' => String (to_lower c) (lower s')
  end.

(** [db.query(ProgramStudi).filter(ProgramStudi.kode == kode).first()] *)
Definition first_program_kode (k : string) (db : DB) : option ProgramStudi :=
  find (fun p => String.eqb (kode p) k) (program_studi db).

(** [db.query(ProgramStudi).filter(ProgramStudi.id == id).first()] *)
Definition first_program_id (id : Z) (db : DB) : option ProgramStudi :=
  find (fun p => ps_id p =? id) (program_studi db).

(** The INSERT of a program; [None] is the [IntegrityError] of the unique
    index on [kode]. *)
Definition insert_program (k nm fak : string) (db : DB) : option DB :=
  if existsb (fun p => String.eqb (kode p) k) (program_studi db) then None
  else Some (mkDB (program_studi db
                   ++ [mkProgramStudi (fresh_id (map ps_id (program_studi db))) k nm fak])
               (calon_mahasiswa db) (nim_counters db)).

(** [func.lower(CalonMahasiswa.email) == email.lower()], first row. *)
Definition first_calon_email (e : string) (db : DB) : option CalonMahasiswa :=
  find (fun r => String.eqb (lower (email r)) (lower e)) (calon_mahasiswa db).

End Tables.

Import Tables.

Module Models_new.

(** The keyword arguments of [CalonMahasiswa(...)] once the validators
    have run; the status is [pending]. *)
Record Pending : Set := mkPending {
  n_nama_lengkap : string;
  n_email : string;
  n_phone : string;
  n_tanggal_lahir : Z;
  n_alamat : option string;
  n_program_studi_id : Z;
  n_jalur_masuk : JalurMasuk
}.

Inductive Constructed : Set :=
| Built (c : Pending)
| Invalid (msg : string).          (* ValueError of a validator *)

(** [CalonMahasiswa(nama_lengkap=..., email=..., phone=..., ...,
    status="pending")]: the attributes are set in this order, [email]
    and [phone] through their validators. *)
Definition new_calon (nama e ph : string) (tgl : Z) (al : option string) (psid : Z)
    (jalur : JalurMasuk) : Constructed :=
  match Models_validators.validate_email e with
  | Utils.Raised _ => Invalid "Invalid email format"
  | Utils.Returned e' =>
      match Models_validators.validate_phone ph with
      | Utils.Raised _ =>
          Invalid "Invalid Indonesian phone number format (expect +62/62/0 followed by 8...)"
      | Utils.Returned ph' => Built (mkPending nama e' ph' tgl al psid jalur)
      end
  end.

(** [db.add(calon); db.commit(); db.refresh(calon)]: the INSERT, with
    the defaults of the columns. [None] is the [IntegrityError] of the
    unique index on [email]. *)
Definition insert_calon (now : DateTime) (c : Pending) (db : DB)
  : option (CalonMahasiswa * DB) :=
  if existsb (fun r => String.eqb (email r) (n_email c)) (calon_mahasiswa db) then None
  else
    let row :=
      mkCalonMahasiswa (fresh_id (map cm_id (calon_mahasiswa db)))
        (n_nama_lengkap c) (n_email c) (n_phone c) (n_tanggal_lahir c) (n_alamat c)
        (n_program_studi_id c) (n_jalur_masuk c) pending now None None in
    Some (row, set_calon_mahasiswa db (calon_mahasiswa db ++ [row])).

End Models_new.

Import Models_new.

(** ** [main.py]: registration and status *)

Module Main_more.

(** The request body after [CalonMahasiswaCreate] has accepted it. *)
Record CalonMahasiswaCreate : Set := mkCreate {
  p_nama_lengkap : string;
  p_email : string;
  p_phone : string;
  p_tanggal_lahir : Z;
  p_alamat : option string;
  p_program_studi_id : Z;
  p_jalur_masuk : JalurMasuk
}.

Inductive Reply : Set :=
| Calon (status_code : Z) (c : CalonMahasiswa)      (* the row, as CalonMahasiswaOut *)
| HTTPException (status_code : Z) (detail : string)
| Unhandled (exc : string).

(** [POST /register] *)
Definition register_mahasiswa (clock : nat -> DateTime) (payload : CalonMahasiswaCreate)
    (db : DB) : Reply * DB :=
  match first_program_id (p_program_studi_id payload) db with
  | None =>
      (HTTPException 400
         ("program_studi_id " ++ PyStr.str_of_int (p_program_studi_id payload)
          ++ " not found"), db)
  | Some program =>
      match first_calon_email (p_email payload) db with
      | Some _ => (HTTPException 409 "Email already registered", db)
      | None =>
          match new_calon (p_nama_lengkap payload) (p_email payload) (p_phone payload)
                  (p_tanggal_lahir payload) (p_alamat payload)
                  (p_program_studi_id payload) (p_jalur_masuk payload) with
          | Invalid _ => (Unhandled "ValueError", db)
          | Built calon =>
              match insert_calon (clock 0%nat) calon db with
              | None => (Unhandled "IntegrityError", db)
              | Some (row, db') => (Calon 201 row, db')
              end
          end
      end
  end.

(** [GET /status/{id}]: what the function returns. FastAPI then
    serializes a returned row through [response_model=CalonMahasiswaOut];
    that validation is not part of this definition. A row that
    [register_mahasiswa] wrote comes from a body that already passed
    the same field checks. *)
Definition get_status (id : Z) (db : DB) : Reply :=
  match first_calon id db with
  | None => HTTPException 404 "Calon mahasiswa not found"
  | Some calon => Calon 200 calon
  end.

End Main_more.

(** ** [cli_register.py]: validation, programs and registration *)

Module Cli_register_more.

Import Re.

(** [EMAIL_REGEX], the same pattern as in [models.py]. *)
Definition EMAIL_REGEX : regex := Models_validators.EMAIL_REGEX.

(** [PHONE_REGEX = ^[+0-9]{7,}$] *)
Definition PHONE_REGEX : regex :=
  AtLeast 7 (Class plus_or_digit).

Definition validate_email (e : string) : bool := re_match EMAIL_REGEX e.

Definition validate_phone (ph : string) : bool := re_match PHONE_REGEX ph.

(** [PROGRAM_STUDI_MAP], in the order of the dictionary: code, then
    [nama] and [fakultas]. *)
Definition PROGRAM_STUDI_MAP : list (string * (string * string)) :=
  [("TIF", ("Teknik Informatika", "FTI"));
   ("SI", ("Sistem Informasi", "FTI"));
   ("FARM", ("Farmasi", "FIKES"));
   ("MESIN", ("Teknik Mesin", "FT"))].

(** The loop of [ensure_program_studi] over the items that are left. *)
Fixpoint ensure_items (items : list (string * (string * string))) (db : DB)
  : option DB :=
  match items with
  | [] => Some db
  | (k, info) :: rest =>
      match first_program_kode k db with
      | Some _ => ensure_items rest db
      | None =>
          match insert_program k (fst info) (snd info) db with
          | Some db' => ensure_items rest db'
          | None => None
          end
      end
  end.

(** [ensure_program_studi()]; [None] is an [IntegrityError] nobody
    catches, with nothing committed. *)
Definition ensure_program_studi (db : DB) : option DB :=
  ensure_items PROGRAM_STUDI_MAP db.

(** [get_program_studi_id(kode)] *)
Definition get_program_studi_id (k : string) (db : DB) : option Z :=
  match first_program_kode k db with
  | Some ps => Some (ps_id ps)
  | None => None
  end.

(** [", ".join(keys)] *)
Fixpoint join_comma (keys : list string) : string :=
  match keys with
  | [] => ""
  | [k] => k
  | k :: rest => k ++ ", " ++ join_comma rest
  end.

(** The arguments of the [register] subcommand; [--jalur] is one of the
    three choices of the parser. *)
Record Args : Set := mkArgs {
  a_name : string;
  a_email : string;
  a_phone : string;
  a_dob : string;
  a_alamat : string;
  a_program : string;
  a_jalur : JalurMasuk
}.

Section Register.

(** [datetime.fromisoformat(s).date()], [None] when it raises; and the
    text of an [IntegrityError]. *)
Variable fromisoformat : string -> option Z.
Variable integrity_text : string.

(** [register(args)] *)
Definition register (clock : nat -> DateTime) (args : Args) (db : DB)
  : Cli_register.Outcome * DB :=
  let email := PyStr.strip (a_email args) in
  let phone := PyStr.strip (a_phone args) in
  let program_kode := PyStr.upper (a_program args) in
  if negb (validate_email email) then
    (Cli_register.mkOutcome 2 ["ERROR: Email tidak valid: " ++ email], db)
  else if negb (validate_phone phone) then
    (Cli_register.mkOutcome 3
       ["ERROR: Nomor telepon tidak valid (minimal 7 digit): " ++ phone], db)
  else
    match first_program_kode program_kode db with
    | None =>
        let available := join_comma (map fst PROGRAM_STUDI_MAP) in
        (Cli_register.mkOutcome 4
           ["ERROR: Program studi '" ++ program_kode
            ++ "' tidak ditemukan. Program tersedia: " ++ available], db)
    | Some prog =>
        match first_calon_email email db with
        | Some _ =>
            (Cli_register.mkOutcome 5
               ["ERROR: Email sudah terdaftar (DUPLIKAT): " ++ email], db)
        | None =>
            match fromisoformat (a_dob args) with
            | None =>
                (Cli_register.mkOutcome 7
                   ["ERROR: Format tanggal_lahir tidak valid (pakai YYYY-MM-DD): "
                    ++ a_dob args], db)
            | Some tanggal =>
                match new_calon (a_name args) email phone tanggal
                        (if PyStr.truthy (a_alamat args)
                         then Some (a_alamat args) else None)
                        (ps_id prog) (a_jalur args) with
                | Invalid _ => (Cli_register.Uncaught "ValueError", db)
                | Built calon =>
                    match insert_calon (clock 0%nat) calon db with
                    | None =>
                        (Cli_register.mkOutcome 9
                           ["ERROR: Duplikat atau constraint violation: "
                            ++ integrity_text], db)
                    | Some (row, db') =>
                        match program_studi_of row db' with
                        | None => (Cli_register.Uncaught "AttributeError", db')
                        | Some ps =>
                            (Cli_register.mkOutcome 0
                               ["SUCCESS: Calon mahasiswa tersimpan dengan status PENDING:";
                                "  ID: " ++ PyStr.str_of_int (cm_id row);
                                "  Nama: " ++ nama_lengkap row;
                                "  Email: " ++ Models.email row;
                                "  Phone: " ++ Models.phone row;
                                "  Program Studi: " ++ nama ps ++ " (" ++ kode ps ++ ")";
                                "  Status: " ++ status_str (status row);
                                "  NIM: " ++ PyStr.str_of_opt (nim row)], db')
                        end
                    end
                end
            end
        end
    end.

End Register.

End Cli_register_more.

(** ** [run_server.py]: the seed data *)

Module Run_server.

(** The three programs of [seed_data], in the order of [add_all]. *)
Definition programs : list (string * (string * string)) :=
  [("TIF", ("Teknik Informatika", "Teknik"));
   ("SIB", ("Sistem Informasi Bisnis", "Bisnis"));
   ("KOM", ("Komunikasi", "Ilmu Sosial"))].

(** The INSERTs of [db.add_all(programs); db.commit()]. *)
Fixpoint add_all (items : list (string * (string * string))) (db : DB) : option DB :=
  match items with
  | [] => Some db
  | (k, info) :: rest =>
      match insert_program k (fst info) (snd info) db with
      | Some db' => add_all rest db'
      | None => None
      end
  end.

(** [seed_data()]: the printed line and the database; [None] is an
    [IntegrityError] nobody catches. *)
Definition seed_data (db : DB) : option (string * DB) :=
  if (List.length (program_studi db) =? 0)%nat then
    match add_all programs db with
    | Some db' => Some ("[OK] Seed data loaded successfully", db')
    | None => None
    end
  else Some ("[OK] Seed data already exists", db).

End Run_server.

(** ** The constraints of the program table and of the e-mail column *)

Module Constraints.

(** The unique index on [program_studi.kode]. *)
Definition kode_unique (rows : list ProgramStudi) : Prop := NoDup (map kode rows).

(** The primary key of [program_studi]. *)
Definition program_pk_unique (rows : list ProgramStudi) : Prop := NoDup (map ps_id rows).

(** No two candidates with the same e-mail address, letter case aside:
    what the check before an INSERT looks for. *)
Definition email_unique (rows : list CalonMahasiswa) : Prop :=
  NoDup (map (fun r => lower (email r)) rows).

(** The row that the INSERT of a candidate writes. *)
Definition inserted (now : DateTime) (c : Pending) (db : DB) : CalonMahasiswa :=
  mkCalonMahasiswa (fresh_id (map cm_id (calon_mahasiswa db)))
    (n_nama_lengkap c) (n_email c) (n_phone c) (n_tanggal_lahir c) (n_alamat c)
    (n_program_studi_id c) (n_jalur_masuk c) pending now None None.

End Constraints.

(** ** More sample data *)

Module Samples_more.

(** The request body of [test_flow.py]. *)
Definition payload_budi : Main_more.CalonMahasiswaCreate :=
  Main_more.mkCreate "Budi" "budi@example.com" "+628123456789" 20040101
    (Some "Jl. Contoh 1") 1 SNBP.

(** The same person under an e-mail address in capitals. *)
Definition payload_budi_caps : Main_more.CalonMahasiswaCreate :=
  Main_more.mkCreate "Budi" "BUDI@EXAMPLE.COM" "+628123456789" 20040101
    (Some "Jl. Contoh 1") 1 SNBP.

(** The arguments of the example in the module docstring of
    [cli_register.py]. *)
Definition args_bima : Cli_register_more.Args :=
  Cli_register_more.mkArgs "Bima" "Bima@gmail.com" "081234567890" "2000-01-01" ""
    "TIF" SNBP.

(** A date reader that reads every text as day 0. *)
Definition any_date (s : string) : option Z := Some 0.

End Samples_more.

(** ** The alphabet of the model *)

(** [str.isascii()]: every character is one of U+0000 to U+007F. On such
    strings [PyStr.strip] and [PyStr.upper] are Python's [str.strip] and
    [str.upper]; Python also strips white space and maps letters that lie
    outside ASCII, so a statement that depends on how a string with such
    characters is stripped or upper-cased carries [isascii] as a
    hypothesis. *)
Fixpoint isascii (s : string) : bool :=
  match s with
  | EmptyString => true
  | String c s' => (nat_of_ascii c <? 128)%nat && isascii s'
  end.

(** ** Concurrent callers of [generate_nim] *)

Module Concurrent.

(** Where one caller stands. Every caller runs [generate_nim] on a
    session of its own, inside one transaction; [generate_nim] only
    flushes, so the caller ends the transaction: it commits once the
    call has returned, unless the transaction is rolled back before.
    What a transaction has flushed is seen by the others from its
    commit on (READ COMMITTED). *)
Inductive Point : Set :=
| Called (tahun : Z) (kode_prodi : string)      (* before line 16 *)
| AtQuery (tahun : Z) (kode : string)           (* lines 16-20 passed, at line 28 *)
| Missing (tahun : Z) (kode : string)           (* line 30: [counter is None] *)
| Holding (tahun : Z) (kode : string) (counter : NIMCounter)
                                                (* line 35: the row as it was read *)
| Inserted (tahun : Z) (kode : string) (nim : string)
                                                (* lines 31-34 and 42-43: returned [nim] *)
| Updated (tahun : Z) (kode : string) (id seq : Z) (nim : string)
                                                (* lines 37-40 and 42-43: returned [nim] *)
| Committed (tahun : Z) (kode : string) (seq : Z) (nim : string)
| Failed (e : Utils.Exc)                        (* lines 18, 20, or line 28 raising *)
| IntegrityError                                (* line 33 raising, re-raised at line 46 *)
| RolledBack.                                   (* the transaction was rolled back *)

(** The committed database and the callers, numbered from 0. *)
Record State : Set := mkState { store : DB; callers : list Point }.

(** The list with entry [i] replaced. *)
Fixpoint put (i : nat) (p : Point) (l : list Point) : list Point :=
  match l, i with
  | [], _ => []
  | _ :: r, O => p :: r
  | x :: r, S i' => x :: put i' p r
  end.

(** The callers other than [i]. *)
Fixpoint others (i : nat) (l : list Point) : list Point :=
  match l, i with
  | [], _ => []
  | _ :: r, O => r
  | x :: r, S i' => x :: others i' r
  end.

(** The lock every UPDATE takes on the row it writes, held to the end
    of the transaction. *)
Definition write_lock (id : Z) (p : Point) : bool :=
  match p with
  | Updated _ _ id' _ _ => id' =? id
  | _ => false
  end.

(** The locks on a row that [SELECT ... FOR UPDATE] waits for and then
    takes: the lock of another such SELECT, held on the row it read
    from the SELECT to the end of the transaction, or the lock of an
    UPDATE. *)
Definition row_lock (id : Z) (p : Point) : bool :=
  match p with
  | Holding _ _ counter => nc_id counter =? id
  | _ => write_lock id p
  end.

(** An INSERT of the key that is flushed and not yet committed: the
    unique index makes another INSERT of the same key wait for it. *)
Definition key_lock (tahun : Z) (kode : string) (p : Point) : bool :=
  match p with
  | Inserted t k _ => (t =? tahun) && String.eqb k kode
  | _ => false
  end.

Definition move (i : nat) (p : Point) (st : State) : State :=
  mkState (store st) (put i p (callers st)).

(** One step of caller [i]; a caller that waits, or is done, stays
    where it is. [for_update] tells whether the database honours
    [SELECT ... FOR UPDATE]: where it does, the SELECT waits while
    another transaction holds a lock on the row, and then reads the row
    as committed. The INSERT meets the unique constraint on a committed
    row of its key, and waits for an INSERT of its key that is not yet
    committed. The commit makes the flushed write visible; the id of a
    new row is the one free at that time. *)
Definition step (for_update : bool) (i : nat) (st : State) : State :=
  match nth_error (callers st) i with
  | None => st
  | Some (Called tahun kode_prodi) =>           (* lines 16-20 *)
      let kode := PyStr.upper (PyStr.strip kode_prodi) in
      if negb (PyStr.truthy kode) then
        move i (Failed (Utils.ValueError "kode_prodi must be a non-empty string")) st
      else if (tahun <? 2000) || (tahun >? 9999) then
        move i (Failed (Utils.ValueError "tahun must be a four-digit year")) st
      else move i (AtQuery tahun kode) st
  | Some (AtQuery tahun kode) =>                (* lines 23-28: the SELECT *)
      match Utils.one_or_none
              (filter (Utils.matches tahun kode) (nim_counters (store st))) with
      | Utils.ManyRows => move i (Failed Utils.MultipleResultsFound) st
      | Utils.NoRow => move i (Missing tahun kode) st
      | Utils.OneRow counter =>
          if for_update
             && existsb (row_lock (nc_id counter)) (others i (callers st))
          then st
          else move i (Holding tahun kode counter) st
      end
  | Some (Missing tahun kode) =>                (* lines 31-34, 42-43: the INSERT *)
      if existsb (Utils.matches tahun kode) (nim_counters (store st)) then
        move i IntegrityError st
      else if existsb (key_lock tahun kode) (others i (callers st)) then st
      else
        let seq := 1 in
        move i (Inserted tahun kode
                  (PyStr.str_of_int tahun ++ kode ++ PyStr.format_04d seq)) st
  | Some (Holding tahun kode counter) =>        (* lines 37-40, 42-43: the UPDATE *)
      if existsb (write_lock (nc_id counter)) (others i (callers st)) then st
      else
        let seq := last_seq counter + 1 in
        move i (Updated tahun kode (nc_id counter) seq
                  (PyStr.str_of_int tahun ++ kode ++ PyStr.format_04d seq)) st
  | Some (Inserted tahun kode nim) =>           (* the caller's commit *)
      let rows := nim_counters (store st) in
      let counter := mkNIMCounter (Utils.next_id rows) tahun kode 1 in
      mkState (set_nim_counters (store st) (rows ++ [counter]))
              (put i (Committed tahun kode 1 nim) (callers st))
  | Some (Updated tahun kode id seq nim) =>     (* the caller's commit *)
      mkState (set_nim_counters (store st)
                 (Utils.update_last_seq id seq (nim_counters (store st))))
              (put i (Committed tahun kode seq nim) (callers st))
  | Some (Committed _ _ _ _) | Some (Failed _) | Some IntegrityError
  | Some RolledBack => st
  end.

(** The rollback of the transaction of caller [i], at any point from
    the query on: the caller gives up, a wait for a lock times out,
    the connection is lost. What the transaction flushed is discarded
    and its locks are released. *)
Definition rollback (i : nat) (st : State) : State :=
  match nth_error (callers st) i with
  | Some (AtQuery _ _) | Some (Missing _ _) | Some (Holding _ _ _)
  | Some (Inserted _ _ _) | Some (Updated _ _ _ _ _) => move i RolledBack st
  | _ => st
  end.

(** What a schedule is made of. *)
Inductive Event : Set :=
| Step (i : nat)
| Rollback (i : nat).

(** The callers move as the schedule names them. *)
Fixpoint run (for_update : bool) (schedule : list Event) (st : State) : State :=
  match schedule with
  | [] => st
  | Step i :: rest => run for_update rest (step for_update i st)
  | Rollback i :: rest => run for_update rest (rollback i st)
  end.

(** A schedule without rollbacks: the callers that step, in order. *)
Definition turns (l : list nat) : list Event := map Step l.

(** All callers before their call. *)
Definition start (db : DB) (calls : list (Z * string)) : State :=
  mkState db (map (fun c => Called (fst c) (snd c)) calls).

(** The allocation of a caller whose call has returned and whose
    transaction was not rolled back. *)
Definition issued (p : Point) : option Serial.Issued :=
  match p with
  | Inserted t k nim => Some (Serial.mkIssued t k 1 nim)
  | Updated t k _ seq nim => Some (Serial.mkIssued t k seq nim)
  | Committed t k seq nim => Some (Serial.mkIssued t k seq nim)
  | _ => None
  end.


(** A caller outside its transaction: before the call, or after the
    commit or the exception. *)
Definition idle (p : Point) : bool :=
  match p with
  | Called _ _ | Committed _ _ _ _ | Failed _ | IntegrityError | RolledBack => true
  | _ => false
  end.

(** The counter of (2025, TIF) stands at 5. *)
Definition db_tif_5 : DB := mkDB [Samples.tif] [] [mkNIMCounter 1 2025 "TIF" 5].

(** What the committed table holds for a caller at its point. *)
Definition good (rows : list NIMCounter) (p : Point) : Prop :=
  match p with
  | Called _ _ | Failed _ | IntegrityError | RolledBack => True
  | AtQuery t _ | Missing t _ => 2000 <= t <= 9999
  | Holding t k c =>
      2000 <= t <= 9999 /\ In c rows /\ Counters.key c = (t, k)
  | Inserted t k nim =>
      2000 <= t <= 9999 /\ Counters.row_of t k rows = None /\
      nim = PyStr.str_of_int t ++ k ++ PyStr.format_04d 1
  | Updated t k id seq nim =>
      2000 <= t <= 9999 /\
      (exists c, In c rows /\ Counters.key c = (t, k) /\ nc_id c = id /\
                 seq = last_seq c + 1) /\
      nim = PyStr.str_of_int t ++ k ++ PyStr.format_04d seq
  | Committed t k seq nim =>
      2000 <= t <= 9999 /\
      (exists c, In c rows /\ Counters.key c = (t, k) /\ seq <= last_seq c) /\
      nim = PyStr.str_of_int t ++ k ++ PyStr.format_04d seq
  end.

(** No lock is held twice, and no sequence was committed twice for one
    key. *)
Definition exclusive (p q : Point) : Prop :=
  (forall id, row_lock id p = true -> row_lock id q = false) /\
  (forall t k, key_lock t k p = true -> key_lock t k q = false) /\
  match p, q with
  | Committed t k s _, Committed t' k' s' _ => (t, k) = (t', k') -> s <> s'
  | _, _ => True
  end.

(** The invariant of a database that honours [FOR UPDATE]. *)
Definition invariant (st : State) : Prop :=
  Counters.wf (nim_counters (store st)) /\
  (forall i p, nth_error (callers st) i = Some p ->
               good (nim_counters (store st)) p) /\
  (forall i j p q, i <> j ->
     nth_error (callers st) i = Some p ->
     nth_error (callers st) j = Some q -> exclusive p q).

(** No counter is negative and no sequence below 1 was issued. *)
Definition positive (st : State) : Prop :=
  Counters.seq_nonneg (nim_counters (store st)) /\
  (forall i p a, nth_error (callers st) i = Some p ->
                 issued p = Some a -> 1 <= Serial.i_seq a).

End Concurrent.

(** ** Strings *)

Section StringFacts.

Lemma append_assoc (a b c : string) : (a ++ b) ++ c = a ++ (b ++ c).
Proof. induction a as [|x a IH]; simpl; [reflexivity | now rewrite IH]. Qed.

Lemma append_length (a b : string) :
  String.length (a ++ b) = (String.length a + String.length b)%nat.
Proof. induction a as [|x a IH]; simpl; [reflexivity | now rewrite IH]. Qed.

Lemma append_inj_left (a c b d : string) :
  a ++ b = c ++ d -> String.length a = String.length c -> a = c /\ b = d.
Proof.
  revert c. induction a as [|x a IH]; intros [|y c]; simpl; intros E L;
    try discriminate.
  - now split.
  - injection E as -> E. injection L as L.
    destruct (IH _ E L) as [-> ->]. now split.
Qed.

Lemma append_inj_right (a c b d : string) :
  a ++ b = c ++ d -> String.length b = String.length d -> a = c /\ b = d.
Proof.
  intros E L. apply append_inj_left; [exact E|].
  apply (f_equal String.length) in E. rewrite !append_length in E. lia.
Qed.

Lemma append_inv_head (a b c : string) : a ++ b = a ++ c -> b = c.
Proof. intros E. now apply append_inj_left in E. Qed.

Lemma upper_length (s : string) : String.length (PyStr.upper s) = String.length s.
Proof. induction s as [|c s IH]; simpl; [reflexivity | now rewrite IH]. Qed.

Lemma truthy_upper (s : string) : PyStr.truthy (PyStr.upper s) = PyStr.truthy s.
Proof. now destruct s. Qed.

Lemma truthy_false (s : string) : PyStr.truthy s = false <-> s = "".
Proof. destruct s; simpl; split; intros; congruence. Qed.

Lemma rstrip_empty_iff (s : string) : PyStr.rstrip s = "" <-> all_space s = true.
Proof.
  induction s as [|c s IH]; simpl; [tauto|].
  destruct (PyStr.rstrip s) eqn:R.
  - destruct (PyStr.is_space c); simpl.
    + rewrite <- IH. tauto.
    + split; discriminate.
  - split; [discriminate|]. intros H. apply andb_prop in H as [_ H].
    apply IH in H. discriminate.
Qed.

Lemma lstrip_rstrip_empty (s : string) :
  PyStr.lstrip (PyStr.rstrip s) = "" -> PyStr.rstrip s = "".
Proof.
  induction s as [|c s IH]; simpl; [tauto|].
  destruct (PyStr.rstrip s) eqn:R.
  - destruct (PyStr.is_space c) eqn:C; simpl; [tauto|]. now rewrite C.
  - simpl. destruct (PyStr.is_space c) eqn:C; [|discriminate].
    intros H. specialize (IH H). discriminate.
Qed.

Lemma strip_empty_iff (s : string) : PyStr.strip s = "" <-> all_space s = true.
Proof.
  unfold PyStr.strip. rewrite <- rstrip_empty_iff. split.
  - apply lstrip_rstrip_empty.
  - intros ->. reflexivity.
Qed.

End StringFacts.

(** ** Decimal printing *)

Section DecimalFacts.

Lemma str_of_int_inj (a b : Z) : PyStr.str_of_int a = PyStr.str_of_int b -> a = b.
Proof.
  unfold PyStr.str_of_int. intros E.
  apply (f_equal NilEmpty.int_of_string) in E. rewrite !NilEmpty.isi in E.
  injection E as E. now apply DecimalZ.to_int_inj.
Qed.

Lemma format_04d_padded (n : Z) :
  PyStr.format_04d n = NilEmpty.string_of_int (padded (Z.to_int n)).
Proof. unfold PyStr.format_04d, padded. now destruct (Z.to_int n). Qed.

Lemma of_uint_zeros (k : nat) (u : uint) :
  Pos.of_uint (Nat.iter k D0 u) = Pos.of_uint u.
Proof. induction k as [|k IH]; simpl; [reflexivity | exact IH]. Qed.

Lemma of_int_padded (d : Decimal.int) : Z.of_int (padded d) = Z.of_int d.
Proof.
  destruct d as [u|u]; simpl; unfold Z.of_uint, PyStr.zfill;
    now rewrite of_uint_zeros.
Qed.

Lemma format_04d_inj (a b : Z) : PyStr.format_04d a = PyStr.format_04d b -> a = b.
Proof.
  rewrite !format_04d_padded. intros E.
  apply (f_equal NilEmpty.int_of_string) in E. rewrite !NilEmpty.isi in E.
  injection E as E. apply (f_equal Z.of_int) in E.
  now rewrite !of_int_padded, !DecimalZ.of_to in E.
Qed.

Lemma string_of_uint_length (u : uint) :
  String.length (NilEmpty.string_of_uint u) = nb_digits u.
Proof. induction u; simpl; congruence. Qed.

Lemma usize_nb_digits (u : uint) : Unsigned.usize u = N.of_nat (nb_digits u).
Proof.
  induction u; simpl Unsigned.usize; simpl nb_digits;
    rewrite ?Nat2N.inj_succ; try rewrite IHu; reflexivity.
Qed.

Lemma of_lu_bound (u : uint) : (Unsigned.of_lu u < 10 ^ Unsigned.usize u)%N.
Proof.
  induction u; cbn [Unsigned.of_lu Unsigned.usize];
    [ rewrite N.pow_0_r; lia | rewrite N.pow_succ_r'; lia .. ].
Qed.

Lemma pos_digits_bound (p : positive) :
  (N.pos p < 10 ^ N.of_nat (nb_digits (Pos.to_uint p)))%N.
Proof.
  rewrite <- (DecimalPos.Unsigned.of_to p) at 1.
  rewrite Unsigned.of_uint_alt.
  rewrite <- (nb_digits_rev (Pos.to_uint p)), <- usize_nb_digits.
  apply of_lu_bound.
Qed.

Lemma wide_digits (p : positive) :
  (10000 <= p)%positive -> (5 <= nb_digits (Pos.to_uint p))%nat.
Proof.
  intros H. pose proof (pos_digits_bound p) as B.
  destruct (Nat.le_gt_cases 5 (nb_digits (Pos.to_uint p))) as [|L]; [assumption|].
  exfalso.
  assert (10 ^ N.of_nat (nb_digits (Pos.to_uint p)) <= 10 ^ 4)%N as P
    by (apply N.pow_le_mono_r; lia).
  change (10 ^ 4)%N with 10000%N in P. lia.
Qed.

(** Above 9999 nothing is padded and nothing is cut. *)
Lemma format_04d_wide (n : Z) :
  9999 < n ->
  PyStr.format_04d n = PyStr.str_of_int n /\
  (5 <= String.length (PyStr.format_04d n))%nat.
Proof.
  intros H. destruct n as [|p|p]; try lia.
  assert (5 <= nb_digits (Pos.to_uint p))%nat as W by (apply wide_digits; lia).
  assert (PyStr.format_04d (Z.pos p) = PyStr.str_of_int (Z.pos p)) as E.
  { unfold PyStr.format_04d, PyStr.str_of_int, PyStr.zfill.
    cbn [Z.to_int NilEmpty.string_of_int].
    replace (4 - nb_digits (Pos.to_uint p))%nat with 0%nat by lia. reflexivity. }
  split; [exact E|]. rewrite E. unfold PyStr.str_of_int.
  cbn [Z.to_int NilEmpty.string_of_int].
  now rewrite string_of_uint_length.
Qed.

Lemma zrange_In (len : nat) (lo n : Z) :
  lo <= n < lo + Z.of_nat len -> In n (zrange lo len).
Proof.
  revert lo. induction len as [|k IH]; intros lo H; simpl; [lia|].
  destruct (Z.eq_dec lo n) as [->|N]; [now left|].
  right. apply IH. lia.
Qed.

Lemma format_04d_narrow (n : Z) :
  0 <= n <= 9999 -> String.length (PyStr.format_04d n) = 4%nat.
Proof.
  intros H.
  assert (forallb (fun k => (String.length (PyStr.format_04d k) =? 4)%nat)
            (zrange 0 (Z.to_nat 10000)) = true) as A by (vm_compute; reflexivity).
  rewrite forallb_forall in A.
  apply Nat.eqb_eq, A, zrange_In. rewrite Z2Nat.id; lia.
Qed.

Lemma str_of_int_year (y : Z) :
  1000 <= y <= 9999 -> String.length (PyStr.str_of_int y) = 4%nat.
Proof.
  intros H.
  assert (forallb (fun k => (String.length (PyStr.str_of_int k) =? 4)%nat)
            (zrange 1000 (Z.to_nat 9000)) = true) as A by (vm_compute; reflexivity).
  rewrite forallb_forall in A.
  apply Nat.eqb_eq, A, zrange_In. rewrite Z2Nat.id; lia.
Qed.

End DecimalFacts.

(** ** The counter table under [generate_nim] *)

Section CounterFacts.

Import Counters Utils.

Lemma matches_key (y : Z) (k : string) (r : NIMCounter) :
  matches y k r = true <-> key r = (y, k).
Proof.
  unfold matches, key. rewrite andb_true_iff, Z.eqb_eq, String.eqb_eq.
  split; [intros [-> ->]; reflexivity | intros [= -> ->]; now split].
Qed.

Lemma filter_absent (y : Z) (k : string) (rows : list NIMCounter) :
  ~ In (y, k) (map key rows) -> filter (matches y k) rows = [].
Proof.
  induction rows as [|r rows IH]; simpl; intros N; [reflexivity|].
  destruct (matches y k r) eqn:M.
  - apply matches_key in M. tauto.
  - apply IH. tauto.
Qed.

(** Under the unique constraint the query never sees two rows. *)
Lemma one_or_none_unique (y : Z) (k : string) (rows : list NIMCounter) :
  NoDup (map key rows) ->
  one_or_none (filter (matches y k) rows) =
  match row_of y k rows with
  | Some r => OneRow r
  | None => NoRow
  end.
Proof.
  unfold row_of. induction rows as [|r rows IH]; simpl; intros U; [reflexivity|].
  inversion U as [|? ? Hnin Hnd]; subst.
  destruct (matches y k r) eqn:M.
  - apply matches_key in M. rewrite M in Hnin.
    now rewrite (filter_absent _ _ _ Hnin).
  - now apply IH.
Qed.

Lemma row_of_In (y : Z) (k : string) (rows : list NIMCounter) (r : NIMCounter) :
  row_of y k rows = Some r -> In r rows /\ key r = (y, k).
Proof.
  unfold row_of. intros F. apply find_some in F as [I M].
  split; [exact I | now apply matches_key].
Qed.

Lemma row_of_None (y : Z) (k : string) (rows : list NIMCounter) :
  row_of y k rows = None -> ~ In (y, k) (map key rows).
Proof.
  unfold row_of. intros F I. apply in_map_iff in I as (r & K & I).
  apply (find_none _ _ F) in I. apply matches_key in K. congruence.
Qed.

Lemma next_id_above (rows : list NIMCounter) (r : NIMCounter) :
  In r rows -> nc_id r < next_id rows.
Proof.
  unfold next_id. destruct rows as [|r0 rest]; [intros []|].
  intros [<-|I].
  - induction rest as [|x rest IH]; simpl; lia.
  - induction rest as [|x rest IH]; simpl in *; [tauto|].
    destruct I as [<-|I]; [lia | specialize (IH I); lia].
Qed.

Lemma next_id_fresh (rows : list NIMCounter) : ~ In (next_id rows) (map nc_id rows).
Proof.
  intros I. apply in_map_iff in I as (r & E & I).
  apply next_id_above in I. lia.
Qed.

Lemma update_ids (id s : Z) (rows : list NIMCounter) :
  map nc_id (update_last_seq id s rows) = map nc_id rows.
Proof.
  unfold update_last_seq. rewrite map_map. apply map_ext.
  intros r. now destruct (nc_id r =? id).
Qed.

Lemma update_keys (id s : Z) (rows : list NIMCounter) :
  map key (update_last_seq id s rows) = map key rows.
Proof.
  unfold update_last_seq. rewrite map_map. apply map_ext.
  intros r. now destruct (nc_id r =? id).
Qed.

Lemma row_of_update (y : Z) (k : string) (id s : Z) (rows : list NIMCounter) :
  row_of y k (update_last_seq id s rows) =
  option_map (fun r => if nc_id r =? id
                       then mkNIMCounter (nc_id r) (year r) (kode_prodi r) s
                       else r)
             (row_of y k rows).
Proof.
  unfold row_of, update_last_seq.
  induction rows as [|r rows IH]; simpl; [reflexivity|].
  assert (matches y k (if nc_id r =? id
                       then mkNIMCounter (nc_id r) (year r) (kode_prodi r) s
                       else r) = matches y k r) as -> by now destruct (nc_id r =? id).
  destruct (matches y k r); [reflexivity | exact IH].
Qed.

Lemma row_of_app (y : Z) (k : string) (rows : list NIMCounter) (c : NIMCounter) :
  row_of y k (rows ++ [c]) =
  match row_of y k rows with
  | Some r => Some r
  | None => if matches y k c then Some c else None
  end.
Proof.
  unfold row_of. induction rows as [|r rows IH]; simpl; [reflexivity|].
  destruct (matches y k r); [reflexivity | exact IH].
Qed.

Lemma same_id_same_row (rows : list NIMCounter) (a b : NIMCounter) :
  NoDup (map nc_id rows) -> In a rows -> In b rows -> nc_id a = nc_id b -> a = b.
Proof.
  induction rows as [|r rows IH]; simpl; intros U Ia Ib E; [tauto|].
  inversion U as [|? ? Hnin Hnd]; subst.
  destruct Ia as [<-|Ia], Ib as [<-|Ib]; trivial.
  - exfalso. apply Hnin. rewrite E. now apply in_map.
  - exfalso. apply Hnin. rewrite <- E. now apply in_map.
  - now apply IH.
Qed.


Lemma NoDup_snoc {A : Type} (l : list A) (a : A) :
  NoDup l -> ~ In a l -> NoDup (l ++ [a]).
Proof.
  induction l as [|x l IH]; simpl; intros U N.
  - constructor; [tauto | constructor].
  - inversion U; subst. constructor.
    + rewrite in_app_iff. simpl. intros [?|[?|[]]]; [tauto | subst; tauto].
    + apply IH; tauto.
Qed.

Lemma wf_insert (y : Z) (k : string) (rows : list NIMCounter) :
  wf rows -> row_of y k rows = None ->
  wf (rows ++ [mkNIMCounter (next_id rows) y k 1]).
Proof.
  intros [Ui Uk] F. unfold wf. rewrite !map_app. simpl. split.
  - apply NoDup_snoc; [exact Ui | apply next_id_fresh].
  - apply NoDup_snoc; [exact Uk | now apply row_of_None].
Qed.

End CounterFacts.

Section GenerateNimFacts.

Import Counters Utils.

Lemma normalize_truthy (kode_prodi : string) :
  PyStr.strip kode_prodi <> "" -> PyStr.truthy (normalize kode_prodi) = true.
Proof.
  unfold normalize. rewrite truthy_upper. intros N.
  destruct (PyStr.strip kode_prodi); [congruence | reflexivity].
Qed.

Lemma last_sequence_update_same (y : Z) (k : string) (r : NIMCounter) (s : Z)
    (rows : list NIMCounter) :
  row_of y k rows = Some r ->
  last_sequence y k (update_last_seq (nc_id r) s rows) = s.
Proof.
  intros F. unfold last_sequence. rewrite row_of_update, F. simpl.
  now rewrite Z.eqb_refl.
Qed.

Lemma last_sequence_update_other (y y' : Z) (k k' : string) (r : NIMCounter) (s : Z)
    (rows : list NIMCounter) :
  NoDup (map nc_id rows) ->
  row_of y k rows = Some r -> (y', k') <> (y, k) ->
  last_sequence y' k' (update_last_seq (nc_id r) s rows) = last_sequence y' k' rows.
Proof.
  intros U F N. unfold last_sequence. rewrite row_of_update.
  destruct (row_of y' k' rows) as [r'|] eqn:F'; simpl; [|reflexivity].
  destruct (nc_id r' =? nc_id r) eqn:E; [|reflexivity].
  exfalso. apply Z.eqb_eq in E.
  apply row_of_In in F as [I K], F' as [I' K'].
  assert (r' = r) by (eapply same_id_same_row; eauto). subst. congruence.
Qed.

Lemma matches_false (y y' : Z) (k k' : string) (c : NIMCounter) :
  key c = (y, k) -> (y', k') <> (y, k) -> matches y' k' c = false.
Proof.
  intros K N. destruct (matches y' k' c) eqn:M; [|reflexivity].
  apply matches_key in M. congruence.
Qed.

(** What one call does to a table that satisfies its constraints. *)
Lemma generate_nim_ok (tahun : Z) (kode_prodi : string) (db : DB) :
  wf (nim_counters db) ->
  2000 <= tahun <= 9999 ->
  PyStr.strip kode_prodi <> "" ->
  let kode := normalize kode_prodi in
  let seq := last_sequence tahun kode (nim_counters db) + 1 in
  exists db',
    generate_nim tahun kode_prodi db =
      (Returned (PyStr.str_of_int tahun ++ kode ++ PyStr.format_04d seq), db') /\
    wf (nim_counters db') /\
    last_sequence tahun kode (nim_counters db') = seq /\
    (forall y k, (y, k) <> (tahun, kode) ->
       last_sequence y k (nim_counters db') = last_sequence y k (nim_counters db)) /\
    (forall y k, row_of y k (nim_counters db) <> None ->
       row_of y k (nim_counters db') <> None) /\
    row_of tahun kode (nim_counters db') <> None /\
    program_studi db' = program_studi db /\
    calon_mahasiswa db' = calon_mahasiswa db.
Proof.
  intros W Y K kode seq. subst seq.
  unfold generate_nim. fold (normalize kode_prodi). fold kode.
  unfold kode at 1. rewrite (normalize_truthy _ K). simpl negb. cbv iota.
  assert ((tahun <? 2000) || (tahun >? 9999) = false) as ->.
  { apply orb_false_iff. split; [apply Z.ltb_ge; lia|].
    rewrite Z.gtb_ltb. apply Z.ltb_ge. lia. }
  destruct W as [Ui Uk]. rewrite (one_or_none_unique _ _ _ Uk).
  destruct (row_of tahun kode (nim_counters db)) as [r|] eqn:F.
  - assert (last_sequence tahun kode (nim_counters db) = last_seq r) as ->
      by (unfold last_sequence; now rewrite F).
    eexists; split; [reflexivity|]. simpl.
    repeat split.
    + now rewrite update_ids.
    + now rewrite update_keys.
    + now apply last_sequence_update_same.
    + intros y k N. now apply last_sequence_update_other with (y := tahun) (k := kode).
    + intros y k. rewrite row_of_update. now destruct (row_of y k (nim_counters db)).
    + rewrite row_of_update, F. discriminate.
  - assert (last_sequence tahun kode (nim_counters db) = 0) as ->
      by (unfold last_sequence; now rewrite F).
    eexists; split; [reflexivity|]. simpl.
    assert (wf (nim_counters db ++
                [mkNIMCounter (next_id (nim_counters db)) tahun kode 1])) as [Wi Wk]
      by (apply wf_insert; [now split | exact F]).
    assert (matches tahun kode
              (mkNIMCounter (next_id (nim_counters db)) tahun kode 1) = true) as M
      by now apply matches_key.
    repeat split; trivial.
    + unfold last_sequence. now rewrite row_of_app, F, M.
    + intros y k N. unfold last_sequence. rewrite row_of_app.
      destruct (row_of y k (nim_counters db)); [reflexivity|].
      now rewrite (matches_false tahun y kode k).
    + intros y k. rewrite row_of_app. now destruct (row_of y k (nim_counters db)).
    + now rewrite row_of_app, F, M.
Qed.

Lemma seq_nonneg_update (r : NIMCounter) (rows : list NIMCounter) :
  seq_nonneg rows -> In r rows ->
  seq_nonneg (update_last_seq (nc_id r) (last_seq r + 1) rows).
Proof.
  unfold seq_nonneg, update_last_seq. rewrite !Forall_forall.
  intros H I x Ix. apply in_map_iff in Ix as (x0 & <- & I0).
  destruct (nc_id x0 =? nc_id r); simpl; [specialize (H r I); lia | now apply H].
Qed.

Lemma generate_nim_seq_nonneg (tahun : Z) (kode_prodi : string) (db : DB) :
  NoDup (map key (nim_counters db)) ->
  seq_nonneg (nim_counters db) ->
  seq_nonneg (nim_counters (snd (generate_nim tahun kode_prodi db))).
Proof.
  intros Uk S. unfold generate_nim.
  destruct (negb _); [exact S|]. destruct (_ || _); [exact S|].
  rewrite (one_or_none_unique _ _ _ Uk).
  destruct (row_of _ _ _) as [r|] eqn:F; simpl.
  - apply seq_nonneg_update; [exact S | now apply row_of_In in F].
  - unfold seq_nonneg. rewrite Forall_app. split; [exact S|].
    constructor; [simpl; lia | constructor].
Qed.

End GenerateNimFacts.

Section GenerateNimCases.

Import Counters Utils.

Lemma generate_nim_invalid (tahun : Z) (kode_prodi : string) (db : DB) :
  tahun < 2000 \/ 9999 < tahun \/ PyStr.strip kode_prodi = "" ->
  exists msg, generate_nim tahun kode_prodi db = (Raised (ValueError msg), db).
Proof.
  intros H. unfold generate_nim. rewrite truthy_upper.
  destruct (PyStr.truthy (PyStr.strip kode_prodi)) eqn:T; simpl negb; cbv iota.
  - assert ((tahun <? 2000) || (tahun >? 9999) = true) as ->.
    { apply orb_true_iff. rewrite Z.ltb_lt, Z.gtb_ltb, Z.ltb_lt.
      destruct H as [H|[H|H]]; [now left | now right |].
      rewrite H in T. discriminate. }
    eexists; reflexivity.
  - eexists; reflexivity.
Qed.

Lemma input_cases (tahun : Z) (kode_prodi : string) :
  (tahun < 2000 \/ 9999 < tahun \/ PyStr.strip kode_prodi = "") \/
  (2000 <= tahun <= 9999 /\ PyStr.strip kode_prodi <> "").
Proof.
  destruct (string_dec (PyStr.strip kode_prodi) "") as [E|N]; [tauto|].
  destruct (Z_lt_dec tahun 2000); [tauto|].
  destruct (Z_lt_dec 9999 tahun); [tauto|].
  right. split; [lia | exact N].
Qed.

(** A call that returns was given a valid year and program code. *)
Lemma generate_nim_returned (tahun : Z) (kode_prodi : string) (db db' : DB) (n : string) :
  generate_nim tahun kode_prodi db = (Returned n, db') ->
  2000 <= tahun <= 9999 /\ PyStr.strip kode_prodi <> "".
Proof.
  intros G. destruct (input_cases tahun kode_prodi) as [B|V]; [|exact V].
  destruct (generate_nim_invalid tahun kode_prodi db B) as [msg E].
  congruence.
Qed.

Lemma zeros_printed (k : nat) (u : uint) :
  NilEmpty.string_of_uint (Nat.iter k D0 u) = zeros k ++ NilEmpty.string_of_uint u.
Proof.
  induction k as [|k IH]; [reflexivity|].
  change (Nat.iter (S k) D0 u) with (D0 (Nat.iter k D0 u)).
  cbn [NilEmpty.string_of_uint zeros]. now rewrite IH.
Qed.

(** A sequence that is not negative is printed in full behind the zeros
    that bring it to four characters. *)
Lemma format_04d_nonneg (n : Z) :
  0 <= n ->
  PyStr.format_04d n =
  zeros (4 - String.length (PyStr.str_of_int n)) ++ PyStr.str_of_int n.
Proof.
  intros H. unfold PyStr.format_04d, PyStr.str_of_int, PyStr.zfill.
  destruct n as [|p|p]; [reflexivity | | lia].
  cbn [Z.to_int NilEmpty.string_of_int].
  now rewrite zeros_printed, string_of_uint_length.
Qed.

Lemma format_04d_min_width (n : Z) : (4 <= String.length (PyStr.format_04d n))%nat.
Proof.
  unfold PyStr.format_04d, PyStr.zfill.
  destruct (Z.to_int n) as [u|u]; cbn [String.length];
    rewrite string_of_uint_length, nb_digits_iter_D0; lia.
Qed.

End GenerateNimCases.

(** ** The approval flow *)

Section ApprovalFacts.

Lemma first_calon_id (id : Z) (db : DB) (c : CalonMahasiswa) :
  first_calon id db = Some c -> cm_id c = id.
Proof.
  unfold first_calon. intros F. apply find_some in F as [_ E].
  now apply Z.eqb_eq.
Qed.

Lemma update_approval_counters (id : Z) (n : string) (t : DateTime) (db : DB) :
  nim_counters (update_approval id n t db) = nim_counters db.
Proof. reflexivity. Qed.

Lemma refreshed_after_update (id : Z) (n : string) (t : DateTime) (db : DB)
    (c : CalonMahasiswa) :
  first_calon id db = Some c ->
  refreshed_nim id (update_approval id n t db) = Some n.
Proof.
  unfold refreshed_nim, first_calon, update_approval. simpl.
  induction (calon_mahasiswa db) as [|r rows IH]; simpl; [discriminate|].
  destruct (cm_id r =? id) eqn:E; simpl.
  - intros _. now rewrite E.
  - rewrite E. exact IH.
Qed.

Lemma http_retry_find (attempts : list nat) (clock : nat -> DateTime) (id : Z)
    (prefix : string) (count : nat) (db : DB) (c : CalonMahasiswa) :
  first_calon id db = Some c ->
  Main.retry attempts clock id prefix count db =
  match find (fun k => negb (nim_taken id (nim_candidate prefix count k) db)) attempts with
  | Some k =>
      (Main.Json_nim (Some (nim_candidate prefix count k)),
       update_approval id (nim_candidate prefix count k) (clock (S k)) db)
  | None =>
      (Main.HTTPException 409 "Could not generate unique NIM; please retry", db)
  end.
Proof.
  intros F. induction attempts as [|k rest IH]; [reflexivity|].
  cbn [Main.retry Cli_register.retry find]. unfold commit_approval.
  destruct (nim_taken id (nim_candidate prefix count k) db); cbn [negb].
  - exact IH.
  - now rewrite (refreshed_after_update _ _ _ _ _ F).
Qed.

Lemma cli_retry_find (attempts : list nat) (clock : nat -> DateTime) (id : Z)
    (prefix : string) (count : nat) (db : DB) (c : CalonMahasiswa) :
  first_calon id db = Some c ->
  Cli_register.retry attempts clock id prefix count db =
  match find (fun k => negb (nim_taken id (nim_candidate prefix count k) db)) attempts with
  | Some k =>
      (Cli_register.mkOutcome 0
         ["SUCCESS: Calon di-approve, NIM generated: " ++ nim_candidate prefix count k],
       update_approval id (nim_candidate prefix count k) (clock (S k)) db)
  | None =>
      (Cli_register.mkOutcome 13
         ["ERROR: Gagal generate unique NIM setelah 5 percobaan"], db)
  end.
Proof.
  intros F. induction attempts as [|k rest IH]; [reflexivity|].
  cbn [Main.retry Cli_register.retry find]. unfold commit_approval.
  destruct (nim_taken id (nim_candidate prefix count k) db); cbn [negb].
  - exact IH.
  - now rewrite (refreshed_after_update _ _ _ _ _ F).
Qed.

(** The handler on a pending candidate whose program exists. *)
Lemma http_pending (clock : nat -> DateTime) (id : Z) (db : DB)
    (calon : CalonMahasiswa) (ps : ProgramStudi) :
  first_calon id db = Some calon ->
  status calon = pending ->
  program_studi_of calon db = Some ps ->
  let prefix := PyStr.str_of_int (dt_year (clock 0%nat)) ++ kode ps in
  Main.approve_mahasiswa clock id db =
  Main.retry range5 clock id prefix (count_nim_like (prefix ++ "%") db) db.
Proof.
  intros F S P prefix. unfold Main.approve_mahasiswa.
  rewrite F, S, P. cbn [status_eqb negb]. cbv iota.
  now rewrite (first_calon_id _ _ _ F).
Qed.

Lemma cli_pending (clock : nat -> DateTime) (id : Z) (db : DB)
    (calon : CalonMahasiswa) (ps : ProgramStudi) :
  first_calon id db = Some calon ->
  status calon = pending ->
  program_studi_of calon db = Some ps ->
  let prefix := PyStr.str_of_int (dt_year (clock 0%nat)) ++ PyStr.upper (kode ps) in
  Cli_register.approve clock (Some id) db =
  Cli_register.retry range5 clock id prefix (count_nim_like (prefix ++ "%") db) db.
Proof.
  intros F S P prefix. unfold Cli_register.approve.
  rewrite F, S, P. cbn [status_eqb negb]. cbv iota.
  now rewrite (first_calon_id _ _ _ F).
Qed.

Lemma first_free_bound (id : Z) (prefix : string) (count : nat) (db : DB) (k : nat) :
  first_free id prefix count db = Some k ->
  (k < 5)%nat /\
  nim_taken id (nim_candidate prefix count k) db = false /\
  forall j, (j < k)%nat -> nim_taken id (nim_candidate prefix count j) db = true.
Proof.
  unfold first_free, range5. cbn [find].
  repeat match goal with
         | |- context [negb (nim_taken ?i ?n ?d)] =>
             let E := fresh "E" in destruct (nim_taken i n d) eqn:E; cbn [negb]
         end;
    intros [= <-] || intros [=];
    (split; [lia | split; [assumption|]]);
    intros j Hj;
    do 5 (destruct j as [|j]; [assumption || lia|]); lia.
Qed.

Lemma first_free_none (id : Z) (prefix : string) (count : nat) (db : DB) :
  first_free id prefix count db = None <->
  forall k, (k < 5)%nat -> nim_taken id (nim_candidate prefix count k) db = true.
Proof.
  unfold first_free, range5. split.
  - intros N k Hk.
    assert (In k [0; 1; 2; 3; 4]%nat) as I
      by (cbn [In]; repeat (destruct k as [|k]; [tauto|]); lia).
    apply (find_none _ _ N) in I. now apply negb_false_iff.
  - intros A. cbn [find].
    rewrite !A by lia. reflexivity.
Qed.

(** What the handler answers for a pending candidate whose program exists. *)
Lemma http_pending_outcome (clock : nat -> DateTime) (id : Z) (db : DB)
    (calon : CalonMahasiswa) (ps : ProgramStudi) :
  first_calon id db = Some calon ->
  status calon = pending ->
  program_studi_of calon db = Some ps ->
  let prefix := PyStr.str_of_int (dt_year (clock 0%nat)) ++ kode ps in
  let count := count_nim_like (prefix ++ "%") db in
  Main.approve_mahasiswa clock id db =
    match first_free id prefix count db with
    | Some k =>
        (Main.Json_nim (Some (nim_candidate prefix count k)),
         update_approval id (nim_candidate prefix count k) (clock (S k)) db)
    | None =>
        (Main.HTTPException 409 "Could not generate unique NIM; please retry", db)
    end.
Proof.
  intros F St P prefix count.
  rewrite (http_pending clock id db calon ps F St P).
  apply (http_retry_find range5 clock id _ _ db calon F).
Qed.

(** The same for the command. *)
Lemma cli_pending_outcome (clock : nat -> DateTime) (id : Z) (db : DB)
    (calon : CalonMahasiswa) (ps : ProgramStudi) :
  first_calon id db = Some calon ->
  status calon = pending ->
  program_studi_of calon db = Some ps ->
  let prefix := PyStr.str_of_int (dt_year (clock 0%nat)) ++ PyStr.upper (kode ps) in
  let count := count_nim_like (prefix ++ "%") db in
  Cli_register.approve clock (Some id) db =
    match first_free id prefix count db with
    | Some k =>
        (Cli_register.mkOutcome 0
           ["SUCCESS: Calon di-approve, NIM generated: " ++ nim_candidate prefix count k],
         update_approval id (nim_candidate prefix count k) (clock (S k)) db)
    | None =>
        (Cli_register.mkOutcome 13
           ["ERROR: Gagal generate unique NIM setelah 5 percobaan"], db)
    end.
Proof.
  intros F St P prefix count.
  rewrite (cli_pending clock id db calon ps F St P).
  apply (cli_retry_find range5 clock id _ _ db calon F).
Qed.



End ApprovalFacts.

(** ** The definitions on small inputs *)

Section Examples.

Import Samples.

Example format_04d_1 : PyStr.format_04d 1 = "0001".
Proof. reflexivity. Qed.

Example format_04d_0 : PyStr.format_04d 0 = "0000".
Proof. reflexivity. Qed.

Example format_04d_9999 : PyStr.format_04d 9999 = "9999".
Proof. reflexivity. Qed.

Example format_04d_10000 : PyStr.format_04d 10000 = "10000".
Proof. reflexivity. Qed.

Example format_04d_minus_1 : PyStr.format_04d (-1) = "-001".
Proof. reflexivity. Qed.

Example str_of_int_2025 : PyStr.str_of_int 2025 = "2025".
Proof. reflexivity. Qed.

Example strip_upper_tif : PyStr.upper (PyStr.strip "  tif ") = "TIF".
Proof. reflexivity. Qed.

Example strip_keeps_inner_space : PyStr.strip " a b " = "a b".
Proof. reflexivity. Qed.

Example like_prefix : like "2025TIF%" "2025TIF0002" = true.
Proof. reflexivity. Qed.

Example like_ignores_case : like "2025TIF%" "2025tif0002" = true.
Proof. reflexivity. Qed.

Example like_other_program : like "2025TIF%" "2025SI0001" = false.
Proof. reflexivity. Qed.

Example like_underscore : like "2025T_F%" "2025TIF0001" = true.
Proof. reflexivity. Qed.

Example like_needs_whole_prefix : like "2025TIF%" "2025TI" = false.
Proof. reflexivity. Qed.

Example approve_first :
  fst (Main.approve_mahasiswa clock2025 1 db_pending) = Main.Json_nim (Some "2025TIF0001").
Proof. reflexivity. Qed.

Example approve_unknown_id :
  Main.approve_mahasiswa clock2025 7 db_pending =
  (Main.HTTPException 404 "Calon mahasiswa not found", db_pending).
Proof. reflexivity. Qed.

Example cli_approve_unknown_id :
  fst (Cli_register.approve clock2025 (Some 7) db_pending) =
  Cli_register.mkOutcome 11
    ["ERROR: Calon mahasiswa dengan id 7 tidak ditemukan (INVALID DATA)"].
Proof. reflexivity. Qed.

Example generate_nim_first :
  fst (Utils.generate_nim 2025 "TIF" db_empty) = Utils.Returned "2025TIF0001".
Proof. reflexivity. Qed.

Example generate_nim_blank :
  fst (Utils.generate_nim 2025 "  " db_empty) =
  Utils.Raised (Utils.ValueError "kode_prodi must be a non-empty string").
Proof. reflexivity. Qed.

Example generate_nim_year_10000 :
  fst (Utils.generate_nim 10000 "TIF" db_empty) =
  Utils.Raised (Utils.ValueError "tahun must be a four-digit year").
Proof. reflexivity. Qed.

End Examples.

(** ** Claims about [generate_nim] *)

Section CounterClaims.

Import Counters Utils.

Lemma filter_no_row (y : Z) (k : string) (rows : list NIMCounter) :
  row_of y k rows = None -> filter (matches y k) rows = [].
Proof. intros F. apply filter_absent. now apply row_of_None. Qed.

Lemma first_call (tahun : Z) (kode : string) (db : DB) :
  2000 <= tahun <= 9999 -> normalize kode = kode -> kode <> "" ->
  row_of tahun kode (nim_counters db) = None ->
  generate_nim tahun kode db =
    (Returned (PyStr.str_of_int tahun ++ kode ++ "0001"),
     set_nim_counters db
       (nim_counters db ++ [mkNIMCounter (next_id (nim_counters db)) tahun kode 1])).
Proof.
  intros Y N K F. unfold generate_nim. fold (normalize kode). rewrite N.
  destruct kode as [|c kode]; [congruence|]. cbn [PyStr.truthy negb]. cbv iota.
  assert ((tahun <? 2000) || (tahun >? 9999) = false) as ->.
  { apply orb_false_iff. split; [apply Z.ltb_ge; lia|].
    rewrite Z.gtb_ltb. apply Z.ltb_ge. lia. }
  now rewrite (filter_no_row _ _ _ F).
Qed.

Lemma second_call (tahun : Z) (kode : string) (db : DB) (id : Z) :
  2000 <= tahun <= 9999 -> normalize kode = kode -> kode <> "" ->
  row_of tahun kode (nim_counters db) = None ->
  fst (generate_nim tahun kode
         (set_nim_counters db (nim_counters db ++ [mkNIMCounter id tahun kode 1]))) =
  Returned (PyStr.str_of_int tahun ++ kode ++ "0002").
Proof.
  intros Y N K F. unfold generate_nim. fold (normalize kode). rewrite N.
  destruct kode as [|c kode]; [congruence|]. cbn [PyStr.truthy negb]. cbv iota.
  assert ((tahun <? 2000) || (tahun >? 9999) = false) as ->.
  { apply orb_false_iff. split; [apply Z.ltb_ge; lia|].
    rewrite Z.gtb_ltb. apply Z.ltb_ge. lia. }
  cbn [nim_counters set_nim_counters]. rewrite filter_app, (filter_no_row _ _ _ F).
  cbn [filter app].
  assert (matches tahun (String c kode) (mkNIMCounter id tahun (String c kode) 1) = true)
    as -> by now apply matches_key.
  reflexivity.
Qed.

(** C2. On a table with no row for (2025, TIF), [generate_nim 2025 "TIF"]
    returns [2025TIF0001] and the call after it [2025TIF0002]; and every
    NIM that [generate_nim] returns is the year in four digits, the
    program code, and the sequence zero-padded to four digits or more. *)
Theorem C2_format_exactness (db : DB) :
  row_of 2025 "TIF" (nim_counters db) = None ->
  (exists db1 db2,
      generate_nim 2025 "TIF" db = (Returned "2025TIF0001", db1) /\
      generate_nim 2025 "TIF" db1 = (Returned "2025TIF0002", db2)) /\
  (forall tahun kode_prodi db0 n db',
      generate_nim tahun kode_prodi db0 = (Returned n, db') ->
      let seq := last_sequence tahun (normalize kode_prodi) (nim_counters db') in
      n = PyStr.str_of_int tahun ++ normalize kode_prodi ++ PyStr.format_04d seq /\
      String.length (PyStr.str_of_int tahun) = 4%nat /\
      (4 <= String.length (PyStr.format_04d seq))%nat /\
      (0 <= seq ->
       PyStr.format_04d seq =
       zeros (4 - String.length (PyStr.str_of_int seq)) ++ PyStr.str_of_int seq)).
Proof.
  intros F. split.
  - assert (2000 <= 2025 <= 9999) as Y by lia.
    assert ("TIF" <> "") as K by discriminate.
    pose proof (first_call 2025 "TIF" db Y eq_refl K F) as G1.
    pose proof (second_call 2025 "TIF" db (next_id (nim_counters db)) Y eq_refl K F) as G2.
    destruct (generate_nim 2025 "TIF" (set_nim_counters db _)) as [r2 db2] eqn:E2.
    eexists; exists db2. split; [exact G1|]. rewrite E2. simpl in G2. now subst r2.
  - intros tahun kode_prodi db0 n db' G seq.
    destruct (generate_nim_returned _ _ _ _ _ G) as [Y K].
    assert (n = PyStr.str_of_int tahun ++ normalize kode_prodi ++ PyStr.format_04d seq) as E.
    { subst seq. revert G. unfold generate_nim. fold (normalize kode_prodi).
      destruct (negb _); [discriminate|]. destruct (_ || _); [discriminate|].
      destruct (one_or_none _) as [|r|] eqn:O; [| |discriminate].
      - intros [= <- <-]. cbn [nim_counters set_nim_counters].
        unfold last_sequence. rewrite row_of_app.
        destruct (filter _ _) as [|x l] eqn:Fl; [|destruct l; discriminate].
        assert (row_of tahun (normalize kode_prodi) (nim_counters db0) = None) as ->.
        { unfold row_of. destruct (find _ _) as [r|] eqn:Fd; [|reflexivity].
          apply find_some in Fd as [I M].
          assert (In r (filter (matches tahun (normalize kode_prodi)) (nim_counters db0)))
            as I' by (apply filter_In; now split).
          rewrite Fl in I'. destruct I'. }
        assert (matches tahun (normalize kode_prodi)
                  (mkNIMCounter (next_id (nim_counters db0)) tahun
                     (normalize kode_prodi) 1) = true) as -> by now apply matches_key.
        reflexivity.
      - intros [= <- <-]. cbn [nim_counters set_nim_counters].
        destruct (filter _ _) as [|x l] eqn:Fl; [discriminate|].
        destruct l; [|discriminate]. injection O as ->.
        assert (row_of tahun (normalize kode_prodi) (nim_counters db0) = Some r) as R.
        { unfold row_of. revert Fl. generalize (nim_counters db0) as rows.
          induction rows as [|a rows IH]; cbn [filter find]; [discriminate|].
          destruct (matches tahun (normalize kode_prodi) a).
          - now intros [= -> _].
          - exact IH. }
        now rewrite (last_sequence_update_same _ _ _ _ _ R). }
    split; [exact E|]. split; [apply str_of_int_year; lia|].
    split; [apply format_04d_min_width | apply format_04d_nonneg].
Qed.

(** The claim on the empty counter table. *)
Lemma C2_format_exactness_witness :
  row_of 2025 "TIF" (nim_counters Samples.db_empty) = None /\
  exists db1 db2,
    generate_nim 2025 "TIF" Samples.db_empty = (Returned "2025TIF0001", db1) /\
    generate_nim 2025 "TIF" db1 = (Returned "2025TIF0002", db2).
Proof.
  split; [reflexivity|].
  exact (proj1 (C2_format_exactness Samples.db_empty eq_refl)).
Defined.

End CounterClaims.

Section CounterInvariants.

Import Counters Utils.

(** C3. On a counter table that satisfies its constraints, a call of
    [generate_nim] keeps (year, kode_prodi) unique, lowers the last
    sequence of no key and removes no row; a call with a valid year and
    program code succeeds and raises the last sequence of its key by
    exactly one; and for a key without a row the row is created by that
    call, which returns sequence 1. *)
Theorem C3_counter_invariant (tahun : Z) (kode_prodi : string) (db : DB) :
  wf (nim_counters db) ->
  let kode := normalize kode_prodi in
  let out := generate_nim tahun kode_prodi db in
  wf (nim_counters (snd out)) /\
  (forall y k, last_sequence y k (nim_counters db)
               <= last_sequence y k (nim_counters (snd out))) /\
  (forall y k, row_of y k (nim_counters db) <> None ->
               row_of y k (nim_counters (snd out)) <> None) /\
  (2000 <= tahun <= 9999 -> PyStr.strip kode_prodi <> "" ->
   fst out = Returned (PyStr.str_of_int tahun ++ kode ++
                       PyStr.format_04d (last_sequence tahun kode (nim_counters db) + 1)) /\
   last_sequence tahun kode (nim_counters (snd out)) =
     last_sequence tahun kode (nim_counters db) + 1 /\
   (row_of tahun kode (nim_counters db) = None ->
    fst out = Returned (PyStr.str_of_int tahun ++ kode ++ "0001") /\
    exists id, row_of tahun kode (nim_counters (snd out)) =
               Some (mkNIMCounter id tahun kode 1))).
Proof.
  intros W kode out.
  destruct (input_cases tahun kode_prodi) as [B|[Y K]].
  - destruct (generate_nim_invalid tahun kode_prodi db B) as [msg E].
    subst out. rewrite E. cbn [fst snd].
    split; [exact W|]. split; [intros; lia|]. split; [trivial|].
    intros Y K. exfalso. destruct B as [?|[?|?]]; [lia | lia | congruence].
  - destruct (generate_nim_ok tahun kode_prodi db W Y K)
      as (db' & E & W' & L & O & D & R & _).
    fold kode in E, L, O, R. subst out. rewrite E. cbn [fst snd].
    split; [exact W'|]. split; [|split; [exact D|]].
    + intros y k.
      destruct (Z.eq_dec y tahun) as [->|Ny];
        [destruct (string_dec k kode) as [->|Nk]|].
      * rewrite L. lia.
      * rewrite O; [lia | congruence].
      * rewrite O; [lia | congruence].
    + intros _ _. split; [reflexivity|]. split; [exact L|].
      intros F.
      assert (last_sequence tahun kode (nim_counters db) = 0) as Z0
        by (unfold last_sequence; now rewrite F).
      rewrite Z0. split; [reflexivity|].
      rewrite Z0 in L. simpl in L.
      destruct (row_of tahun kode (nim_counters db')) as [r|] eqn:F'; [|congruence].
      exists (nc_id r). f_equal.
      apply row_of_In in F' as F''. destruct F'' as [_ Kr].
      unfold last_sequence in L. rewrite F' in L.
      destruct r as [i y k s]. unfold key in Kr. simpl in *. congruence.
Qed.

(** The claim on the empty table, for (2025, TIF). *)
Lemma C3_counter_invariant_witness :
  wf (nim_counters Samples.db_empty) /\
  last_sequence 2025 "TIF"
    (nim_counters (snd (generate_nim 2025 " tif " Samples.db_empty))) = 1.
Proof.
  assert (wf (nim_counters Samples.db_empty)) as W
    by (split; constructor).
  split; [exact W|].
  destruct (C3_counter_invariant 2025 " tif " Samples.db_empty W)
    as (_ & _ & _ & H).
  apply H; [lia | discriminate].
Defined.

(** C8. When the last sequence of the key is 9999 or more, the NIM that
    [generate_nim] returns ends in the whole decimal writing of the next
    sequence, five characters or more, and the counter holds that
    sequence; a sequence from 0 to 9999 is printed on exactly four
    characters, one above 9999 without any padding. *)
Theorem C8_wide_sequence (tahun : Z) (kode_prodi : string) (db : DB) :
  wf (nim_counters db) ->
  2000 <= tahun <= 9999 ->
  PyStr.strip kode_prodi <> "" ->
  9999 <= last_sequence tahun (normalize kode_prodi) (nim_counters db) ->
  let kode := normalize kode_prodi in
  let seq := last_sequence tahun kode (nim_counters db) + 1 in
  (exists db',
      generate_nim tahun kode_prodi db =
        (Returned (PyStr.str_of_int tahun ++ kode ++ PyStr.str_of_int seq), db') /\
      last_sequence tahun kode (nim_counters db') = seq) /\
  (5 <= String.length (PyStr.str_of_int seq))%nat /\
  (forall s, 9999 < s ->
     PyStr.format_04d s = PyStr.str_of_int s /\
     (5 <= String.length (PyStr.format_04d s))%nat) /\
  (forall s, 0 <= s <= 9999 -> String.length (PyStr.format_04d s) = 4%nat).
Proof.
  intros W Y K L kode seq.
  destruct (format_04d_wide seq) as [E Len]; [subst seq kode; lia|].
  split; [|split; [now rewrite <- E|split]].
  - destruct (generate_nim_ok tahun kode_prodi db W Y K) as (db' & G & _ & L' & _).
    exists db'. fold kode in G, L'. fold seq in G, L'. now rewrite <- E.
  - intros s Hs. now apply format_04d_wide.
  - apply format_04d_narrow.
Qed.

(** The claim on a counter that stands at 9999: the next NIM carries 10000. *)
Lemma C8_wide_sequence_witness :
  exists db',
    generate_nim 2025 "TIF" Samples.db_tif_9999 = (Returned "2025TIF10000", db') /\
    last_sequence 2025 "TIF" (nim_counters db') = 10000.
Proof.
  assert (wf (nim_counters Samples.db_tif_9999)) as W.
  { split; repeat constructor; simpl; tauto. }
  assert (2000 <= 2025 <= 9999) as Y by lia.
  assert (PyStr.strip "TIF" <> "") as K by discriminate.
  assert (9999 <= last_sequence 2025 (normalize "TIF")
                    (nim_counters Samples.db_tif_9999)) as L
    by (vm_compute; discriminate).
  exact (proj1 (C8_wide_sequence 2025 "TIF" Samples.db_tif_9999 W Y K L)).
Defined.

(** C9. [generate_nim] raises [ValueError], and leaves the database as
    it was, for every year outside 2000..9999 and for every program code
    made of white space only. For a program code of ASCII characters,
    on a counter table that satisfies its constraints, it returns for
    every other input, it returns for no input but those, and the
    program code inside the returned NIM is the input stripped and
    upper-cased. *)
Theorem C9_input_validation (tahun : Z) (kode_prodi : string) (db : DB) :
  wf (nim_counters db) ->
  (tahun < 2000 \/ 9999 < tahun \/ all_space kode_prodi = true ->
   exists msg, generate_nim tahun kode_prodi db = (Raised (ValueError msg), db)) /\
  (isascii kode_prodi = true ->
   (2000 <= tahun <= 9999 -> all_space kode_prodi = false ->
    exists seq db',
      generate_nim tahun kode_prodi db =
        (Returned (PyStr.str_of_int tahun ++ PyStr.upper (PyStr.strip kode_prodi)
                   ++ PyStr.format_04d seq), db') /\
      PyStr.upper (PyStr.strip kode_prodi) <> "") /\
   ((exists n db', generate_nim tahun kode_prodi db = (Returned n, db')) <->
    2000 <= tahun <= 9999 /\ all_space kode_prodi = false)).
Proof.
  intros W.
  assert (all_space kode_prodi = false <-> PyStr.strip kode_prodi <> "") as SP.
  { rewrite strip_empty_iff. destruct (all_space kode_prodi); split; congruence. }
  assert (forall Y : 2000 <= tahun <= 9999, all_space kode_prodi = false ->
            exists seq db',
              generate_nim tahun kode_prodi db =
                (Returned (PyStr.str_of_int tahun ++ PyStr.upper (PyStr.strip kode_prodi)
                           ++ PyStr.format_04d seq), db') /\
              PyStr.upper (PyStr.strip kode_prodi) <> "") as OK.
  { intros Y A. apply SP in A.
    destruct (generate_nim_ok tahun kode_prodi db W Y A) as (db' & G & _).
    eexists; exists db'. split; [exact G|].
    pose proof (normalize_truthy _ A) as T. unfold normalize in T.
    intros E. rewrite E in T. discriminate. }
  split; [|intros _; split; [exact OK|split]].
  - intros B. apply generate_nim_invalid.
    rewrite <- strip_empty_iff in B. exact B.
  - intros (n & db' & G). apply generate_nim_returned in G as [Y K].
    split; [exact Y | now apply SP].
  - intros [Y A]. destruct (OK Y A) as (seq & db' & G & _). eauto.
Qed.

(** The claim on the empty table: year 1999 and a blank code are refused,
    [" tif "] in 2025 is accepted as TIF. *)
Lemma C9_input_validation_witness :
  wf (nim_counters Samples.db_empty) /\
  isascii " tif " = true /\
  (exists msg, generate_nim 1999 "TIF" Samples.db_empty
               = (Raised (ValueError msg), Samples.db_empty)) /\
  (exists msg, generate_nim 2025 "   " Samples.db_empty
               = (Raised (ValueError msg), Samples.db_empty)) /\
  (exists seq db', generate_nim 2025 " tif " Samples.db_empty
                   = (Returned ("2025" ++ "TIF" ++ PyStr.format_04d seq), db')).
Proof.
  assert (wf (nim_counters Samples.db_empty)) as W by (split; constructor).
  assert (isascii " tif " = true) as A by reflexivity.
  split; [exact W|]. split; [exact A|]. split; [|split].
  - apply (proj1 (C9_input_validation 1999 "TIF" Samples.db_empty W)). left. lia.
  - apply (proj1 (C9_input_validation 2025 "   " Samples.db_empty W)).
    right. right. reflexivity.
  - destruct (proj1 (proj2 (C9_input_validation 2025 " tif " Samples.db_empty W) A))
      as (seq & db' & G & _); [lia | reflexivity |].
    exists seq, db'. exact G.
Defined.

End CounterInvariants.

(** ** Serialized allocations *)

Section SerialClaims.

Import Counters Utils Serial.

Lemma last_sequence_mono (tahun : Z) (kode_prodi : string) (db db' : DB) (n : string) :
  wf (nim_counters db) ->
  generate_nim tahun kode_prodi db = (Returned n, db') ->
  forall y k, last_sequence y k (nim_counters db) <= last_sequence y k (nim_counters db').
Proof.
  intros W G y k.
  destruct (generate_nim_returned _ _ _ _ _ G) as [Y K].
  destruct (generate_nim_ok tahun kode_prodi db W Y K) as (db1 & E & _ & L & O & _).
  rewrite G in E. injection E as _ <-.
  destruct (Z.eq_dec y tahun) as [->|Ny];
    [destruct (string_dec k (normalize kode_prodi)) as [->|Nk]|].
  - rewrite L. lia.
  - rewrite O; [lia | congruence].
  - rewrite O; [lia | congruence].
Qed.

Lemma allocations_issued (calls : list (Z * string)) :
  forall db, wf (nim_counters db) -> Forall (issued_from db) (allocations calls db).
Proof.
  induction calls as [|[tahun kode_prodi] rest IH]; intros db W; [constructor|].
  cbn [allocations].
  destruct (input_cases tahun kode_prodi) as [B|[Y K]].
  - destruct (generate_nim_invalid tahun kode_prodi db B) as [msg E].
    rewrite E. now apply IH.
  - destruct (generate_nim_ok tahun kode_prodi db W Y K)
      as (db' & E & W' & L & _).
    rewrite E. constructor.
    + unfold issued_from. cbn [i_year i_kode i_seq i_nim].
      fold (normalize kode_prodi). rewrite L. repeat split; try lia.
    + specialize (IH db' W'). rewrite Forall_forall in *.
      intros e I. destruct (IH e I) as (S & Ye & N).
      pose proof (last_sequence_mono _ _ _ _ _ W E (i_year e) (i_kode e)).
      unfold issued_from. repeat split; trivial; lia.
Qed.

Lemma allocations_count (calls : list (Z * string)) :
  forall db, wf (nim_counters db) ->
  List.length (allocations calls db) = List.length (filter valid_call calls).
Proof.
  induction calls as [|[tahun kode_prodi] rest IH]; intros db W; [reflexivity|].
  cbn [allocations filter]. unfold valid_call at 1. cbn [fst snd].
  destruct (input_cases tahun kode_prodi) as [B|[Y K]].
  - destruct (generate_nim_invalid tahun kode_prodi db B) as [msg E].
    rewrite E.
    assert ((2000 <=? tahun) && (tahun <=? 9999)
            && PyStr.truthy (PyStr.strip kode_prodi) = false) as ->.
    { destruct B as [B|[B|B]].
      - assert ((2000 <=? tahun) = false) as -> by (apply Z.leb_gt; lia). reflexivity.
      - assert ((tahun <=? 9999) = false) as -> by (apply Z.leb_gt; lia).
        now rewrite andb_false_r.
      - rewrite B. now rewrite andb_false_r. }
    now apply IH.
  - destruct (generate_nim_ok tahun kode_prodi db W Y K) as (db' & E & W' & _).
    rewrite E.
    assert ((2000 <=? tahun) && (tahun <=? 9999)
            && PyStr.truthy (PyStr.strip kode_prodi) = true) as ->.
    { rewrite !andb_true_iff, !Z.leb_le. repeat split; try lia.
      destruct (PyStr.strip kode_prodi); [congruence | reflexivity]. }
    cbn [List.length]. f_equal. now apply IH.
Qed.

(** Two NIMs of the shape year, code, sequence. *)
Lemma nim_same_key_distinct (y : Z) (k : string) (s s' : Z) :
  s <> s' ->
  PyStr.str_of_int y ++ k ++ PyStr.format_04d s <>
  PyStr.str_of_int y ++ k ++ PyStr.format_04d s'.
Proof.
  intros N E. apply append_inv_head, append_inv_head, format_04d_inj in E. congruence.
Qed.

Lemma nim_narrow_inj (y y' : Z) (k k' : string) (s s' : Z) :
  2000 <= y <= 9999 -> 2000 <= y' <= 9999 ->
  0 <= s <= 9999 -> 0 <= s' <= 9999 ->
  PyStr.str_of_int y ++ k ++ PyStr.format_04d s =
  PyStr.str_of_int y' ++ k' ++ PyStr.format_04d s' ->
  y = y' /\ k = k' /\ s = s'.
Proof.
  intros Y Y' S S' E.
  apply append_inj_left in E as [Ey E];
    [|rewrite !str_of_int_year; [reflexivity | lia | lia]].
  apply append_inj_right in E as [Ek Es];
    [|rewrite !format_04d_narrow; [reflexivity | lia | lia]].
  split; [now apply str_of_int_inj|]. split; [exact Ek | now apply format_04d_inj].
Qed.

(** Callers that run one after the other. On a counter table that
    satisfies its constraints and holds no negative sequence, every
    valid call is served; two allocations for the same key get different
    sequence numbers, the later one the larger, and different NIMs; and
    two allocations whose sequence numbers are both at most 9999 get
    different NIMs whatever their keys. *)
Lemma serial_allocations_apart (calls : list (Z * string)) (db : DB) :
  wf (nim_counters db) ->
  seq_nonneg (nim_counters db) ->
  List.length (allocations calls db) = List.length (filter valid_call calls) /\
  ForallOrdPairs apart (allocations calls db).
Proof.
  intros W S. split; [now apply allocations_count|].
  revert db W S.
  induction calls as [|[tahun kode_prodi] rest IH]; intros db W S; [constructor|].
  cbn [allocations].
  pose proof (generate_nim_seq_nonneg tahun kode_prodi db (proj2 W) S) as S'.
  destruct (input_cases tahun kode_prodi) as [B|[Y K]].
  - destruct (generate_nim_invalid tahun kode_prodi db B) as [msg E].
    rewrite E. now apply IH.
  - destruct (generate_nim_ok tahun kode_prodi db W Y K)
      as (db' & E & W' & L & _).
    rewrite E in *. cbn [snd] in S'. constructor; [|now apply IH].
    pose proof (allocations_issued rest db' W') as A.
    rewrite Forall_forall in *. intros b I.
    destruct (A b I) as (Sb & Yb & Nb).
    fold (normalize kode_prodi) in *.
    assert (0 <= last_sequence tahun (normalize kode_prodi) (nim_counters db)) as P.
    { unfold last_sequence.
      destruct (row_of _ _ _) as [r|] eqn:F; [|lia].
      apply row_of_In in F as [Ir _]. unfold seq_nonneg in S.
      rewrite Forall_forall in S. now apply S. }
    assert (0 <= last_sequence (i_year b) (i_kode b) (nim_counters db')) as Pb.
    { unfold last_sequence.
      destruct (row_of _ _ _) as [r|] eqn:F; [|lia].
      apply row_of_In in F as [Ir _]. unfold seq_nonneg in S'.
      rewrite Forall_forall in S'. now apply S'. }
    unfold apart. cbn [i_year i_kode i_seq i_nim]. rewrite L, Nb. split.
    + intros [= Ey Ek]. rewrite <- Ey, <- Ek in *. rewrite L in Sb.
      split; [lia|]. apply nim_same_key_distinct. lia.
    + intros Ha Hb Eq.
      apply nim_narrow_inj in Eq as (Ey & Ek & Es); try lia.
      rewrite <- Ey, <- Ek in *. rewrite L in Sb. lia.
Qed.

(** Three calls for (2025, TIF) and (2025, SI) on the empty table, and
    one call that is refused. *)
Lemma serial_allocations_sample :
  map i_nim (allocations [(2025, "TIF"); (2025, "tif "); (1999, "TIF"); (2025, "SI")]
               Samples.db_empty)
  = ["2025TIF0001"; "2025TIF0002"; "2025SI0001"].
Proof. reflexivity. Qed.


End SerialClaims.

(** ** Claims about the approval flow *)

Section ApprovalClaims.

Import Samples.

(** C1 as stated fails. With one NIM, [2025TIF0002], written out of step,
    the handler counts one NIM under the prefix, tries [2025TIF0002],
    which that row holds, then [2025TIF0003], the count plus one plus the
    attempt; no counter row is created or incremented. The allocator the
    claim describes would take sequence 1 from the counter. *)
Lemma C1_counterexample :
  count_nim_like "2025TIF%" db_legacy = 1%nat /\
  nim_candidate "2025TIF" 1 0 = "2025TIF0002" /\
  nim_taken 2 "2025TIF0002" db_legacy = true /\
  nim_candidate "2025TIF" 1 1 = "2025TIF0003" /\
  fst (Main.approve_mahasiswa clock2025 2 db_legacy)
    = Main.Json_nim (Some "2025TIF0003") /\
  fst (Cli_register.approve clock2025 (Some 2) db_legacy)
    = Cli_register.mkOutcome 0 ["SUCCESS: Calon di-approve, NIM generated: 2025TIF0003"] /\
  nim_counters (snd (Main.approve_mahasiswa clock2025 2 db_legacy)) = [] /\
  fst (Spec.spec_allocate 5 2025 "TIF" 2 (clock2025 1) db_legacy) = Some "2025TIF0001" /\
  nim_counters (snd (Spec.spec_allocate 5 2025 "TIF" 2 (clock2025 1) db_legacy))
    = [mkNIMCounter 1 2025 "TIF" 1].
Proof. vm_compute. repeat split. Qed.

(** C1, amended. For a pending candidate whose program exists, both the
    HTTP handler and the CLI command make at most five attempts; attempt
    [k] tries the prefix followed by the count of NIMs under the prefix,
    taken once before the loop, plus 1 plus [k], zero-padded to four
    digits; the first attempt whose value no other candidate holds is
    committed and returned, every attempt before it having met the
    unique index; and the counter table is left as it was. *)
Theorem C1_retry_by_count (clock : nat -> DateTime) (id : Z) (db : DB)
    (calon : CalonMahasiswa) (ps : ProgramStudi) :
  first_calon id db = Some calon ->
  status calon = pending ->
  program_studi_of calon db = Some ps ->
  let year := PyStr.str_of_int (dt_year (clock 0%nat)) in
  let http_prefix := year ++ kode ps in
  let http_count := count_nim_like (http_prefix ++ "%") db in
  let cli_prefix := year ++ PyStr.upper (kode ps) in
  let cli_count := count_nim_like (cli_prefix ++ "%") db in
  Main.approve_mahasiswa clock id db =
    match first_free id http_prefix http_count db with
    | Some k =>
        (Main.Json_nim (Some (nim_candidate http_prefix http_count k)),
         update_approval id (nim_candidate http_prefix http_count k) (clock (S k)) db)
    | None =>
        (Main.HTTPException 409 "Could not generate unique NIM; please retry", db)
    end /\
  Cli_register.approve clock (Some id) db =
    match first_free id cli_prefix cli_count db with
    | Some k =>
        (Cli_register.mkOutcome 0
           ["SUCCESS: Calon di-approve, NIM generated: "
            ++ nim_candidate cli_prefix cli_count k],
         update_approval id (nim_candidate cli_prefix cli_count k) (clock (S k)) db)
    | None =>
        (Cli_register.mkOutcome 13
           ["ERROR: Gagal generate unique NIM setelah 5 percobaan"], db)
    end /\
  (forall prefix count k,
      first_free id prefix count db = Some k ->
      (k < 5)%nat /\
      nim_taken id (nim_candidate prefix count k) db = false /\
      forall j, (j < k)%nat -> nim_taken id (nim_candidate prefix count j) db = true) /\
  nim_counters (snd (Main.approve_mahasiswa clock id db)) = nim_counters db /\
  nim_counters (snd (Cli_register.approve clock (Some id) db)) = nim_counters db.
Proof.
  intros F St P year http_prefix http_count cli_prefix cli_count.
  pose proof (http_pending_outcome clock id db calon ps F St P) as H.
  pose proof (cli_pending_outcome clock id db calon ps F St P) as C.
  cbv zeta in H, C. fold year http_prefix http_count in H.
  fold year cli_prefix cli_count in C.
  split; [exact H|]. split; [exact C|]. split; [intros p c k; apply first_free_bound|].
  rewrite H, C. split.
  - now destruct (first_free id http_prefix http_count db).
  - now destruct (first_free id cli_prefix cli_count db).
Qed.

(** The amended claim on the database of the counterexample: the second
    attempt is the one committed. *)
Lemma C1_retry_by_count_witness :
  first_calon 2 db_legacy = Some (budi 2 pending None) /\
  Main.approve_mahasiswa clock2025 2 db_legacy =
    (Main.Json_nim (Some "2025TIF0003"),
     update_approval 2 "2025TIF0003" (clock2025 2) db_legacy).
Proof.
  split; [reflexivity|].
  exact (proj1 (C1_retry_by_count clock2025 2 db_legacy (budi 2 pending None) tif
                  eq_refl eq_refl eq_refl)).
Defined.

End ApprovalClaims.

Section StateClaims.

Import Samples.

(** C4. Approving a candidate whose status is already approved gives the
    NIM the row holds, without an error, and leaves the whole database,
    counters and candidate rows, as it was; so does approving it once
    more. *)
Theorem C4_idempotent_approval (clock : nat -> DateTime) (id : Z) (db : DB)
    (calon : CalonMahasiswa) :
  first_calon id db = Some calon ->
  status calon = approved ->
  Main.approve_mahasiswa clock id db = (Main.Json_nim (nim calon), db) /\
  Main.approve_mahasiswa clock id (snd (Main.approve_mahasiswa clock id db))
    = (Main.Json_nim (nim calon), db) /\
  Cli_register.approve clock (Some id) db =
    (Cli_register.mkOutcome 0
       ["INFO: Calon sudah di-approve sebelumnya, NIM: " ++ PyStr.str_of_opt (nim calon)],
     db) /\
  Cli_register.approve clock (Some id) (snd (Cli_register.approve clock (Some id) db))
    = Cli_register.approve clock (Some id) db.
Proof.
  intros F St.
  assert (Main.approve_mahasiswa clock id db = (Main.Json_nim (nim calon), db)) as H
    by (unfold Main.approve_mahasiswa; now rewrite F, St).
  assert (Cli_register.approve clock (Some id) db =
          (Cli_register.mkOutcome 0
             ["INFO: Calon sudah di-approve sebelumnya, NIM: "
              ++ PyStr.str_of_opt (nim calon)], db)) as C
    by (unfold Cli_register.approve; now rewrite F, St).
  rewrite H, C. cbn [snd]. now rewrite H, C.
Qed.

(** The claim on a candidate approved with [2025TIF0001]. *)
Lemma C4_idempotent_approval_witness :
  first_calon 1 db_approved = Some (budi 1 approved (Some "2025TIF0001")) /\
  Main.approve_mahasiswa clock2025 1 db_approved
    = (Main.Json_nim (Some "2025TIF0001"), db_approved).
Proof.
  split; [reflexivity|].
  exact (proj1 (C4_idempotent_approval clock2025 1 db_approved
                  (budi 1 approved (Some "2025TIF0001")) eq_refl eq_refl)).
Defined.

(** C5. Approving a candidate whose status is neither pending nor
    approved is refused, by the handler with status code 409 and the
    detail that names the status, by the command with return code 12;
    the database is left as it was. *)
Theorem C5_invalid_transition (clock : nat -> DateTime) (id : Z) (db : DB)
    (calon : CalonMahasiswa) :
  first_calon id db = Some calon ->
  status calon <> pending ->
  status calon <> approved ->
  status calon = rejected /\
  Main.approve_mahasiswa clock id db =
    (Main.HTTPException 409 "Cannot approve candidate with status rejected", db) /\
  Cli_register.approve clock (Some id) db =
    (Cli_register.mkOutcome 12 ["ERROR: Status calon tidak pending (current: rejected)"],
     db).
Proof.
  intros F Np Na.
  assert (status calon = rejected) as St by (destruct (status calon); congruence).
  split; [exact St|].
  unfold Main.approve_mahasiswa, Cli_register.approve. rewrite F, St.
  split; reflexivity.
Qed.

(** The claim on a rejected candidate. *)
Lemma C5_invalid_transition_witness :
  first_calon 1 db_rejected = Some (budi 1 rejected None) /\
  Main.approve_mahasiswa clock2025 1 db_rejected =
    (Main.HTTPException 409 "Cannot approve candidate with status rejected", db_rejected).
Proof.
  split; [reflexivity|].
  refine (proj1 (proj2 (C5_invalid_transition clock2025 1 db_rejected
                          (budi 1 rejected None) eq_refl _ _))); discriminate.
Defined.

(** C6. When each of the five attempts meets the unique index, the
    handler answers 409 with the detail that asks to retry, the command
    returns 13, and the database is left as it was: status, NIM and
    approval time of the candidate included. *)
Theorem C6_exhausted_retries (clock : nat -> DateTime) (id : Z) (db : DB)
    (calon : CalonMahasiswa) (ps : ProgramStudi) :
  first_calon id db = Some calon ->
  status calon = pending ->
  program_studi_of calon db = Some ps ->
  let year := PyStr.str_of_int (dt_year (clock 0%nat)) in
  let http_prefix := year ++ kode ps in
  let cli_prefix := year ++ PyStr.upper (kode ps) in
  ((forall k, (k < 5)%nat ->
      nim_taken id (nim_candidate http_prefix
                      (count_nim_like (http_prefix ++ "%") db) k) db = true) ->
   Main.approve_mahasiswa clock id db =
     (Main.HTTPException 409 "Could not generate unique NIM; please retry", db) /\
   first_calon id (snd (Main.approve_mahasiswa clock id db)) = Some calon) /\
  ((forall k, (k < 5)%nat ->
      nim_taken id (nim_candidate cli_prefix
                      (count_nim_like (cli_prefix ++ "%") db) k) db = true) ->
   Cli_register.approve clock (Some id) db =
     (Cli_register.mkOutcome 13
        ["ERROR: Gagal generate unique NIM setelah 5 percobaan"], db) /\
   first_calon id (snd (Cli_register.approve clock (Some id) db)) = Some calon).
Proof.
  intros F St P year http_prefix cli_prefix.
  pose proof (http_pending_outcome clock id db calon ps F St P) as H.
  pose proof (cli_pending_outcome clock id db calon ps F St P) as C.
  cbv zeta in H, C. fold year http_prefix in H. fold year cli_prefix in C.
  split; intros A; apply first_free_none in A.
  - rewrite A in H. rewrite H. now split.
  - rewrite A in C. rewrite C. now split.
Qed.

(** The claim on a database where the five candidates are all held. *)
Lemma C6_exhausted_retries_witness :
  first_calon 6 db_crowded = Some (budi 6 pending None) /\
  Main.approve_mahasiswa clock2025 6 db_crowded =
    (Main.HTTPException 409 "Could not generate unique NIM; please retry", db_crowded) /\
  Cli_register.approve clock2025 (Some 6) db_crowded =
    (Cli_register.mkOutcome 13
       ["ERROR: Gagal generate unique NIM setelah 5 percobaan"], db_crowded).
Proof.
  assert (forall k, (k < 5)%nat ->
            nim_taken 6 (nim_candidate "2025TIF" 5 k) db_crowded = true) as A.
  { intros k Hk. do 5 (destruct k as [|k]; [reflexivity|]). lia. }
  split; [reflexivity|].
  destruct (C6_exhausted_retries clock2025 6 db_crowded (budi 6 pending None) tif
              eq_refl eq_refl eq_refl) as [H C].
  split; [exact (proj1 (H A)) | exact (proj1 (C A))].
Defined.

(** The two approvals leave the same database when the program code is
    stored in upper case. *)
Lemma http_cli_same_database (clock : nat -> DateTime) (id : Z) (db : DB)
    (calon : CalonMahasiswa) (ps : ProgramStudi) :
  first_calon id db = Some calon ->
  status calon = pending ->
  program_studi_of calon db = Some ps ->
  PyStr.upper (kode ps) = kode ps ->
  snd (Main.approve_mahasiswa clock id db)
    = snd (Cli_register.approve clock (Some id) db).
Proof.
  intros F St P U.
  rewrite (http_pending_outcome clock id db calon ps F St P).
  rewrite (cli_pending_outcome clock id db calon ps F St P).
  cbv zeta. rewrite U.
  now destruct (first_free _ _ _ _).
Qed.

(** C10 on a program code stored in lower case: for the same pending
    candidate and the same database the handler commits [2025tif0001]
    and the command [2025TIF0001]. *)
Theorem C10_lowercase_kode_diverges :
  first_calon 1 db_lower = Some (budi 1 pending None) /\
  program_studi_of (budi 1 pending None) db_lower = Some tif_lower /\
  fst (Main.approve_mahasiswa clock2025 1 db_lower)
    = Main.Json_nim (Some "2025tif0001") /\
  refreshed_nim 1 (snd (Main.approve_mahasiswa clock2025 1 db_lower))
    = Some "2025tif0001" /\
  fst (Cli_register.approve clock2025 (Some 1) db_lower)
    = Cli_register.mkOutcome 0 ["SUCCESS: Calon di-approve, NIM generated: 2025TIF0001"] /\
  refreshed_nim 1 (snd (Cli_register.approve clock2025 (Some 1) db_lower))
    = Some "2025TIF0001".
Proof. vm_compute. repeat split. Qed.

End StateClaims.

(** ** More on the approval flow *)

Section ApprovalFrame.

Import Candidates.

Lemma http_retry_cases (attempts : list nat) (clock : nat -> DateTime) (id : Z)
    (prefix : string) (count : nat) (db : DB) :
  Main.retry attempts clock id prefix count db =
    (Main.HTTPException 409 "Could not generate unique NIM; please retry", db) \/
  exists k,
    In k attempts /\
    nim_taken id (nim_candidate prefix count k) db = false /\
    Main.retry attempts clock id prefix count db =
      (Main.Json_nim
         (refreshed_nim id
            (update_approval id (nim_candidate prefix count k) (clock (S k)) db)),
       update_approval id (nim_candidate prefix count k) (clock (S k)) db).
Proof.
  induction attempts as [|a rest IH]; [now left|].
  cbn [Main.retry]. unfold commit_approval.
  destruct (nim_taken id (nim_candidate prefix count a) db) eqn:T.
  - destruct IH as [E|(k & I & Tk & E)]; [now left|].
    right. exists k. split; [now right|]. now split.
  - right. exists a. split; [now left|]. now split.
Qed.

Lemma cli_retry_cases (attempts : list nat) (clock : nat -> DateTime) (id : Z)
    (prefix : string) (count : nat) (db : DB) :
  Cli_register.retry attempts clock id prefix count db =
    (Cli_register.mkOutcome 13
       ["ERROR: Gagal generate unique NIM setelah 5 percobaan"], db) \/
  exists k,
    In k attempts /\
    nim_taken id (nim_candidate prefix count k) db = false /\
    Cli_register.retry attempts clock id prefix count db =
      (Cli_register.mkOutcome 0
         ["SUCCESS: Calon di-approve, NIM generated: "
          ++ PyStr.str_of_opt
               (refreshed_nim id
                  (update_approval id (nim_candidate prefix count k) (clock (S k)) db))],
       update_approval id (nim_candidate prefix count k) (clock (S k)) db).
Proof.
  induction attempts as [|a rest IH]; [now left|].
  cbn [Cli_register.retry]. unfold commit_approval.
  destruct (nim_taken id (nim_candidate prefix count a) db) eqn:T.
  - destruct IH as [E|(k & I & Tk & E)]; [now left|].
    right. exists k. split; [now right|]. now split.
  - right. exists a. split; [now left|]. now split.
Qed.

(** Whatever the handler answers, the database is the old one or the old
    one with one UPDATE whose NIM no other row held. *)
Lemma http_database_cases (clock : nat -> DateTime) (id : Z) (db : DB) :
  snd (Main.approve_mahasiswa clock id db) = db \/
  exists n t,
    nim_taken id n db = false /\
    fst (Main.approve_mahasiswa clock id db)
      = Main.Json_nim (refreshed_nim id (update_approval id n t db)) /\
    snd (Main.approve_mahasiswa clock id db) = update_approval id n t db.
Proof.
  unfold Main.approve_mahasiswa.
  destruct (first_calon id db) as [calon|] eqn:F; [|now left].
  rewrite (first_calon_id _ _ _ F).
  destruct (status calon); cbn [status_eqb negb]; cbv iota; try (now left).
  destruct (program_studi_of calon db) as [ps|]; [|now left].
  cbv zeta.
  match goal with
  | |- context [Main.retry ?a ?c ?i ?p ?n ?d] =>
      destruct (http_retry_cases a c i p n d) as [E|(k & _ & T & E)]; rewrite E
  end; [now left|].
  right. do 2 eexists. split; [exact T|]. split; reflexivity.
Qed.

Lemma cli_database_cases (clock : nat -> DateTime) (args_id : option Z) (db : DB) :
  snd (Cli_register.approve clock args_id db) = db \/
  exists id n t,
    args_id = Some id /\
    nim_taken id n db = false /\
    fst (Cli_register.approve clock args_id db)
      = Cli_register.mkOutcome 0
          ["SUCCESS: Calon di-approve, NIM generated: "
           ++ PyStr.str_of_opt (refreshed_nim id (update_approval id n t db))] /\
    snd (Cli_register.approve clock args_id db) = update_approval id n t db.
Proof.
  unfold Cli_register.approve.
  destruct args_id as [id|]; [|now left].
  destruct (first_calon id db) as [calon|] eqn:F; [|now left].
  rewrite (first_calon_id _ _ _ F).
  destruct (status calon); cbn [status_eqb negb]; cbv iota; try (now left).
  destruct (program_studi_of calon db) as [ps|]; [|now left].
  cbv zeta.
  match goal with
  | |- context [Cli_register.retry ?a ?c ?i ?p ?n ?d] =>
      destruct (cli_retry_cases a c i p n d) as [E|(k & _ & T & E)]; rewrite E
  end; [now left|].
  right. exists id. do 2 eexists. split; [reflexivity|]. split; [exact T|].
  split; reflexivity.
Qed.

Lemma update_approval_personal (id : Z) (n : string) (t : DateTime) (db : DB) :
  map personal (calon_mahasiswa (update_approval id n t db))
    = map personal (calon_mahasiswa db).
Proof.
  unfold update_approval. cbn [calon_mahasiswa set_calon_mahasiswa].
  rewrite map_map. apply map_ext. intros r. now destruct (cm_id r =? id).
Qed.

Lemma update_approval_others (id : Z) (n : string) (t : DateTime) (db : DB) :
  others id (update_approval id n t db) = others id db.
Proof.
  unfold others, update_approval. cbn [calon_mahasiswa set_calon_mahasiswa].
  induction (calon_mahasiswa db) as [|r rows IH]; [reflexivity|].
  cbn [map filter]. destruct (cm_id r =? id) eqn:E.
  - cbn [assign_approval cm_id]. rewrite E. exact IH.
  - rewrite E. cbn [negb]. now rewrite IH.
Qed.

(** X1. An approval, through the handler or the command and whatever its
    outcome, leaves the programs and the counters as they were, changes
    no personal column (id, name, e-mail, phone, birth date, address,
    program, entry path, creation time) of any candidate, and changes no
    column at all of the other candidates. *)
Theorem X1_approval_frame (clock : nat -> DateTime) (id : Z) (db : DB) :
  let http := snd (Main.approve_mahasiswa clock id db) in
  let cli := snd (Cli_register.approve clock (Some id) db) in
  (program_studi http = program_studi db /\
   nim_counters http = nim_counters db /\
   map personal (calon_mahasiswa http) = map personal (calon_mahasiswa db) /\
   others id http = others id db) /\
  (program_studi cli = program_studi db /\
   nim_counters cli = nim_counters db /\
   map personal (calon_mahasiswa cli) = map personal (calon_mahasiswa db) /\
   others id cli = others id db).
Proof.
  intros http cli. split.
  - subst http. destruct (http_database_cases clock id db) as [E|(n & t & _ & _ & E)];
      rewrite E; [tauto|].
    repeat split; [apply update_approval_personal | apply update_approval_others].
  - subst cli.
    destruct (cli_database_cases clock (Some id) db)
      as [E|(i & n & t & [= <-] & _ & _ & E)]; rewrite E; [tauto|].
    repeat split; [apply update_approval_personal | apply update_approval_others].
Qed.

(** X2. When the handler or the command reports a failure (an HTTP
    error, an unhandled exception, a return code other than 0), the
    database is exactly the one it was given. *)
Theorem X2_failed_approval_changes_nothing (clock : nat -> DateTime) (id : Z)
    (args_id : option Z) (db : DB) :
  (forall code detail,
      fst (Main.approve_mahasiswa clock id db) = Main.HTTPException code detail ->
      snd (Main.approve_mahasiswa clock id db) = db) /\
  (forall exc,
      fst (Main.approve_mahasiswa clock id db) = Main.Unhandled exc ->
      snd (Main.approve_mahasiswa clock id db) = db) /\
  (forall rc out,
      fst (Cli_register.approve clock args_id db) = Cli_register.mkOutcome rc out ->
      rc <> 0 ->
      snd (Cli_register.approve clock args_id db) = db) /\
  (forall exc,
      fst (Cli_register.approve clock args_id db) = Cli_register.Uncaught exc ->
      snd (Cli_register.approve clock args_id db) = db).
Proof.
  destruct (http_database_cases clock id db) as [H|(n & t & _ & H & _)];
    destruct (cli_database_cases clock args_id db) as [C|(i & m & u & _ & _ & C & _)];
    repeat split; intros; trivial; try congruence.
Qed.

End ApprovalFrame.

Section ApprovalState.

Import Candidates.

Lemma first_calon_update (id : Z) (n : string) (t : DateTime) (db : DB)
    (c : CalonMahasiswa) :
  first_calon id db = Some c ->
  first_calon id (update_approval id n t db) = Some (assign_approval n t c).
Proof.
  unfold first_calon, update_approval. cbn [calon_mahasiswa set_calon_mahasiswa].
  induction (calon_mahasiswa db) as [|r rows IH]; [discriminate|].
  cbn [map find]. destruct (cm_id r =? id) eqn:E.
  - cbn [assign_approval cm_id]. rewrite E. now intros [= ->].
  - rewrite E. exact IH.
Qed.

(** X3. Once the handler has approved a pending candidate with NIM [n],
    the row of the candidate is the old row with status approved, that
    NIM and the time of the successful attempt; and every later approval
    of the same id, through the handler or the command and at any time,
    answers with the same NIM and changes nothing. *)
Theorem X3_approved_stays_approved (clock later : nat -> DateTime) (id : Z)
    (db db' : DB) (calon : CalonMahasiswa) (n : string) :
  first_calon id db = Some calon ->
  status calon = pending ->
  Main.approve_mahasiswa clock id db = (Main.Json_nim (Some n), db') ->
  (exists k, (k < 5)%nat /\
             first_calon id db' = Some (assign_approval n (clock (S k)) calon)) /\
  Main.approve_mahasiswa later id db' = (Main.Json_nim (Some n), db') /\
  Cli_register.approve later (Some id) db' =
    (Cli_register.mkOutcome 0 ["INFO: Calon sudah di-approve sebelumnya, NIM: " ++ n],
     db').
Proof.
  intros F St H.
  destruct (program_studi_of calon db) as [ps|] eqn:P.
  - rewrite (http_pending_outcome clock id db calon ps F St P) in H. cbv zeta in H.
    destruct (first_free _ _ _ _) as [k|] eqn:FF; [|discriminate].
    injection H as <- <-.
    apply first_free_bound in FF as (Hk & _ & _).
    match goal with
    | |- context [update_approval id ?m ?t db] =>
        pose proof (first_calon_update id m t db calon F) as F'
    end.
    split; [exists k; now split|].
    unfold Main.approve_mahasiswa, Cli_register.approve. rewrite F'.
    split; reflexivity.
  - exfalso. unfold Main.approve_mahasiswa in H. rewrite F, St, P in H.
    discriminate.
Qed.

Lemma map_nth_error_inv {A B : Type} (f : A -> B) (l : list A) (i : nat) (b : B) :
  nth_error (map f l) i = Some b -> exists a, nth_error l i = Some a /\ b = f a.
Proof.
  revert i. induction l as [|x l IH]; intros [|i]; cbn; try discriminate.
  - intros [= <-]. now exists x.
  - apply IH.
Qed.

Lemma nim_taken_false (id : Z) (n : string) (db : DB) (i : nat) (r : CalonMahasiswa) :
  nim_taken id n db = false ->
  nth_error (calon_mahasiswa db) i = Some r ->
  nim r = Some n -> cm_id r = id.
Proof.
  unfold nim_taken. intros T I N.
  apply nth_error_In in I.
  destruct (existsb _ _) eqn:E in T; [discriminate|].
  rewrite <- Bool.not_true_iff_false in E. rewrite existsb_exists in E.
  destruct (Z.eq_dec (cm_id r) id) as [|Ne]; [assumption|].
  exfalso. apply E. exists r. split; [exact I|].
  rewrite N, String.eqb_refl, andb_true_r.
  apply negb_true_iff. now apply Z.eqb_neq.
Qed.

Lemma update_keeps_constraints (id : Z) (n : string) (t : DateTime) (db : DB) :
  nim_taken id n db = false ->
  pk_unique (calon_mahasiswa db) -> nim_unique (calon_mahasiswa db) ->
  pk_unique (calon_mahasiswa (update_approval id n t db)) /\
  nim_unique (calon_mahasiswa (update_approval id n t db)).
Proof.
  intros T Pk Nu.
  assert (map cm_id (calon_mahasiswa (update_approval id n t db))
          = map cm_id (calon_mahasiswa db)) as Ids.
  { unfold update_approval. cbn [calon_mahasiswa set_calon_mahasiswa].
    rewrite map_map. apply map_ext. intros r. now destruct (cm_id r =? id). }
  split; [unfold pk_unique; now rewrite Ids|].
  unfold nim_unique, update_approval. cbn [calon_mahasiswa set_calon_mahasiswa].
  intros i j a b m Ha Hb Na Nb.
  apply map_nth_error_inv in Ha as (a0 & Ha & ->).
  apply map_nth_error_inv in Hb as (b0 & Hb & ->).
  assert (forall x y, nth_error (calon_mahasiswa db) i = Some x ->
                      nth_error (calon_mahasiswa db) j = Some y ->
                      cm_id x = cm_id y -> i = j) as SameId.
  { intros x y Hx Hy E. unfold pk_unique in Pk.
    rewrite NoDup_nth_error in Pk. apply Pk.
    - apply nth_error_Some. rewrite (map_nth_error _ _ _ Hx). discriminate.
    - now rewrite (map_nth_error _ _ _ Hx), (map_nth_error _ _ _ Hy), E. }
  destruct (cm_id a0 =? id) eqn:Ea, (cm_id b0 =? id) eqn:Eb.
  - apply Z.eqb_eq in Ea, Eb. apply (SameId a0 b0 Ha Hb). congruence.
  - cbn [assign_approval nim] in Na. injection Na as <-.
    apply Z.eqb_eq in Ea. apply Z.eqb_neq in Eb.
    exfalso. apply Eb. now apply (nim_taken_false id n db j b0).
  - cbn [assign_approval nim] in Nb. injection Nb as <-.
    apply Z.eqb_neq in Ea.
    exfalso. apply Ea. now apply (nim_taken_false id n db i a0).
  - now apply (Nu i j a0 b0 m).
Qed.

(** X4. An approval keeps the constraints of the candidate table: if
    the ids are pairwise different and no two rows hold the same NIM
    before the handler or the command runs, the same is true after it,
    whatever the outcome. *)
Theorem X4_approval_keeps_unique_index (clock : nat -> DateTime) (id : Z)
    (args_id : option Z) (db : DB) :
  pk_unique (calon_mahasiswa db) ->
  nim_unique (calon_mahasiswa db) ->
  (pk_unique (calon_mahasiswa (snd (Main.approve_mahasiswa clock id db))) /\
   nim_unique (calon_mahasiswa (snd (Main.approve_mahasiswa clock id db)))) /\
  (pk_unique (calon_mahasiswa (snd (Cli_register.approve clock args_id db))) /\
   nim_unique (calon_mahasiswa (snd (Cli_register.approve clock args_id db)))).
Proof.
  intros Pk Nu. split.
  - destruct (http_database_cases clock id db) as [E|(n & t & T & _ & E)];
      rewrite E; [now split | now apply update_keeps_constraints].
  - destruct (cli_database_cases clock args_id db) as [E|(i & n & t & _ & T & _ & E)];
      rewrite E; [now split | now apply update_keeps_constraints].
Qed.

End ApprovalState.

Section PrefixCount.

Import Candidates.

Lemma like_percent_cons (pat s : string) (c : ascii) :
  like (String "%" pat) (String c s) = like pat (String c s) || like (String "%" pat) s.
Proof. reflexivity. Qed.

Lemma like_percent_zero (pat s : string) :
  like pat s = true -> like (String "%" pat) s = true.
Proof.
  intros H. destruct s as [|c s].
  - change (like (String "%" pat) "") with (like pat "" || false).
    now rewrite H.
  - now rewrite like_percent_cons, H.
Qed.

Lemma like_percent_any (s : string) : like "%" s = true.
Proof.
  induction s as [|c s IH]; [reflexivity|].
  rewrite like_percent_cons, IH. apply orb_true_r.
Qed.

Lemma like_chr_refl (c : ascii) : like_chr c c = true.
Proof. unfold like_chr. apply Ascii.eqb_refl. Qed.

(** A string matches the pattern made of any of its prefixes and [%]. *)
Lemma like_own_prefix (p x : string) : like (p ++ "%") (p ++ x) = true.
Proof.
  induction p as [|c p IH]; [apply like_percent_any|].
  cbn [append]. destruct (Ascii.eqb c "%") eqn:E.
  - apply Ascii.eqb_eq in E. subst c.
    rewrite like_percent_cons, (like_percent_zero _ _ IH). apply orb_true_r.
  - cbn [like]. rewrite E. now rewrite like_chr_refl, orb_true_r, IH.
Qed.

Lemma count_zero_not_taken (id : Z) (p x : string) (db : DB) :
  count_nim_like (p ++ "%") db = 0%nat -> nim_taken id (p ++ x) db = false.
Proof.
  unfold count_nim_like, nim_taken. intros C.
  apply length_zero_iff_nil in C.
  destruct (existsb _ _) eqn:E; [|reflexivity].
  apply existsb_exists in E as (r & I & H).
  apply andb_prop in H as [_ H].
  destruct (nim r) as [m|] eqn:N; [|discriminate].
  apply String.eqb_eq in H. subst m.
  assert (In r (filter (nim_like (p ++ "%")) (calon_mahasiswa db))) as I'.
  { apply filter_In. split; [exact I|]. unfold nim_like. rewrite N. apply like_own_prefix. }
  rewrite C in I'. destruct I'.
Qed.

(** With no NIM under the prefix the first attempt is committed. *)
Lemma http_first_sequence (clock : nat -> DateTime) (id : Z) (db : DB)
    (calon : CalonMahasiswa) (ps : ProgramStudi) :
  first_calon id db = Some calon ->
  status calon = pending ->
  program_studi_of calon db = Some ps ->
  count_nim_like ((PyStr.str_of_int (dt_year (clock 0%nat)) ++ kode ps) ++ "%") db
    = 0%nat ->
  let n := PyStr.str_of_int (dt_year (clock 0%nat)) ++ kode ps ++ "0001" in
  Main.approve_mahasiswa clock id db =
    (Main.Json_nim (Some n), update_approval id n (clock 1%nat) db).
Proof.
  intros F St P C n.
  rewrite (http_pending_outcome clock id db calon ps F St P). cbv zeta.
  unfold first_free, range5. cbn [find]. rewrite C.
  change (nim_candidate (PyStr.str_of_int (dt_year (clock 0%nat)) ++ kode ps) 0 0)
    with ((PyStr.str_of_int (dt_year (clock 0%nat)) ++ kode ps) ++ "0001").
  rewrite (count_zero_not_taken id _ "0001" db C). cbn [negb].
  change (nim_candidate (PyStr.str_of_int (dt_year (clock 0%nat)) ++ kode ps) 0 0)
    with ((PyStr.str_of_int (dt_year (clock 0%nat)) ++ kode ps) ++ "0001").
  now rewrite append_assoc.
Qed.

(** X5. When no NIM in the table matches the prefix of the year and the
    program code, the handler commits at its first attempt exactly the
    NIM that the placeholder method of the candidate returns: year, code
    and [0001]. *)
Theorem X5_first_approval_is_placeholder (clock : nat -> DateTime) (id : Z) (db : DB)
    (calon : CalonMahasiswa) (ps : ProgramStudi) :
  first_calon id db = Some calon ->
  status calon = pending ->
  program_studi_of calon db = Some ps ->
  count_nim_like ((PyStr.str_of_int (dt_year (clock 0%nat)) ++ kode ps) ++ "%") db
    = 0%nat ->
  let n := PyStr.str_of_int (dt_year (clock 0%nat)) ++ kode ps ++ "0001" in
  Models_methods.generate_nim clock calon db = Utils.Returned n /\
  Main.approve_mahasiswa clock id db =
    (Main.Json_nim (Some n), update_approval id n (clock 1%nat) db).
Proof.
  intros F St P C n. split.
  - unfold Models_methods.generate_nim. now rewrite P.
  - now apply http_first_sequence with (calon := calon).
Qed.

Lemma map_update_absent (id : Z) (n : string) (t : DateTime)
    (rows : list CalonMahasiswa) :
  ~ In id (map cm_id rows) ->
  map (fun r => if cm_id r =? id then assign_approval n t r else r) rows = rows.
Proof.
  induction rows as [|r rows IH]; cbn [map In]; intros N; [reflexivity|].
  destruct (cm_id r =? id) eqn:E.
  - apply Z.eqb_eq in E. tauto.
  - f_equal. apply IH. tauto.
Qed.

Lemma count_after_update (id : Z) (n pat : string) (t : DateTime)
    (rows : list CalonMahasiswa) (c : CalonMahasiswa) :
  NoDup (map cm_id rows) ->
  find (fun r => cm_id r =? id) rows = Some c ->
  nim_like pat c = false ->
  like pat n = true ->
  List.length (filter (nim_like pat)
                 (map (fun r => if cm_id r =? id then assign_approval n t r else r) rows))
  = S (List.length (filter (nim_like pat) rows)).
Proof.
  induction rows as [|r rows IH]; cbn [map find filter]; intros U F Nc L;
    [discriminate|].
  inversion U as [|? ? Hnin Hnd]; subst.
  destruct (cm_id r =? id) eqn:E.
  - injection F as ->. apply Z.eqb_eq in E. rewrite E in Hnin.
    rewrite (map_update_absent _ _ _ _ Hnin), Nc.
    unfold nim_like at 1. cbn [assign_approval nim]. now rewrite L.
  - destruct (nim_like pat r); cbn [List.length]; now rewrite (IH Hnd F Nc L).
Qed.

(** X6. In a table whose ids are pairwise different, a successful
    approval of a pending candidate without a NIM raises by exactly one
    the number of NIMs that match the prefix of the handler, the number
    from which the next approval under that prefix starts. *)
Theorem X6_approval_advances_count (clock : nat -> DateTime) (id : Z) (db db' : DB)
    (calon : CalonMahasiswa) (ps : ProgramStudi) (n : string) :
  pk_unique (calon_mahasiswa db) ->
  first_calon id db = Some calon ->
  status calon = pending ->
  nim calon = None ->
  program_studi_of calon db = Some ps ->
  Main.approve_mahasiswa clock id db = (Main.Json_nim (Some n), db') ->
  let pattern := (PyStr.str_of_int (dt_year (clock 0%nat)) ++ kode ps) ++ "%" in
  count_nim_like pattern db' = S (count_nim_like pattern db).
Proof.
  intros Pk F St N P H pattern.
  rewrite (http_pending_outcome clock id db calon ps F St P) in H. cbv zeta in H.
  destruct (first_free _ _ _ _) as [k|]; [|discriminate].
  injection H as <- <-.
  unfold count_nim_like, update_approval. cbn [calon_mahasiswa set_calon_mahasiswa].
  apply count_after_update with (c := calon); trivial.
  - unfold nim_like. now rewrite N.
  - unfold nim_candidate. apply like_own_prefix.
Qed.

End PrefixCount.

(** ** More on [generate_nim] *)

Section CounterComposition.

Import Counters Utils Serial.

(** X7. On a counter table that satisfies its constraints, [n] calls in
    a row for one valid key are all served and hand out, in order and
    without a gap, the sequences that follow the last one of the key:
    the [i]-th call returns year, normalized code and the last sequence
    plus [i]. *)
Theorem X7_successive_calls (n : nat) (tahun : Z) (kode_prodi : string) (db : DB) :
  wf (nim_counters db) ->
  2000 <= tahun <= 9999 ->
  PyStr.strip kode_prodi <> "" ->
  let kode := normalize kode_prodi in
  let last := last_sequence tahun kode (nim_counters db) in
  allocations (repeat (tahun, kode_prodi) n) db =
  map (fun i => mkIssued tahun kode (last + Z.of_nat i)
                  (PyStr.str_of_int tahun ++ kode ++ PyStr.format_04d (last + Z.of_nat i)))
      (seq 1 n).
Proof.
  intros W Y K kode last. subst last kode. revert db W.
  induction n as [|n IH]; intros db W; [reflexivity|].
  cbn [repeat allocations].
  destruct (generate_nim_ok tahun kode_prodi db W Y K) as (db' & E & W' & L & _).
  rewrite E. cbn [seq map]. rewrite L, (IH db' W'), L. change (Z.of_nat 1) with 1.
  f_equal. rewrite <- (seq_shift n 1), map_map.
  apply map_ext. intros i.
  replace (last_sequence tahun (normalize kode_prodi) (nim_counters db) + 1 + Z.of_nat i)
    with (last_sequence tahun (normalize kode_prodi) (nim_counters db) + Z.of_nat (S i))
    by lia.
  reflexivity.
Qed.

Lemma generate_nim_invalid_any (tahun : Z) (kode_prodi : string) (db db0 : DB) :
  tahun < 2000 \/ 9999 < tahun \/ PyStr.strip kode_prodi = "" ->
  fst (generate_nim tahun kode_prodi db) = fst (generate_nim tahun kode_prodi db0) /\
  snd (generate_nim tahun kode_prodi db) = db.
Proof.
  intros B. unfold generate_nim. rewrite truthy_upper.
  destruct (PyStr.truthy (PyStr.strip kode_prodi)) eqn:T; cbn [negb]; cbv iota.
  - assert ((tahun <? 2000) || (tahun >? 9999) = true) as ->.
    { apply orb_true_iff. rewrite Z.ltb_lt, Z.gtb_ltb, Z.ltb_lt.
      destruct B as [B|[B|B]]; [now left | now right |].
      rewrite B in T. discriminate. }
    now split.
  - now split.
Qed.

Lemma valid_call_iff (t : Z) (kp : string) :
  valid_call (t, kp) = true <-> 2000 <= t <= 9999 /\ PyStr.strip kp <> "".
Proof.
  unfold valid_call. cbn [fst snd].
  rewrite !andb_true_iff, !Z.leb_le.
  destruct (PyStr.strip kp); cbn [PyStr.truthy]; split; intros H.
  - destruct H as [_ H]. discriminate.
  - destruct H as [_ H]. congruence.
  - split; [tauto | discriminate].
  - split; [tauto | reflexivity].
Qed.

(** What one call adds to the last sequence of each key. *)
Lemma last_sequence_after (t : Z) (kp : string) (db : DB) :
  wf (nim_counters db) ->
  wf (nim_counters (snd (generate_nim t kp db))) /\
  forall y k,
    last_sequence y k (nim_counters (snd (generate_nim t kp db))) =
    last_sequence y k (nim_counters db)
    + (if Z.eq_dec y t then
         if string_dec k (normalize kp) then
           if valid_call (t, kp) then 1 else 0
         else 0
       else 0).
Proof.
  intros W. destruct (input_cases t kp) as [B|[Y K]].
  - destruct (generate_nim_invalid_any t kp db db B) as [_ E]. rewrite E.
    split; [exact W|]. intros y k.
    assert (valid_call (t, kp) = false) as ->.
    { destruct (valid_call (t, kp)) eqn:V; [|reflexivity].
      apply valid_call_iff in V as [Y K].
      destruct B as [?|[?|?]]; [lia | lia | congruence]. }
    destruct (Z.eq_dec y t); [destruct (string_dec _ _)|]; lia.
  - destruct (generate_nim_ok t kp db W Y K) as (d' & E & W' & L & O & _).
    rewrite E. cbn [snd]. split; [exact W'|]. intros y k.
    assert (valid_call (t, kp) = true) as -> by (apply valid_call_iff; now split).
    destruct (Z.eq_dec y t) as [->|Ny];
      [destruct (string_dec k (normalize kp)) as [->|Nk]|].
    + exact L.
    + rewrite O; [lia | congruence].
    + rewrite O; [lia | congruence].
Qed.

(** X8. Keys do not interfere: on a counter table that satisfies its
    constraints, the result of a call for one key is the same whether
    or not a call for a different key ran just before it; and the last
    sequence of every key is the same after two calls whichever of the
    two ran first. *)
Theorem X8_keys_independent (t1 t2 : Z) (k1 k2 : string) (db : DB) :
  wf (nim_counters db) ->
  ((t1, normalize k1) <> (t2, normalize k2) ->
   fst (generate_nim t1 k1 (snd (generate_nim t2 k2 db))) = fst (generate_nim t1 k1 db)) /\
  (forall y k,
      last_sequence y k
        (nim_counters (snd (generate_nim t1 k1 (snd (generate_nim t2 k2 db))))) =
      last_sequence y k
        (nim_counters (snd (generate_nim t2 k2 (snd (generate_nim t1 k1 db)))))).
Proof.
  intros W.
  destruct (last_sequence_after t2 k2 db W) as [W2 L2].
  destruct (last_sequence_after t1 k1 db W) as [W1 L1].
  split.
  - intros N.
    destruct (input_cases t1 k1) as [B|[Y K]].
    + now destruct (generate_nim_invalid_any t1 k1
                      (snd (generate_nim t2 k2 db)) db B) as [E _].
    + destruct (generate_nim_ok t1 k1 _ W2 Y K) as (d1 & E1 & _).
      destruct (generate_nim_ok t1 k1 db W Y K) as (d0 & E0 & _).
      rewrite E1, E0. cbn [fst]. rewrite L2.
      destruct (Z.eq_dec t1 t2) as [Et|]; [|now rewrite Z.add_0_r].
      destruct (string_dec (normalize k1) (normalize k2)) as [Ek|];
        [congruence | now rewrite Z.add_0_r].
  - intros y k.
    destruct (last_sequence_after t1 k1 _ W2) as [_ M1].
    destruct (last_sequence_after t2 k2 _ W1) as [_ M2].
    rewrite M1, M2, L1, L2. lia.
Qed.

End CounterComposition.

Section Normalization.

Import Utils.

Lemma is_space_to_upper (c : ascii) : PyStr.is_space (PyStr.to_upper c) = PyStr.is_space c.
Proof. destruct c as [[] [] [] [] [] [] [] []]; reflexivity. Qed.

Lemma to_upper_idem (c : ascii) : PyStr.to_upper (PyStr.to_upper c) = PyStr.to_upper c.
Proof. destruct c as [[] [] [] [] [] [] [] []]; reflexivity. Qed.

Lemma upper_idem (s : string) : PyStr.upper (PyStr.upper s) = PyStr.upper s.
Proof.
  induction s as [|c s IH]; [reflexivity|].
  cbn [PyStr.upper]. now rewrite to_upper_idem, IH.
Qed.

Lemma lstrip_upper (s : string) : PyStr.lstrip (PyStr.upper s) = PyStr.upper (PyStr.lstrip s).
Proof.
  induction s as [|c s IH]; [reflexivity|].
  cbn [PyStr.upper PyStr.lstrip]. rewrite is_space_to_upper.
  destruct (PyStr.is_space c); [exact IH | reflexivity].
Qed.

Lemma rstrip_upper (s : string) : PyStr.rstrip (PyStr.upper s) = PyStr.upper (PyStr.rstrip s).
Proof.
  induction s as [|c s IH]; [reflexivity|].
  cbn [PyStr.upper PyStr.rstrip]. rewrite IH, is_space_to_upper.
  destruct (PyStr.rstrip s); cbn [PyStr.upper]; [|reflexivity].
  now destruct (PyStr.is_space c).
Qed.

Lemma strip_upper (s : string) : PyStr.strip (PyStr.upper s) = PyStr.upper (PyStr.strip s).
Proof. unfold PyStr.strip. now rewrite rstrip_upper, lstrip_upper. Qed.

Lemma lstrip_idem (s : string) : PyStr.lstrip (PyStr.lstrip s) = PyStr.lstrip s.
Proof.
  induction s as [|c s IH]; [reflexivity|].
  cbn [PyStr.lstrip]. destruct (PyStr.is_space c) eqn:E; [exact IH|].
  cbn [PyStr.lstrip]. now rewrite E.
Qed.

Lemma rstrip_idem (s : string) : PyStr.rstrip (PyStr.rstrip s) = PyStr.rstrip s.
Proof.
  induction s as [|c s IH]; [reflexivity|].
  cbn [PyStr.rstrip]. destruct (PyStr.rstrip s) as [|d r] eqn:R.
  - destruct (PyStr.is_space c) eqn:E; [reflexivity|].
    cbn [PyStr.rstrip]. now rewrite E.
  - cbn [PyStr.rstrip] in *. now rewrite IH.
Qed.

Lemma rstrip_lstrip_fixed (u : string) :
  PyStr.rstrip u = u -> PyStr.rstrip (PyStr.lstrip u) = PyStr.lstrip u.
Proof.
  induction u as [|c u IH]; [reflexivity|].
  intros H. cbn [PyStr.lstrip]. destruct (PyStr.is_space c) eqn:E; [|exact H].
  apply IH. cbn [PyStr.rstrip] in H.
  destruct (PyStr.rstrip u) as [|d r]; [rewrite E in H; discriminate|].
  now injection H.
Qed.

Lemma strip_idem (s : string) : PyStr.strip (PyStr.strip s) = PyStr.strip s.
Proof.
  unfold PyStr.strip.
  rewrite (rstrip_lstrip_fixed (PyStr.rstrip s) (rstrip_idem s)).
  apply lstrip_idem.
Qed.

Lemma normalize_idem (kode_prodi : string) :
  normalize (normalize kode_prodi) = normalize kode_prodi.
Proof. unfold normalize. now rewrite strip_upper, upper_idem, strip_idem. Qed.

(** X9. The normalization of the program code is idempotent, so the
    code as it stands in a counter row or in a NIM addresses the same
    counter as the spelling it came from: [generate_nim] gives the same
    result and the same database for both, and for any two spellings
    with the same normalization. *)
Theorem X9_normalized_code_same_counter (tahun : Z) (kode_prodi : string) (db : DB) :
  normalize (normalize kode_prodi) = normalize kode_prodi /\
  generate_nim tahun (normalize kode_prodi) db = generate_nim tahun kode_prodi db /\
  (forall other, normalize other = normalize kode_prodi ->
                 generate_nim tahun other db = generate_nim tahun kode_prodi db).
Proof.
  assert (forall a b, normalize a = normalize b ->
                      generate_nim tahun a db = generate_nim tahun b db) as Same.
  { intros a b E. unfold generate_nim. fold (normalize a) (normalize b).
    now rewrite E. }
  split; [apply normalize_idem|]. split.
  - apply Same, normalize_idem.
  - intros other E. now apply Same.
Qed.

End Normalization.

(** ** The matcher decides the words of a pattern *)

Section RegexFacts.

Import Re.

Lemma append_nil_r (s : string) : s ++ "" = s.
Proof. induction s as [|c s IH]; cbn; [reflexivity | now rewrite IH]. Qed.

Lemma append_eq_nil (a b : string) : a ++ b = "" -> a = "" /\ b = "".
Proof. destruct a; cbn; [tauto | discriminate]. Qed.

Lemma lang_void_inv (s : string) : ~ lang Void s.
Proof. intros H. remember Void as q eqn:Q. destruct H; discriminate. Qed.

Lemma lang_eps_inv (s : string) : lang Eps s -> s = "".
Proof. intros H. remember Eps as q eqn:Q. destruct H; try discriminate. reflexivity. Qed.

Lemma lang_class_inv (p : ascii -> bool) (s : string) :
  lang (Class p) s -> exists c, s = String c "" /\ p c = true.
Proof.
  intros H. remember (Class p) as q eqn:Q. destruct H; try discriminate.
  injection Q as ->. eauto.
Qed.

Lemma lang_cat_inv (r1 r2 : regex) (s : string) :
  lang (Cat r1 r2) s -> exists s1 s2, s = s1 ++ s2 /\ lang r1 s1 /\ lang r2 s2.
Proof.
  intros H. remember (Cat r1 r2) as q eqn:Q. destruct H; try discriminate.
  injection Q as -> ->. eauto.
Qed.

Lemma lang_alt_inv (r1 r2 : regex) (s : string) :
  lang (Alt r1 r2) s -> lang r1 s \/ lang r2 s.
Proof.
  intros H. remember (Alt r1 r2) as q eqn:Q. destruct H; try discriminate;
    injection Q as -> ->; tauto.
Qed.

Lemma nullable_lang (r : regex) : nullable r = true <-> lang r "".
Proof.
  induction r as [| |p|r1 IH1 r2 IH2|r1 IH1 r2 IH2|r IH]; cbn [nullable].
  - split; [discriminate | intros H; now apply lang_void_inv in H].
  - split; [constructor | reflexivity].
  - split; [discriminate|]. intros H.
    apply lang_class_inv in H as (c & E & _). discriminate.
  - rewrite andb_true_iff, IH1, IH2. split.
    + intros [H1 H2]. change "" with ("" ++ ""). now constructor.
    + intros H. apply lang_cat_inv in H as (s1 & s2 & E & H1 & H2).
      symmetry in E. apply append_eq_nil in E as [-> ->]. now split.
  - rewrite orb_true_iff, IH1, IH2. split.
    + intros [H|H]; [now apply lang_alt_l | now apply lang_alt_r].
    + apply lang_alt_inv.
  - split; [constructor | reflexivity].
Qed.

Lemma lang_cat_cons (r1 r2 : regex) (c : ascii) (s : string) :
  lang (Cat r1 r2) (String c s) ->
  (exists s1 s2, s = s1 ++ s2 /\ lang r1 (String c s1) /\ lang r2 s2) \/
  (lang r1 "" /\ lang r2 (String c s)).
Proof.
  intros H. apply lang_cat_inv in H as (s1 & s2 & E & H1 & H2).
  destruct s1 as [|d s1]; cbn in E.
  - right. subst. now split.
  - injection E as -> ->. left. now exists s1, s2.
Qed.

Lemma lang_star_cons_inv (r : regex) (c : ascii) (s : string) :
  lang (Star r) (String c s) ->
  exists s1 s2, s = s1 ++ s2 /\ lang r (String c s1) /\ lang (Star r) s2.
Proof.
  intros H. remember (Star r) as q eqn:Q. remember (String c s) as w eqn:Wd.
  revert c s Wd.
  induction H as [| | | | | |r0 s1 s2 H1 _ H2 IH2]; intros c0 s0 Wd; try discriminate.
  injection Q as ->.
  destruct s1 as [|d s1]; cbn in Wd.
  - now apply IH2.
  - injection Wd as -> <-. now exists s1, s2.
Qed.

Lemma deriv_lang (r : regex) : forall c s, lang (deriv c r) s <-> lang r (String c s).
Proof.
  induction r as [| |p|r1 IH1 r2 IH2|r1 IH1 r2 IH2|r IH]; intros c s; cbn [deriv].
  - split; intros H; now apply lang_void_inv in H.
  - split; intros H; [now apply lang_void_inv in H|].
    apply lang_eps_inv in H. discriminate.
  - destruct (p c) eqn:P; split; intros H.
    + apply lang_eps_inv in H. subst. now constructor.
    + apply lang_class_inv in H as (d & [= -> ->] & _). constructor.
    + now apply lang_void_inv in H.
    + apply lang_class_inv in H as (d & [= -> ->] & Pd). congruence.
  - assert (lang (Cat (deriv c r1) r2) s <->
            exists s1 s2, s = s1 ++ s2 /\ lang r1 (String c s1) /\ lang r2 s2) as Left.
    { split.
      - intros H. apply lang_cat_inv in H as (s1 & s2 & -> & H1 & H2).
        exists s1, s2. rewrite <- IH1. now repeat split.
      - intros (s1 & s2 & -> & H1 & H2). constructor; [now apply IH1 | exact H2]. }
    assert ((exists s1 s2, s = s1 ++ s2 /\ lang r1 (String c s1) /\ lang r2 s2) ->
            lang (Cat r1 r2) (String c s)) as Build.
    { intros (s1 & s2 & -> & H1 & H2).
      change (String c (s1 ++ s2)) with (String c s1 ++ s2). now constructor. }
    destruct (nullable r1) eqn:N.
    + split.
      * intros H. apply lang_alt_inv in H as [H|H].
        -- apply Build. now apply Left.
        -- change (String c s) with ("" ++ String c s). constructor.
           ++ now apply nullable_lang.
           ++ now apply IH2.
      * intros H. apply lang_cat_cons in H as [H|[_ H]].
        -- apply lang_alt_l. now apply Left.
        -- apply lang_alt_r. now apply IH2.
    + rewrite Left. split; [exact Build|].
      intros H. apply lang_cat_cons in H as [H|[H _]]; [exact H|].
      apply nullable_lang in H. congruence.
  - split; intros H; apply lang_alt_inv in H as [H|H].
    + apply lang_alt_l. now apply IH1.
    + apply lang_alt_r. now apply IH2.
    + apply lang_alt_l. now apply IH1.
    + apply lang_alt_r. now apply IH2.
  - split.
    + intros H. apply lang_cat_inv in H as (s1 & s2 & -> & H1 & H2).
      change (String c (s1 ++ s2)) with (String c s1 ++ s2).
      constructor; [now apply IH | exact H2].
    + intros H. apply lang_star_cons_inv in H as (s1 & s2 & -> & H1 & H2).
      constructor; [now apply IH | exact H2].
Qed.

(** The matcher accepts exactly the words of the pattern. *)
Lemma accepts_lang (s : string) : forall r, accepts r s = true <-> lang r s.
Proof.
  induction s as [|c s IH]; intros r; cbn [accepts].
  - apply nullable_lang.
  - rewrite IH. apply deriv_lang.
Qed.

End RegexFacts.

(** ** The patterns of the validators *)

Section PatternFacts.

Import Re.

Lemma all_chars_app (p : ascii -> bool) (a b : string) :
  all_chars p (a ++ b) = all_chars p a && all_chars p b.
Proof.
  induction a as [|c a IH]; [reflexivity|].
  cbn [append all_chars]. now rewrite IH, andb_assoc.
Qed.

Lemma lang_lit (c : ascii) (s : string) : lang (Lit c) s <-> s = String c "".
Proof.
  unfold Lit. split.
  - intros H. apply lang_class_inv in H as (d & -> & E).
    apply Ascii.eqb_eq in E. now subst.
  - intros ->. constructor. apply Ascii.eqb_refl.
Qed.

Lemma lang_str (w s : string) : lang (Str w) s <-> s = w.
Proof.
  revert s. induction w as [|c w IH]; intros s; cbn [Str].
  - split; [apply lang_eps_inv | intros ->; constructor].
  - split.
    + intros H. apply lang_cat_inv in H as (s1 & s2 & -> & H1 & H2).
      apply lang_lit in H1. apply IH in H2. now subst.
    + intros ->. change (String c w) with (String c "" ++ w).
      constructor; [now apply lang_lit | now apply IH].
Qed.

Lemma lang_star_class (p : ascii -> bool) (s : string) :
  lang (Star (Class p)) s <-> all_chars p s = true.
Proof.
  split.
  - intros H. remember (Star (Class p)) as q eqn:Q.
    induction H as [| | | | | |r s1 s2 H1 _ H2 IH2]; try discriminate; [reflexivity|].
    injection Q as ->. apply lang_class_inv in H1 as (c & -> & Pc).
    cbn [append all_chars]. rewrite Pc. now apply IH2.
  - induction s as [|c s IH]; cbn [all_chars]; intros H; [constructor|].
    apply andb_prop in H as [Pc H].
    change (String c s) with (String c "" ++ s).
    constructor; [now constructor | now apply IH].
Qed.

Lemma lang_rep_class (p : ascii -> bool) (n : nat) (s : string) :
  lang (Rep n (Class p)) s <-> String.length s = n /\ all_chars p s = true.
Proof.
  revert s. induction n as [|n IH]; intros s; cbn [Rep].
  - split.
    + intros H. apply lang_eps_inv in H. now subst.
    + intros [L _]. destruct s; [constructor | discriminate].
  - split.
    + intros H. apply lang_cat_inv in H as (s1 & s2 & -> & H1 & H2).
      apply lang_class_inv in H1 as (c & -> & Pc). apply IH in H2 as [L A].
      cbn [append String.length all_chars]. rewrite Pc, L, A. now split.
    + intros [L A]. destruct s as [|c s]; [discriminate|].
      cbn [String.length all_chars] in *. apply andb_prop in A as [Pc A].
      change (String c s) with (String c "" ++ s).
      constructor; [now constructor|]. apply IH. split; [lia | exact A].
Qed.

Lemma lang_upto_class (p : ascii -> bool) (n : nat) (s : string) :
  lang (UpTo n (Class p)) s <-> (String.length s <= n)%nat /\ all_chars p s = true.
Proof.
  revert s. induction n as [|n IH]; intros s; cbn [UpTo].
  - split.
    + intros H. apply lang_eps_inv in H. subst. now split.
    + intros [L _]. destruct s; [constructor | cbn in L; lia].
  - split.
    + intros H. apply lang_alt_inv in H as [H|H].
      * apply lang_eps_inv in H. subst. split; [cbn; lia | reflexivity].
      * apply lang_cat_inv in H as (s1 & s2 & -> & H1 & H2).
        apply lang_class_inv in H1 as (c & -> & Pc). apply IH in H2 as [L A].
        cbn [append String.length all_chars]. rewrite Pc, A. split; [lia | reflexivity].
    + intros [L A]. destruct s as [|c s]; [apply lang_alt_l; constructor|].
      cbn [String.length all_chars] in *. apply andb_prop in A as [Pc A].
      apply lang_alt_r. change (String c s) with (String c "" ++ s).
      constructor; [now constructor|]. apply IH. split; [lia | exact A].
Qed.

Lemma split_at (n : nat) (s : string) :
  (n <= String.length s)%nat ->
  exists s1 s2, s = s1 ++ s2 /\ String.length s1 = n.
Proof.
  revert s. induction n as [|n IH]; intros s L.
  - now exists "", s.
  - destruct s as [|c s]; [cbn in L; lia|]. cbn in L.
    destruct (IH s) as (s1 & s2 & -> & L1); [lia|].
    exists (String c s1), s2. split; [reflexivity | cbn; now rewrite L1].
Qed.

Lemma lang_atleast_class (p : ascii -> bool) (n : nat) (s : string) :
  lang (AtLeast n (Class p)) s <-> (n <= String.length s)%nat /\ all_chars p s = true.
Proof.
  unfold AtLeast. split.
  - intros H. apply lang_cat_inv in H as (s1 & s2 & -> & H1 & H2).
    apply lang_rep_class in H1 as [L A1]. apply lang_star_class in H2.
    rewrite append_length, all_chars_app, A1, H2. split; [lia | reflexivity].
  - intros [L A]. destruct (split_at n s L) as (s1 & s2 & -> & L1).
    rewrite all_chars_app in A. apply andb_prop in A as [A1 A2].
    constructor; [apply lang_rep_class; now split | now apply lang_star_class].
Qed.

Lemma lang_between_class (p : ascii -> bool) (m n : nat) (s : string) :
  (m <= n)%nat ->
  lang (Between m n (Class p)) s <->
  (m <= String.length s <= n)%nat /\ all_chars p s = true.
Proof.
  intros Hmn. unfold Between. split.
  - intros H. apply lang_cat_inv in H as (s1 & s2 & -> & H1 & H2).
    apply lang_rep_class in H1 as [L1 A1]. apply lang_upto_class in H2 as [L2 A2].
    rewrite append_length, all_chars_app, A1, A2. split; [lia | reflexivity].
  - intros [L A]. destruct (split_at m s (proj1 L)) as (s1 & s2 & -> & L1).
    rewrite all_chars_app in A. apply andb_prop in A as [A1 A2].
    rewrite append_length in L.
    constructor; [apply lang_rep_class; now split|].
    apply lang_upto_class. split; [lia | exact A2].
Qed.

(** What [^r$] matches: a word of [r], with or without a newline after. *)
Lemma re_match_iff (r : regex) (s : string) :
  re_match r s = true <-> lang r s \/ exists t, s = t ++ String "010" "" /\ lang r t.
Proof.
  unfold re_match. rewrite accepts_lang. split.
  - intros H. apply lang_cat_inv in H as (s1 & s2 & -> & H1 & H2).
    apply lang_alt_inv in H2 as [H2|H2].
    + apply lang_eps_inv in H2. subst. rewrite append_nil_r. now left.
    + apply lang_lit in H2. subst. right. now exists s1.
  - intros [H|(t & -> & H)].
    + rewrite <- (append_nil_r s). constructor; [exact H|]. apply lang_alt_l. constructor.
    + constructor; [exact H|]. apply lang_alt_r. now apply lang_lit.
Qed.

Lemma digit19_digit (c : ascii) : digit19 c = true -> digit c = true.
Proof. destruct c as [[] [] [] [] [] [] [] []]; vm_compute; congruence. Qed.

Lemma digit_plus_or_digit (c : ascii) : digit c = true -> plus_or_digit c = true.
Proof. unfold plus_or_digit. intros ->. apply orb_true_r. Qed.

Lemma plus_or_digit_not_space (c : ascii) :
  plus_or_digit c = true -> PyStr.is_space c = false.
Proof. destruct c as [[] [] [] [] [] [] [] []]; vm_compute; congruence. Qed.

Lemma all_chars_weaken (p q : ascii -> bool) (s : string) :
  (forall c, p c = true -> q c = true) -> all_chars p s = true -> all_chars q s = true.
Proof.
  intros I. induction s as [|c s IH]; cbn [all_chars]; [trivial|].
  intros H. apply andb_prop in H as [Pc H]. now rewrite (I c Pc), IH.
Qed.

(** The words of the strict phone pattern. *)
Lemma phone_words (s : string) :
  lang Models_validators.PHONE_REGEX s <->
  exists pre d rest,
    s = pre ++ String "8" (String d rest) /\
    (pre = "+62" \/ pre = "62" \/ pre = "0") /\
    digit19 d = true /\
    (6 <= String.length rest <= 10)%nat /\ all_chars digit rest = true.
Proof.
  unfold Models_validators.PHONE_REGEX. split.
  - intros H. apply lang_cat_inv in H as (pre & s2 & -> & Hp & H).
    apply lang_cat_inv in H as (e & s3 & -> & He & H).
    apply lang_cat_inv in H as (d1 & rest & -> & Hd & Hr).
    apply lang_lit in He. subst e.
    apply lang_class_inv in Hd as (d & -> & Dd).
    apply lang_between_class in Hr as [L A]; [|lia].
    exists pre, d, rest. split; [reflexivity|]. split; [|now repeat split].
    apply lang_alt_inv in Hp as [Hp|Hp]; [apply lang_str in Hp; tauto|].
    apply lang_alt_inv in Hp as [Hp|Hp]; apply lang_str in Hp; tauto.
  - intros (pre & d & rest & -> & Hp & Dd & L & A).
    constructor.
    + destruct Hp as [->|[->| ->]].
      * apply lang_alt_l. now apply lang_str.
      * apply lang_alt_r, lang_alt_l. now apply lang_str.
      * apply lang_alt_r, lang_alt_r. now apply lang_str.
    + change (String "8" (String d rest)) with (String "8" "" ++ String d "" ++ rest).
      constructor; [now apply lang_lit|].
      constructor; [now constructor|].
      apply lang_between_class; [lia | now split].
Qed.

(** A word of the strict pattern is 9 to 15 characters long and made
    of digits behind an optional plus sign. *)
Lemma phone_word_shape (s : string) :
  lang Models_validators.PHONE_REGEX s ->
  (9 <= String.length s <= 15)%nat /\ all_chars plus_or_digit s = true.
Proof.
  intros H. apply phone_words in H as (pre & d & rest & -> & Hp & Dd & L & A).
  rewrite append_length, all_chars_app. cbn [String.length all_chars].
  rewrite (digit_plus_or_digit d (digit19_digit d Dd)).
  rewrite (all_chars_weaken digit plus_or_digit rest digit_plus_or_digit A).
  destruct Hp as [->|[->| ->]]; cbn; split; (lia || reflexivity).
Qed.

End PatternFacts.

(** ** The validators *)

Section ValidatorFacts.

Import Re.

Lemma rstrip_snoc_space (t : string) (c : ascii) :
  PyStr.is_space c = true -> PyStr.rstrip (t ++ String c "") = PyStr.rstrip t.
Proof.
  intros Sc. induction t as [|d t IH].
  - cbn [append PyStr.rstrip]. now rewrite Sc.
  - cbn [append PyStr.rstrip]. now rewrite IH.
Qed.

Lemma rstrip_length (t : string) : (String.length (PyStr.rstrip t) <= String.length t)%nat.
Proof.
  induction t as [|d t IH]; [cbn; lia|].
  cbn [PyStr.rstrip]. destruct (PyStr.rstrip t) as [|e r].
  - destruct (PyStr.is_space d); cbn in *; lia.
  - cbn [String.length] in *. lia.
Qed.

(** What [strip] returns does not end in white space. *)
Lemma strip_no_trailing_space (v t : string) (c : ascii) :
  PyStr.strip v = t ++ String c "" -> PyStr.is_space c = false.
Proof.
  intros E. destruct (PyStr.is_space c) eqn:Sc; [|reflexivity]. exfalso.
  assert (PyStr.rstrip (PyStr.strip v) = PyStr.strip v) as R
    by (unfold PyStr.strip; apply rstrip_lstrip_fixed, rstrip_idem).
  rewrite E, (rstrip_snoc_space t c Sc) in R.
  pose proof (rstrip_length t) as L. rewrite R, append_length in L. cbn in L. lia.
Qed.

Lemma rstrip_no_space (t : string) :
  all_chars plus_or_digit t = true -> PyStr.rstrip t = t.
Proof.
  induction t as [|c t IH]; [reflexivity|].
  cbn [all_chars PyStr.rstrip]. intros H. apply andb_prop in H as [Pc H].
  rewrite (IH H), (plus_or_digit_not_space c Pc). now destruct t.
Qed.

Lemma lstrip_no_space (t : string) :
  all_chars plus_or_digit t = true -> PyStr.lstrip t = t.
Proof.
  destruct t as [|c t]; [reflexivity|].
  cbn [all_chars PyStr.lstrip]. intros H. apply andb_prop in H as [Pc _].
  now rewrite (plus_or_digit_not_space c Pc).
Qed.

Lemma strip_phone_chars (t : string) :
  all_chars plus_or_digit t = true ->
  PyStr.strip t = t /\ PyStr.strip (t ++ String "010" "") = t.
Proof.
  intros A. unfold PyStr.strip.
  rewrite (rstrip_snoc_space t "010" eq_refl), (rstrip_no_space t A).
  split; now apply lstrip_no_space.
Qed.

Lemma strict_implies_relaxed (s : string) :
  lang Models_validators.PHONE_REGEX s -> lang Cli_register_more.PHONE_REGEX s.
Proof.
  intros H. apply phone_word_shape in H as [L A].
  apply lang_atleast_class. split; [lia | exact A].
Qed.

(** X10. A phone number that the validator of the model accepts is
    stored stripped of surrounding white space; the stored value is
    [+62], [62] or [0], then [8], a digit from 1 to 9 and six to ten
    more digits, so 9 to 15 characters in all; it passes the validator
    again unchanged, and it passes the check of the request schema and
    the relaxed check of the command line. *)
Theorem X10_validate_phone_stored_value (value val : string) :
  Models_validators.validate_phone value = Utils.Returned val ->
  val = PyStr.strip value /\
  (exists pre d rest,
      val = pre ++ String "8" (String d rest) /\
      (pre = "+62" \/ pre = "62" \/ pre = "0") /\
      digit19 d = true /\
      (6 <= String.length rest <= 10)%nat /\ all_chars digit rest = true) /\
  (9 <= String.length val <= 15)%nat /\
  Models_validators.validate_phone val = Utils.Returned val /\
  Schemas.validate_phone val = Utils.Returned val /\
  Cli_register_more.validate_phone val = true.
Proof.
  unfold Models_validators.validate_phone. cbv zeta.
  destruct (re_match Models_validators.PHONE_REGEX (PyStr.strip value)) eqn:M;
    cbn [negb]; [|discriminate].
  intros [= <-]. split; [reflexivity|].
  assert (lang Models_validators.PHONE_REGEX (PyStr.strip value)) as W.
  { apply re_match_iff in M as [H|(t & E & _)]; [exact H|].
    apply strip_no_trailing_space in E. discriminate. }
  split; [now apply phone_words|].
  split; [now apply phone_word_shape|].
  rewrite strip_idem, M. cbn [negb]. split; [reflexivity|].
  unfold Schemas.validate_phone, Schemas.PHONE_REGEX. rewrite M. cbn [negb].
  split; [reflexivity|].
  unfold Cli_register_more.validate_phone. apply re_match_iff. left.
  now apply strict_implies_relaxed.
Qed.

(** The validator on a number written with spaces around it. *)
Lemma X10_validate_phone_stored_value_witness :
  Models_validators.validate_phone "  +628123456789 " = Utils.Returned "+628123456789" /\
  (9 <= String.length "+628123456789" <= 15)%nat /\
  Cli_register_more.validate_phone "+628123456789" = true.
Proof.
  assert (Models_validators.validate_phone "  +628123456789 "
          = Utils.Returned "+628123456789") as V by reflexivity.
  split; [exact V|].
  destruct (X10_validate_phone_stored_value _ _ V) as (_ & _ & L & _ & _ & C).
  split; [exact L | exact C].
Defined.

(** X11. A phone number that the check of the request schema accepts
    is a word of the pattern, possibly followed by one newline; the
    validator of the model accepts it too and stores the word without
    the newline. So the constructor of a candidate never refuses the
    phone of a request body that passed the schema. *)
Theorem X11_schema_phone_passes_model (v v' : string) :
  Schemas.validate_phone v = Utils.Returned v' ->
  v' = v /\
  exists t,
    (v = t \/ v = t ++ String "010" "") /\
    Models_validators.validate_phone v = Utils.Returned t /\
    (9 <= String.length t <= 15)%nat.
Proof.
  unfold Schemas.validate_phone, Schemas.PHONE_REGEX.
  destruct (re_match Models_validators.PHONE_REGEX v) eqn:M; cbn [negb]; [|discriminate].
  intros [= <-]. split; [reflexivity|].
  apply re_match_iff in M as [H|(t & -> & H)].
  - exists v. split; [now left|].
    destruct (phone_word_shape v H) as [L A].
    destruct (strip_phone_chars v A) as [S _].
    unfold Models_validators.validate_phone. cbv zeta. rewrite S.
    assert (re_match Models_validators.PHONE_REGEX v = true) as ->
      by (apply re_match_iff; now left).
    now split.
  - exists t. split; [now right|].
    destruct (phone_word_shape t H) as [L A].
    destruct (strip_phone_chars t A) as [_ S].
    unfold Models_validators.validate_phone. cbv zeta. rewrite S.
    assert (re_match Models_validators.PHONE_REGEX t = true) as ->
      by (apply re_match_iff; now left).
    now split.
Qed.

(** The schema check on a number with a newline behind it. *)
Lemma X11_schema_phone_passes_model_witness :
  exists t,
    ("081234567890" ++ String "010" "" = t
     \/ "081234567890" ++ String "010" "" = t ++ String "010" "") /\
    Models_validators.validate_phone ("081234567890" ++ String "010" "")
      = Utils.Returned t /\
    (9 <= String.length t <= 15)%nat.
Proof.
  exact (proj2 (X11_schema_phone_passes_model
                  ("081234567890" ++ String "010" "") _ eq_refl)).
Defined.

End ValidatorFacts.

(** ** The program table *)

Section ProgramFacts.

Import Constraints Cli_register_more.

Lemma fresh_id_above (ids : list Z) (i : Z) : In i ids -> i < fresh_id ids.
Proof.
  unfold fresh_id. destruct ids as [|i0 rest]; [intros []|].
  intros [<-|I].
  - induction rest as [|x rest IH]; cbn [fold_right]; lia.
  - induction rest as [|x rest IH]; cbn [fold_right In] in *; [tauto|].
    destruct I as [<-|I]; [lia | specialize (IH I); lia].
Qed.

Lemma fresh_id_new (ids : list Z) : ~ In (fresh_id ids) ids.
Proof. intros I. apply fresh_id_above in I. lia. Qed.

Lemma first_program_kode_none (k : string) (db : DB) :
  first_program_kode k db = None <-> ~ In k (map kode (program_studi db)).
Proof.
  unfold first_program_kode. split.
  - intros F I. apply in_map_iff in I as (p & E & I).
    apply (find_none _ _ F) in I. rewrite E, String.eqb_refl in I. discriminate.
  - intros N. destruct (find _ _) as [p|] eqn:F; [|reflexivity].
    apply find_some in F as [I E]. apply String.eqb_eq in E.
    exfalso. apply N. rewrite <- E. now apply in_map.
Qed.

Lemma insert_program_new (k nm fak : string) (db : DB) :
  first_program_kode k db = None ->
  insert_program k nm fak db =
    Some (mkDB (program_studi db
                ++ [mkProgramStudi (fresh_id (map ps_id (program_studi db))) k nm fak])
            (calon_mahasiswa db) (nim_counters db)).
Proof.
  intros F. unfold insert_program.
  destruct (existsb _ _) eqn:E; [|reflexivity].
  apply existsb_exists in E as (p & I & E).
  unfold first_program_kode in F. apply (find_none _ _ F) in I. congruence.
Qed.

(** What the loop does, for any list of items. *)
Lemma ensure_items_spec (items : list (string * (string * string))) :
  forall db,
  exists added,
    ensure_items items db =
      Some (mkDB (program_studi db ++ added) (calon_mahasiswa db) (nim_counters db)) /\
    (List.length added <= List.length items)%nat /\
    (forall p, In p added ->
       In (kode p) (map fst items) /\ ~ In (kode p) (map kode (program_studi db))) /\
    (forall k, In k (map fst items) ->
       In k (map kode (program_studi db ++ added))) /\
    (kode_unique (program_studi db) -> kode_unique (program_studi db ++ added)) /\
    (program_pk_unique (program_studi db) ->
     program_pk_unique (program_studi db ++ added)).
Proof.
  induction items as [|[k info] rest IH]; intros db.
  - exists []. rewrite List.app_nil_r. cbn [ensure_items].
    split; [now destruct db|]. split; [cbn; lia|].
    split; [intros p []|]. split; [intros k []|]. now split.
  - cbn [ensure_items].
    destruct (first_program_kode k db) as [q|] eqn:F.
    + destruct (IH db) as (added & E & L & A & P & Uk & Ui).
      exists added. rewrite E. split; [reflexivity|].
      split; [cbn [List.length]; lia|]. split; [|split; [|now split]].
      * intros x Ix. destruct (A x Ix) as [I1 I2]. split; [now right | exact I2].
      * intros k' Hk. cbn [map fst In] in Hk. destruct Hk as [<-|Hk]; [|now apply P].
        rewrite map_app, in_app_iff. left.
        unfold first_program_kode in F. apply find_some in F as [I E'].
        apply String.eqb_eq in E'. rewrite <- E'. now apply in_map.
    + rewrite (insert_program_new k (fst info) (snd info) db F).
      set (p := mkProgramStudi (fresh_id (map ps_id (program_studi db))) k
                  (fst info) (snd info)).
      destruct (IH (mkDB (program_studi db ++ [p]) (calon_mahasiswa db) (nim_counters db)))
        as (added & E & L & A & P & Uk & Ui).
      cbn [program_studi calon_mahasiswa nim_counters] in *.
      exists (p :: added). rewrite E, <- List.app_assoc. cbn [List.app].
      apply first_program_kode_none in F.
      split; [reflexivity|]. split; [cbn [List.length]; lia|].
      split; [|split; [|split]].
      * intros x [<-|I].
        -- cbn [kode map fst]. split; [now left | exact F].
        -- destruct (A x I) as [I1 I2]. split; [now right|].
           intros I3. apply I2. rewrite map_app, in_app_iff. now left.
      * intros k' Hk. cbn [map fst In] in Hk. destruct Hk as [<-|Hk].
        -- rewrite map_app, in_app_iff. right. now left.
        -- specialize (P k' Hk). now rewrite <- List.app_assoc in P.
      * intros U. rewrite <- List.app_assoc in Uk. apply Uk.
        unfold kode_unique in *. rewrite map_app. now apply NoDup_snoc.
      * intros U. rewrite <- List.app_assoc in Ui. apply Ui.
        unfold program_pk_unique in *. rewrite map_app.
        apply NoDup_snoc; [exact U | apply fresh_id_new].
Qed.

Lemma ensure_items_present (items : list (string * (string * string))) (db : DB) :
  (forall k, In k (map fst items) -> In k (map kode (program_studi db))) ->
  ensure_items items db = Some db.
Proof.
  induction items as [|[k info] rest IH]; intros P; [reflexivity|].
  cbn [ensure_items].
  destruct (first_program_kode k db) as [q|] eqn:F.
  - apply IH. intros k' I. apply P. now right.
  - apply first_program_kode_none in F. exfalso. apply F, P. now left.
Qed.

(** X12. [ensure_program_studi] never meets the unique index: it always
    commits. It keeps the rows that were there, in place, and adds at
    most four behind them, each with a code of the map that was missing;
    afterwards each of TIF, SI, FARM and MESIN has a row, and a second
    run changes nothing. Candidates and counters are untouched, and
    unique codes and unique ids stay unique. *)
Theorem X12_ensure_program_studi (db : DB) :
  exists added,
    ensure_program_studi db =
      Some (mkDB (program_studi db ++ added) (calon_mahasiswa db) (nim_counters db)) /\
    (List.length added <= 4)%nat /\
    (forall p, In p added ->
       In (kode p) ["TIF"; "SI"; "FARM"; "MESIN"] /\
       ~ In (kode p) (map kode (program_studi db))) /\
    (forall k, In k ["TIF"; "SI"; "FARM"; "MESIN"] ->
       exists id,
         get_program_studi_id k
           (mkDB (program_studi db ++ added) (calon_mahasiswa db) (nim_counters db))
         = Some id) /\
    ensure_program_studi
      (mkDB (program_studi db ++ added) (calon_mahasiswa db) (nim_counters db))
    = Some (mkDB (program_studi db ++ added) (calon_mahasiswa db) (nim_counters db)) /\
    (kode_unique (program_studi db) -> kode_unique (program_studi db ++ added)) /\
    (program_pk_unique (program_studi db) ->
     program_pk_unique (program_studi db ++ added)).
Proof.
  destruct (ensure_items_spec PROGRAM_STUDI_MAP db) as (added & E & L & A & P & Uk & Ui).
  exists added. split; [exact E|]. split; [exact L|]. split; [exact A|].
  split; [|split; [|now split]].
  - intros k I. unfold get_program_studi_id.
    destruct (first_program_kode k _) as [q|] eqn:F; [now exists (ps_id q)|].
    apply first_program_kode_none in F. exfalso. apply F. now apply P.
  - apply ensure_items_present. exact P.
Qed.

(** X13. [get_program_studi_id] finds nothing exactly for a code that
    no row carries; an id it returns belongs to a row with that code,
    and when the ids are pairwise different, looking that id up gives
    back a program with the code. *)
Theorem X13_get_program_studi_id (k : string) (db : DB) :
  (get_program_studi_id k db = None <-> ~ In k (map kode (program_studi db))) /\
  (forall id, get_program_studi_id k db = Some id ->
     exists p, In p (program_studi db) /\ ps_id p = id /\ kode p = k) /\
  (program_pk_unique (program_studi db) ->
   forall id, get_program_studi_id k db = Some id ->
     exists p, first_program_id id db = Some p /\ kode p = k).
Proof.
  unfold get_program_studi_id. split; [|split].
  - rewrite <- first_program_kode_none.
    destruct (first_program_kode k db); split; congruence.
  - intros id H. destruct (first_program_kode k db) as [p|] eqn:F; [|discriminate].
    injection H as <-. unfold first_program_kode in F.
    apply find_some in F as [I E]. apply String.eqb_eq in E. now exists p.
  - intros U id H. destruct (first_program_kode k db) as [p|] eqn:F; [|discriminate].
    injection H as <-. unfold first_program_kode in F.
    apply find_some in F as [I E]. apply String.eqb_eq in E.
    unfold first_program_id.
    destruct (find (fun q => ps_id q =? ps_id p) (program_studi db)) as [q|] eqn:G.
    + exists q. split; [reflexivity|].
      apply find_some in G as [Iq Eq]. apply Z.eqb_eq in Eq.
      assert (q = p) as ->; [|exact E].
      unfold program_pk_unique in U. clear - U I Iq Eq.
      induction (program_studi db) as [|r rows IH]; [destruct I|].
      cbn [map] in U. inversion U as [|? ? Hn Hd]; subst.
      destruct I as [<-|I], Iq as [<-|Iq]; trivial.
      * exfalso. apply Hn. rewrite <- Eq. now apply in_map.
      * exfalso. apply Hn. rewrite Eq. now apply in_map.
      * now apply IH.
    + apply (find_none _ _ G) in I. rewrite Z.eqb_refl in I. discriminate.
Qed.

(** The lookup in the seeded table of the sample database. *)
Lemma X13_get_program_studi_id_witness :
  exists p, first_program_id 1 Samples.db_empty = Some p /\ kode p = "TIF".
Proof.
  refine (proj2 (proj2 (X13_get_program_studi_id "TIF" Samples.db_empty)) _ 1 eq_refl).
  repeat constructor. cbn. tauto.
Defined.

(** X14. [seed_data] always commits. It leaves a table that has rows
    as it is; into an empty table it puts TIF, SIB and KOM with the ids
    1, 2 and 3; a second run changes nothing; candidates and counters
    are untouched. After [seed_data] and [ensure_program_studi] on an
    empty table there are six programs and one row for TIF. *)
Theorem X14_seed_data (db : DB) :
  exists line db',
    Run_server.seed_data db = Some (line, db') /\
    (program_studi db <> [] -> db' = db) /\
    (program_studi db = [] ->
     map kode (program_studi db') = ["TIF"; "SIB"; "KOM"] /\
     map ps_id (program_studi db') = [1; 2; 3] /\
     exists db'',
       ensure_program_studi db' = Some db'' /\
       map kode (program_studi db'') = ["TIF"; "SIB"; "KOM"; "SI"; "FARM"; "MESIN"] /\
       map ps_id (program_studi db'') = [1; 2; 3; 4; 5; 6]) /\
    program_studi db' <> [] /\
    Run_server.seed_data db' = Some ("[OK] Seed data already exists", db') /\
    calon_mahasiswa db' = calon_mahasiswa db /\
    nim_counters db' = nim_counters db.
Proof.
  destruct db as [ps cm nc]. destruct ps as [|p ps].
  - do 2 eexists. split; [reflexivity|].
    split; [intros N; now elim N|].
    split; [intros _; split; [reflexivity|]; split; [reflexivity|]|].
    + eexists. split; [reflexivity|]. split; reflexivity.
    + repeat split; discriminate.
  - exists "[OK] Seed data already exists", (mkDB (p :: ps) cm nc).
    repeat split; trivial; discriminate.
Qed.

End ProgramFacts.

(** ** Registration *)

Section RegistrationFacts.

Import Candidates Constraints Main_more.

Lemma find_app_some {A : Type} (f : A -> bool) (l l' : list A) (x : A) :
  find f l = Some x -> find f (l ++ l') = Some x.
Proof.
  induction l as [|y l IH]; cbn [List.app find]; [discriminate|].
  destruct (f y); [trivial | exact IH].
Qed.

Lemma find_app_none {A : Type} (f : A -> bool) (l l' : list A) :
  find f l = None -> find f (l ++ l') = find f l'.
Proof.
  induction l as [|y l IH]; cbn [List.app find]; [reflexivity|].
  destruct (f y); [discriminate | exact IH].
Qed.

Lemma no_email_no_exact (e : string) (db : DB) :
  first_calon_email e db = None ->
  existsb (fun r => String.eqb (email r) e) (calon_mahasiswa db) = false.
Proof.
  unfold first_calon_email. intros F.
  destruct (existsb _ _) eqn:E; [|reflexivity].
  apply existsb_exists in E as (r & I & E). apply String.eqb_eq in E.
  apply (find_none _ _ F) in I. rewrite E, String.eqb_refl in I. discriminate.
Qed.

Lemma insert_after_check (now : DateTime) (c : Pending) (db : DB) :
  first_calon_email (n_email c) db = None ->
  insert_calon now c db =
    Some (inserted now c db,
          set_calon_mahasiswa db (calon_mahasiswa db ++ [inserted now c db])).
Proof.
  intros F. unfold insert_calon. now rewrite (no_email_no_exact _ _ F).
Qed.

Lemma first_calon_inserted (now : DateTime) (c : Pending) (db : DB) :
  first_calon (cm_id (inserted now c db))
    (set_calon_mahasiswa db (calon_mahasiswa db ++ [inserted now c db]))
  = Some (inserted now c db).
Proof.
  unfold first_calon. cbn [calon_mahasiswa set_calon_mahasiswa].
  rewrite find_app_none.
  - cbn [find]. now rewrite Z.eqb_refl.
  - destruct (find _ _) as [r|] eqn:F; [|reflexivity].
    apply find_some in F as [I E]. apply Z.eqb_eq in E.
    exfalso. apply (fresh_id_new (map cm_id (calon_mahasiswa db))).
    cbn [inserted cm_id] in E. rewrite <- E. now apply in_map.
Qed.

Lemma new_calon_built (nama e ph : string) (tgl : Z) (al : option string) (psid : Z)
    (jalur : JalurMasuk) (c : Pending) :
  new_calon nama e ph tgl al psid jalur = Built c ->
  Re.re_match Models_validators.EMAIL_REGEX e = true /\
  Models_validators.validate_phone ph = Utils.Returned (n_phone c) /\
  c = mkPending nama e (n_phone c) tgl al psid jalur.
Proof.
  unfold new_calon, Models_validators.validate_email.
  destruct (Re.re_match Models_validators.EMAIL_REGEX e); cbn [negb]; [|discriminate].
  destruct (Models_validators.validate_phone ph) as [p|x]; [|discriminate].
  intros [= <-]. now repeat split.
Qed.

Lemma schema_phone_stored (v : string) :
  Schemas.validate_phone v = Utils.Returned v ->
  exists t, Models_validators.validate_phone v = Utils.Returned t /\ t = PyStr.strip v.
Proof.
  intros S.
  assert (exists t, Models_validators.validate_phone v = Utils.Returned t) as (t & V).
  { unfold Schemas.validate_phone, Schemas.PHONE_REGEX in S.
    destruct (Re.re_match Models_validators.PHONE_REGEX v) eqn:M; cbn [negb] in S;
      [|discriminate].
    apply re_match_iff in M as [H|(w & -> & H)].
    - exists v. destruct (phone_word_shape v H) as [_ A].
      destruct (strip_phone_chars v A) as [St _].
      unfold Models_validators.validate_phone. cbv zeta. rewrite St.
      assert (Re.re_match Models_validators.PHONE_REGEX v = true) as ->
        by (apply re_match_iff; now left).
      reflexivity.
    - exists w. destruct (phone_word_shape w H) as [_ A].
      destruct (strip_phone_chars w A) as [_ St].
      unfold Models_validators.validate_phone. cbv zeta. rewrite St.
      assert (Re.re_match Models_validators.PHONE_REGEX w = true) as ->
        by (apply re_match_iff; now left).
      reflexivity. }
  exists t. split; [exact V|].
  unfold Models_validators.validate_phone in V. cbv zeta in V.
  destruct (negb _); [discriminate | now injection V].
Qed.

Lemma http_register_cases (clock : nat -> DateTime) (payload : CalonMahasiswaCreate)
    (db : DB) :
  (snd (register_mahasiswa clock payload db) = db /\
   forall code c, fst (register_mahasiswa clock payload db) <> Calon code c) \/
  exists c,
    new_calon (p_nama_lengkap payload) (p_email payload) (p_phone payload)
      (p_tanggal_lahir payload) (p_alamat payload) (p_program_studi_id payload)
      (p_jalur_masuk payload) = Built c /\
    first_calon_email (p_email payload) db = None /\
    first_program_id (p_program_studi_id payload) db <> None /\
    register_mahasiswa clock payload db =
      (Calon 201 (inserted (clock 0%nat) c db),
       set_calon_mahasiswa db (calon_mahasiswa db ++ [inserted (clock 0%nat) c db])).
Proof.
  unfold register_mahasiswa.
  destruct (first_program_id _ db) as [program|] eqn:P; [|left; now split].
  destruct (first_calon_email _ db) as [dup|] eqn:D; [left; now split|].
  destruct (new_calon _ _ _ _ _ _ _) as [c|msg] eqn:N; [|left; now split].
  right. exists c.
  destruct (new_calon_built _ _ _ _ _ _ _ _ N) as (_ & _ & Ec).
  assert (n_email c = p_email payload) as Ee by (rewrite Ec; reflexivity).
  rewrite insert_after_check by (now rewrite Ee).
  repeat split; trivial; discriminate.
Qed.

Lemma appended_keeps_constraints (db : DB) (row : CalonMahasiswa) :
  cm_id row = fresh_id (map cm_id (calon_mahasiswa db)) ->
  nim row = None ->
  first_calon_email (email row) db = None ->
  (pk_unique (calon_mahasiswa db) -> pk_unique (calon_mahasiswa db ++ [row])) /\
  (nim_unique (calon_mahasiswa db) -> nim_unique (calon_mahasiswa db ++ [row])) /\
  (email_unique (calon_mahasiswa db) -> email_unique (calon_mahasiswa db ++ [row])).
Proof.
  intros Ei En Ee. split; [|split].
  - unfold pk_unique. intros U. rewrite map_app. cbn [map].
    apply NoDup_snoc; [exact U|]. rewrite Ei. apply fresh_id_new.
  - unfold nim_unique. intros U i j a b n Ha Hb Na Nb.
    assert (forall k x, nth_error (calon_mahasiswa db ++ [row]) k = Some x ->
                        nim x = Some n ->
                        nth_error (calon_mahasiswa db) k = Some x) as Old.
    { intros k x Hk Nx.
      destruct (Nat.lt_ge_cases k (List.length (calon_mahasiswa db))) as [Lt|Ge].
      - now rewrite nth_error_app1 in Hk.
      - rewrite nth_error_app2 in Hk by exact Ge.
        destruct (k - List.length (calon_mahasiswa db))%nat as [|m]; cbn in Hk.
        + injection Hk as <-. congruence.
        + destruct m; discriminate. }
    apply (U i j a b n); auto.
  - unfold email_unique. intros U. rewrite map_app. cbn [map].
    apply NoDup_snoc; [exact U|]. intros I.
    apply in_map_iff in I as (r & E & I).
    unfold first_calon_email in Ee. apply (find_none _ _ Ee) in I.
    rewrite E, String.eqb_refl in I. discriminate.
Qed.

(** A valid request body for a free e-mail address is registered. *)
Lemma http_register_ok (clock : nat -> DateTime)
    (payload : CalonMahasiswaCreate) (db : DB) (program : ProgramStudi) :
  first_program_id (p_program_studi_id payload) db = Some program ->
  first_calon_email (p_email payload) db = None ->
  Re.re_match Models_validators.EMAIL_REGEX (p_email payload) = true ->
  Schemas.validate_phone (p_phone payload) = Utils.Returned (p_phone payload) ->
  exists row db',
    register_mahasiswa clock payload db = (Calon 201 row, db') /\
    row = mkCalonMahasiswa (fresh_id (map cm_id (calon_mahasiswa db)))
            (p_nama_lengkap payload) (p_email payload) (PyStr.strip (p_phone payload))
            (p_tanggal_lahir payload) (p_alamat payload) (p_program_studi_id payload)
            (p_jalur_masuk payload) pending (clock 0%nat) None None /\
    ~ In (cm_id row) (map cm_id (calon_mahasiswa db)) /\
    calon_mahasiswa db' = (calon_mahasiswa db ++ [row])%list /\
    program_studi db' = program_studi db /\
    nim_counters db' = nim_counters db /\
    get_status (cm_id row) db' = Calon 200 row /\
    (forall id c, get_status id db = Calon 200 c -> get_status id db' = Calon 200 c).
Proof.
  intros P D Em Ph.
  destruct (schema_phone_stored _ Ph) as (t & V & St).
  set (c := mkPending (p_nama_lengkap payload) (p_email payload) t
              (p_tanggal_lahir payload) (p_alamat payload)
              (p_program_studi_id payload) (p_jalur_masuk payload)).
  assert (new_calon (p_nama_lengkap payload) (p_email payload) (p_phone payload)
            (p_tanggal_lahir payload) (p_alamat payload) (p_program_studi_id payload)
            (p_jalur_masuk payload) = Built c) as N.
  { unfold new_calon, Models_validators.validate_email. rewrite Em. cbn [negb].
    now rewrite V. }
  exists (inserted (clock 0%nat) c db),
         (set_calon_mahasiswa db (calon_mahasiswa db ++ [inserted (clock 0%nat) c db])).
  split.
  - unfold register_mahasiswa. rewrite P, D, N.
    now rewrite (insert_after_check (clock 0%nat) c db D).
  - split; [unfold inserted, c; cbn; now rewrite St|].
    split; [apply fresh_id_new|]. split; [reflexivity|].
    split; [reflexivity|]. split; [reflexivity|]. split.
    + unfold get_status. now rewrite first_calon_inserted.
    + intros id x. unfold get_status, first_calon.
      cbn [calon_mahasiswa set_calon_mahasiswa].
      destruct (find _ (calon_mahasiswa db)) as [y|] eqn:F; [|discriminate].
      intros [= <-]. now rewrite (find_app_some _ _ _ _ F).
Qed.

(** X15. A request body whose program exists, whose e-mail address is
    not registered under any letter case and matches the pattern of the
    model, and whose phone passed the schema, is registered: the reply
    is 201 with the new row, which carries the fields of the body (the
    phone stripped), status pending, no NIM, no approval time and an id
    that no row had; the row is appended and nothing else changes;
    [get_status] on the new id returns that row, and on an old id what
    it returned before. *)
Theorem X15_register_then_status (clock : nat -> DateTime)
    (payload : CalonMahasiswaCreate) (db : DB) (program : ProgramStudi) :
  first_program_id (p_program_studi_id payload) db = Some program ->
  first_calon_email (p_email payload) db = None ->
  Re.re_match Models_validators.EMAIL_REGEX (p_email payload) = true ->
  Schemas.validate_phone (p_phone payload) = Utils.Returned (p_phone payload) ->
  exists row db',
    register_mahasiswa clock payload db = (Calon 201 row, db') /\
    row = mkCalonMahasiswa (fresh_id (map cm_id (calon_mahasiswa db)))
            (p_nama_lengkap payload) (p_email payload) (PyStr.strip (p_phone payload))
            (p_tanggal_lahir payload) (p_alamat payload) (p_program_studi_id payload)
            (p_jalur_masuk payload) pending (clock 0%nat) None None /\
    ~ In (cm_id row) (map cm_id (calon_mahasiswa db)) /\
    calon_mahasiswa db' = (calon_mahasiswa db ++ [row])%list /\
    program_studi db' = program_studi db /\
    nim_counters db' = nim_counters db /\
    get_status (cm_id row) db' = Calon 200 row /\
    (forall id c, get_status id db = Calon 200 c -> get_status id db' = Calon 200 c).
Proof. intros P D Em Ph. now apply http_register_ok with (program := program). Qed.

End RegistrationFacts.

Section RegistrationClaims.

Import Candidates Constraints Main_more Cli_register_more.

Lemma email_found_after (e' : string) (db : DB) (row : CalonMahasiswa) :
  lower e' = lower (email row) ->
  first_calon_email e'
    (set_calon_mahasiswa db (calon_mahasiswa db ++ [row])) <> None.
Proof.
  intros E. unfold first_calon_email. cbn [calon_mahasiswa set_calon_mahasiswa].
  destruct (find (fun r => String.eqb (lower (email r)) (lower e')) (calon_mahasiswa db))
    as [r|] eqn:F.
  - now rewrite (find_app_some _ _ _ _ F).
  - rewrite (find_app_none _ _ _ F). cbn [find]. rewrite E, String.eqb_refl. discriminate.
Qed.

(** X16. Once a candidate is registered, a request with the same e-mail
    address in any letter case is refused with 409 whenever its program
    exists, and the command returns 5 for it whenever its formats are
    accepted and its program exists; the database is left as it was. *)
Theorem X16_duplicate_email_rejected (clock later : nat -> DateTime)
    (payload again : CalonMahasiswaCreate) (db db' : DB) (row : CalonMahasiswa)
    (fromisoformat : string -> option Z) (integrity_text : string) (args : Args) :
  register_mahasiswa clock payload db = (Calon 201 row, db') ->
  (lower (p_email again) = lower (p_email payload) ->
   first_program_id (p_program_studi_id again) db' <> None ->
   register_mahasiswa later again db' =
     (HTTPException 409 "Email already registered", db')) /\
  (lower (PyStr.strip (a_email args)) = lower (p_email payload) ->
   validate_email (PyStr.strip (a_email args)) = true ->
   validate_phone (PyStr.strip (a_phone args)) = true ->
   first_program_kode (PyStr.upper (a_program args)) db' <> None ->
   register fromisoformat integrity_text later args db' =
     (Cli_register.mkOutcome 5
        ["ERROR: Email sudah terdaftar (DUPLIKAT): " ++ PyStr.strip (a_email args)],
      db')).
Proof.
  intros R.
  destruct (http_register_cases clock payload db) as [[_ N]|(c & B & _ & _ & E)].
  { exfalso. apply (N 201 row). now rewrite R. }
  rewrite R in E. injection E as -> ->.
  destruct (new_calon_built _ _ _ _ _ _ _ _ B) as (_ & _ & Ec).
  assert (email (inserted (clock 0%nat) c db) = p_email payload) as Ee
    by (rewrite Ec; reflexivity).
  split.
  - intros L P. unfold register_mahasiswa.
    destruct (first_program_id _ _) as [program|]; [|congruence].
    destruct (first_calon_email (p_email again) _) as [dup|] eqn:D; [reflexivity|].
    exfalso. revert D. apply email_found_after.
    rewrite L. apply f_equal. symmetry. exact Ee.
  - intros L Ve Vp P. unfold register. cbv zeta. rewrite Ve, Vp. cbn [negb].
    destruct (first_program_kode _ _) as [prog|]; [|congruence].
    destruct (first_calon_email (PyStr.strip (a_email args)) _) as [dup|] eqn:D;
      [reflexivity|].
    exfalso. revert D. apply email_found_after.
    rewrite L. apply f_equal. symmetry. exact Ee.
Qed.

Lemma cli_register_cases (fromisoformat : string -> option Z) (integrity_text : string)
    (clock : nat -> DateTime) (args : Args) (db : DB) :
  let out := register fromisoformat integrity_text clock args db in
  (exists rc lines,
      fst out = Cli_register.mkOutcome rc lines /\
      (rc = 2 \/ rc = 3 \/ rc = 4 \/ rc = 5 \/ rc = 7) /\ snd out = db) \/
  (fst out = Cli_register.Uncaught "ValueError" /\ snd out = db /\
   validate_email (PyStr.strip (a_email args)) = true /\
   validate_phone (PyStr.strip (a_phone args)) = true /\
   Re.re_match Models_validators.PHONE_REGEX (PyStr.strip (a_phone args)) = false) \/
  (exists lines c prog tanggal,
      fst out = Cli_register.mkOutcome 0 lines /\
      snd out = set_calon_mahasiswa db
                  (calon_mahasiswa db ++ [inserted (clock 0%nat) c db]) /\
      first_calon_email (n_email c) db = None /\
      first_program_kode (PyStr.upper (a_program args)) db = Some prog /\
      fromisoformat (a_dob args) = Some tanggal /\
      c = mkPending (a_name args) (PyStr.strip (a_email args))
            (PyStr.strip (a_phone args)) tanggal
            (if PyStr.truthy (a_alamat args) then Some (a_alamat args) else None)
            (ps_id prog) (a_jalur args)).
Proof.
  intros out. subst out. unfold register. cbv zeta.
  destruct (validate_email _) eqn:Ve; cbn [negb];
    [|left; do 2 eexists; cbn [fst snd]; split; [reflexivity|]; split; [tauto|reflexivity]].
  destruct (validate_phone _) eqn:Vp; cbn [negb];
    [|left; do 2 eexists; cbn [fst snd]; split; [reflexivity|]; split; [tauto|reflexivity]].
  destruct (first_program_kode _ db) as [prog|] eqn:P;
    [|left; do 2 eexists; cbn [fst snd]; split; [reflexivity|]; split; [tauto|reflexivity]].
  destruct (first_calon_email _ db) as [dup|] eqn:D;
    [left; do 2 eexists; cbn [fst snd]; split; [reflexivity|]; split; [tauto|reflexivity]|].
  destruct (fromisoformat _) as [tanggal|] eqn:Dt;
    [|left; do 2 eexists; cbn [fst snd]; split; [reflexivity|]; split; [tauto|reflexivity]].
  unfold new_calon, Models_validators.validate_email.
  unfold validate_email, EMAIL_REGEX in Ve. rewrite Ve. cbn [negb].
  unfold Models_validators.validate_phone. cbv zeta. rewrite strip_idem.
  destruct (Re.re_match Models_validators.PHONE_REGEX _) eqn:M; cbn [negb].
  - right. right.
    set (c := mkPending (a_name args) (PyStr.strip (a_email args))
                (PyStr.strip (a_phone args)) tanggal
                (if PyStr.truthy (a_alamat args) then Some (a_alamat args) else None)
                (ps_id prog) (a_jalur args)).
    rewrite (insert_after_check (clock 0%nat) c db D).
    assert (program_studi_of (inserted (clock 0%nat) c db)
              (set_calon_mahasiswa db
                 (calon_mahasiswa db ++ [inserted (clock 0%nat) c db])) <> None) as Ps.
    { unfold program_studi_of. cbn [program_studi set_calon_mahasiswa inserted
                                      program_studi_id c n_program_studi_id].
      unfold first_program_kode in P. apply find_some in P as [I _].
      intros N. apply (find_none _ _ N) in I. rewrite Z.eqb_refl in I. discriminate. }
    destruct (program_studi_of _ _) as [ps|]; [|congruence].
    do 4 eexists. cbn [fst snd]. split; [reflexivity|]. split; [reflexivity|].
    split; [exact D|]. split; [reflexivity|]. split; [reflexivity|]. reflexivity.
  - right. left. cbn [fst snd]. repeat split; trivial.
Qed.

(** X17. Registration keeps the constraints of the candidate table:
    when the ids are pairwise different, no two rows hold the same NIM
    and no two rows have the same e-mail address up to letter case, the
    same is true after the handler or the command ran, whatever the
    outcome; programs and counters are never touched. *)
Theorem X17_registration_keeps_constraints (clock : nat -> DateTime)
    (payload : CalonMahasiswaCreate) (fromisoformat : string -> option Z)
    (integrity_text : string) (args : Args) (db : DB) :
  pk_unique (calon_mahasiswa db) ->
  nim_unique (calon_mahasiswa db) ->
  email_unique (calon_mahasiswa db) ->
  let http := snd (register_mahasiswa clock payload db) in
  let cli := snd (register fromisoformat integrity_text clock args db) in
  (pk_unique (calon_mahasiswa http) /\ nim_unique (calon_mahasiswa http) /\
   email_unique (calon_mahasiswa http) /\
   program_studi http = program_studi db /\ nim_counters http = nim_counters db) /\
  (pk_unique (calon_mahasiswa cli) /\ nim_unique (calon_mahasiswa cli) /\
   email_unique (calon_mahasiswa cli) /\
   program_studi cli = program_studi db /\ nim_counters cli = nim_counters db).
Proof.
  intros Pk Nu Eu http cli.
  assert (forall c now, first_calon_email (n_email c) db = None ->
            let d := set_calon_mahasiswa db (calon_mahasiswa db ++ [inserted now c db]) in
            pk_unique (calon_mahasiswa d) /\ nim_unique (calon_mahasiswa d) /\
            email_unique (calon_mahasiswa d) /\
            program_studi d = program_studi db /\ nim_counters d = nim_counters db) as Step.
  { intros c now F d.
    destruct (appended_keeps_constraints db (inserted now c db) eq_refl eq_refl F)
      as (A & B & C).
    subst d. cbn [calon_mahasiswa program_studi nim_counters set_calon_mahasiswa].
    repeat split; auto. }
  split.
  - subst http.
    destruct (http_register_cases clock payload db) as [[E _]|(c & B & F & _ & E)];
      rewrite E; [now repeat split|].
    destruct (new_calon_built _ _ _ _ _ _ _ _ B) as (_ & _ & Ec).
    apply Step. rewrite Ec. exact F.
  - subst cli.
    destruct (cli_register_cases fromisoformat integrity_text clock args db)
      as [(rc & l & _ & _ & E)|[(_ & E & _)|(l & c & p & t & _ & E & F & _)]];
      rewrite E; [now repeat split | now repeat split | now apply Step].
Qed.

(** X18. The command [register] ends in one of these ways only: a
    return code 2, 3, 4, 5 or 7, or an uncaught [ValueError], with the
    database as it was; or return code 0 with exactly one row appended,
    in status pending and without a NIM. It never returns 8 or 9: the
    check for the e-mail address comes before the INSERT, so the unique
    index is never met. *)
Theorem X18_cli_register_outcomes (fromisoformat : string -> option Z)
    (integrity_text : string) (clock : nat -> DateTime) (args : Args) (db : DB) :
  let out := register fromisoformat integrity_text clock args db in
  (forall rc lines, fst out = Cli_register.mkOutcome rc lines ->
     rc = 0 \/ rc = 2 \/ rc = 3 \/ rc = 4 \/ rc = 5 \/ rc = 7) /\
  (forall exc, fst out = Cli_register.Uncaught exc -> exc = "ValueError") /\
  (forall rc lines, fst out = Cli_register.mkOutcome rc lines -> rc <> 0 -> snd out = db) /\
  (forall exc, fst out = Cli_register.Uncaught exc -> snd out = db) /\
  (forall lines, fst out = Cli_register.mkOutcome 0 lines ->
     exists row,
       calon_mahasiswa (snd out) = (calon_mahasiswa db ++ [row])%list /\
       status row = pending /\ nim row = None /\
       email row = PyStr.strip (a_email args) /\
       phone row = PyStr.strip (a_phone args) /\
       ~ In (cm_id row) (map cm_id (calon_mahasiswa db))).
Proof.
  intros out.
  destruct (cli_register_cases fromisoformat integrity_text clock args db)
    as [(rc & l & E & R & D)|[(E & D & _)|(l & c & p & t & E & D & F & _ & _ & Ec)]];
    fold out in E, D.
  - rewrite E, D. repeat split.
    + intros rc' l' [= <- <-]. tauto.
    + discriminate.
    + intros l' [= -> _]. exfalso. lia.
  - rewrite E, D. repeat split; try discriminate. now intros exc [= <-].
  - rewrite E, D. repeat split; try discriminate.
    + intros rc' l' [= <- <-]. tauto.
    + intros rc' l' [= <- <-] N. now elim N.
    + intros l' _. exists (inserted (clock 0%nat) c db).
      split; [reflexivity|]. rewrite Ec. cbn.
      repeat split. apply fresh_id_new.
Qed.

(** X19. The relaxed phone check of the command lets through numbers
    that the validator of the model refuses. For such a number, with
    the e-mail address accepted and not registered, the program found
    and the date read, the command ends in an uncaught [ValueError] and
    the database is left as it was. *)
Theorem X19_cli_relaxed_phone_crashes (fromisoformat : string -> option Z)
    (integrity_text : string) (clock : nat -> DateTime) (args : Args) (db : DB)
    (prog : ProgramStudi) (tanggal : Z) :
  validate_email (PyStr.strip (a_email args)) = true ->
  validate_phone (PyStr.strip (a_phone args)) = true ->
  Re.re_match Models_validators.PHONE_REGEX (PyStr.strip (a_phone args)) = false ->
  first_program_kode (PyStr.upper (a_program args)) db = Some prog ->
  first_calon_email (PyStr.strip (a_email args)) db = None ->
  fromisoformat (a_dob args) = Some tanggal ->
  register fromisoformat integrity_text clock args db
    = (Cli_register.Uncaught "ValueError", db).
Proof.
  intros Ve Vp M P D Dt. unfold register. cbv zeta.
  rewrite Ve, Vp, P, D, Dt. cbn [negb].
  unfold new_calon, Models_validators.validate_email.
  unfold validate_email, EMAIL_REGEX in Ve. rewrite Ve. cbn [negb].
  unfold Models_validators.validate_phone. cbv zeta. now rewrite strip_idem, M.
Qed.

(** The command on the phone number 1234567. *)
Lemma X19_cli_relaxed_phone_crashes_witness :
  register (fun _ => Some 0) ""
    Samples.clock2025
    (mkArgs "Bima" "Bima@gmail.com" "1234567" "2000-01-01" "" "tif" SNBP)
    Samples.db_empty
  = (Cli_register.Uncaught "ValueError", Samples.db_empty).
Proof.
  apply (X19_cli_relaxed_phone_crashes (fun _ => Some 0) "" Samples.clock2025
           (mkArgs "Bima" "Bima@gmail.com" "1234567" "2000-01-01" "" "tif" SNBP)
           Samples.db_empty Samples.tif 0); reflexivity.
Defined.

Lemma count_after_insert (pattern : string) (now : DateTime) (c : Pending) (db : DB) :
  count_nim_like pattern
    (set_calon_mahasiswa db (calon_mahasiswa db ++ [inserted now c db]))
  = count_nim_like pattern db.
Proof.
  unfold count_nim_like. cbn [calon_mahasiswa set_calon_mahasiswa].
  rewrite filter_app, length_app. cbn. lia.
Qed.

(** X20. The flow of [test_flow.py] on a database with no NIM under the
    prefix: a valid request body for a free e-mail address is
    registered as pending without a NIM, [get_status] shows that row,
    the approval of the new id answers with the year, the code of the
    program and [0001], and [get_status] then shows the same row with
    status approved, that NIM and the time of the approval. *)
Theorem X20_register_then_approve (clock later : nat -> DateTime)
    (payload : CalonMahasiswaCreate) (db : DB) (program : ProgramStudi) :
  first_program_id (p_program_studi_id payload) db = Some program ->
  first_calon_email (p_email payload) db = None ->
  Re.re_match Models_validators.EMAIL_REGEX (p_email payload) = true ->
  Schemas.validate_phone (p_phone payload) = Utils.Returned (p_phone payload) ->
  count_nim_like ((PyStr.str_of_int (dt_year (later 0%nat)) ++ kode program) ++ "%") db
    = 0%nat ->
  exists row db1 db2,
    register_mahasiswa clock payload db = (Calon 201 row, db1) /\
    get_status (cm_id row) db1 = Calon 200 row /\
    status row = pending /\ nim row = None /\
    let n := PyStr.str_of_int (dt_year (later 0%nat)) ++ kode program ++ "0001" in
    Main.approve_mahasiswa later (cm_id row) db1 = (Main.Json_nim (Some n), db2) /\
    get_status (cm_id row) db2 = Calon 200 (assign_approval n (later 1%nat) row).
Proof.
  intros P D Em Ph C.
  destruct (http_register_ok clock payload db program P D Em Ph)
    as (row & db1 & R & Er & _ & Rows & Ps & _ & G & _).
  destruct (http_register_cases clock payload db) as [[_ N]|(c & _ & _ & _ & E)].
  { exfalso. apply (N 201 row). now rewrite R. }
  rewrite R in E. injection E as Erow Edb.
  assert (first_calon (cm_id row) db1 = Some row) as F.
  { unfold get_status in G. destruct (first_calon (cm_id row) db1); [|discriminate].
    now injection G as ->. }
  assert (status row = pending /\ nim row = None) as [St Nn] by (rewrite Er; now split).
  assert (program_studi_of row db1 = Some program) as Pr.
  { unfold program_studi_of. rewrite Ps, Er. exact P. }
  assert (count_nim_like
            ((PyStr.str_of_int (dt_year (later 0%nat)) ++ kode program) ++ "%") db1
          = 0%nat) as C1 by (rewrite Edb, count_after_insert; exact C).
  pose proof (http_first_sequence later (cm_id row) db1 row program F St Pr C1) as A.
  cbv zeta in A.
  exists row, db1. eexists. split; [exact R|]. split; [exact G|].
  split; [exact St|]. split; [exact Nn|]. cbv zeta. split; [exact A|].
  unfold get_status. now rewrite (first_calon_update _ _ _ _ _ F).
Qed.

End RegistrationClaims.

(** ** The properties on the sample data *)

Section Witnesses.

Import Samples Samples_more Candidates Constraints.

Ltac rows_unique :=
  let i := fresh "i" in
  let j := fresh "j" in
  let Ha := fresh "Ha" in
  let Hb := fresh "Hb" in
  intros i j ? ? ? Ha Hb ? ?;
  do 3 (try destruct i as [|i]); do 3 (try destruct j as [|j]);
  cbn in Ha, Hb; try discriminate;
  injection Ha as <-; injection Hb as <-; cbn in *; congruence.

Lemma X2_failed_approval_changes_nothing_witness :
  snd (Main.approve_mahasiswa clock2025 1 db_rejected) = db_rejected.
Proof.
  apply (proj1 (X2_failed_approval_changes_nothing clock2025 1 None db_rejected)
           409 "Cannot approve candidate with status rejected").
  reflexivity.
Defined.

Lemma X3_approved_stays_approved_witness :
  Main.approve_mahasiswa clock2025 1
    (update_approval 1 "2025TIF0001" (clock2025 1) db_pending)
  = (Main.Json_nim (Some "2025TIF0001"),
     update_approval 1 "2025TIF0001" (clock2025 1) db_pending).
Proof.
  exact (proj1 (proj2 (X3_approved_stays_approved clock2025 clock2025 1 db_pending
                         (update_approval 1 "2025TIF0001" (clock2025 1) db_pending)
                         (budi 1 pending None) "2025TIF0001"
                         eq_refl eq_refl eq_refl))).
Defined.

Lemma X4_approval_keeps_unique_index_witness :
  pk_unique (calon_mahasiswa db_legacy) /\
  nim_unique (calon_mahasiswa db_legacy) /\
  nim_unique (calon_mahasiswa (snd (Main.approve_mahasiswa clock2025 2 db_legacy))).
Proof.
  assert (pk_unique (calon_mahasiswa db_legacy)) as Pk
    by (repeat constructor; cbn; intuition discriminate).
  assert (nim_unique (calon_mahasiswa db_legacy)) as Nu by rows_unique.
  split; [exact Pk|]. split; [exact Nu|].
  exact (proj2 (proj1 (X4_approval_keeps_unique_index clock2025 2 None db_legacy Pk Nu))).
Defined.

Lemma X5_first_approval_is_placeholder_witness :
  Models_methods.generate_nim clock2025 (budi 1 pending None) db_pending
    = Utils.Returned "2025TIF0001" /\
  Main.approve_mahasiswa clock2025 1 db_pending =
    (Main.Json_nim (Some "2025TIF0001"),
     update_approval 1 "2025TIF0001" (clock2025 1) db_pending).
Proof.
  exact (X5_first_approval_is_placeholder clock2025 1 db_pending (budi 1 pending None) tif
           eq_refl eq_refl eq_refl eq_refl).
Defined.

Lemma X6_approval_advances_count_witness :
  count_nim_like "2025TIF%" db_legacy = 1%nat /\
  count_nim_like "2025TIF%" (update_approval 2 "2025TIF0003" (clock2025 2) db_legacy)
    = 2%nat.
Proof.
  split; [reflexivity|].
  refine (X6_approval_advances_count clock2025 2 db_legacy _ (budi 2 pending None) tif
            "2025TIF0003" _ eq_refl eq_refl eq_refl eq_refl eq_refl).
  repeat constructor; cbn; intuition discriminate.
Defined.

Lemma X7_successive_calls_witness :
  map Serial.i_nim (Serial.allocations (repeat (2025, " tif") 3) db_empty)
    = ["2025TIF0001"; "2025TIF0002"; "2025TIF0003"].
Proof.
  assert (Counters.wf (nim_counters db_empty)) as W by (split; constructor).
  rewrite (X7_successive_calls 3 2025 " tif" db_empty W); [reflexivity | lia | discriminate].
Defined.

Lemma X8_keys_independent_witness :
  fst (Utils.generate_nim 2025 "TIF" (snd (Utils.generate_nim 2025 "SI" db_empty)))
    = fst (Utils.generate_nim 2025 "TIF" db_empty).
Proof.
  assert (Counters.wf (nim_counters db_empty)) as W by (split; constructor).
  apply (proj1 (X8_keys_independent 2025 2025 "TIF" "SI" db_empty W)). discriminate.
Defined.

Lemma X15_register_then_status_witness :
  exists row db',
    Main_more.register_mahasiswa clock2025 payload_budi db_empty
      = (Main_more.Calon 201 row, db') /\
    cm_id row = 1 /\ status row = pending /\ nim row = None /\
    Main_more.get_status 1 db' = Main_more.Calon 200 row.
Proof.
  destruct (X15_register_then_status clock2025 payload_budi db_empty tif
              eq_refl eq_refl eq_refl eq_refl)
    as (row & db' & R & Er & _ & _ & _ & _ & G & _).
  exists row, db'. split; [exact R|]. rewrite Er in *. now repeat split.
Defined.

Lemma X16_duplicate_email_rejected_witness :
  Main_more.register_mahasiswa clock2025 payload_budi_caps
    (snd (Main_more.register_mahasiswa clock2025 payload_budi db_empty))
  = (Main_more.HTTPException 409 "Email already registered",
     snd (Main_more.register_mahasiswa clock2025 payload_budi db_empty)).
Proof.
  assert (exists row,
             Main_more.register_mahasiswa clock2025 payload_budi db_empty
             = (Main_more.Calon 201 row,
                snd (Main_more.register_mahasiswa clock2025 payload_budi db_empty)))
    as [row R] by (eexists; vm_compute; reflexivity).
  apply (proj1 (X16_duplicate_email_rejected clock2025 clock2025 payload_budi
                  payload_budi_caps db_empty _ row any_date "" args_bima R)).
  - vm_compute; reflexivity.
  - vm_compute; discriminate.
Defined.

Lemma X17_registration_keeps_constraints_witness :
  email_unique
    (calon_mahasiswa (snd (Main_more.register_mahasiswa clock2025 payload_budi db_pending)))
  /\
  email_unique
    (calon_mahasiswa
       (snd (Cli_register_more.register any_date "" clock2025 args_bima db_pending))).
Proof.
  assert (pk_unique (calon_mahasiswa db_pending)) as Pk
    by (repeat constructor; cbn; intuition discriminate).
  assert (nim_unique (calon_mahasiswa db_pending)) as Nu by rows_unique.
  assert (email_unique (calon_mahasiswa db_pending)) as Eu
    by (repeat constructor; cbn; intuition discriminate).
  destruct (X17_registration_keeps_constraints clock2025 payload_budi any_date ""
              args_bima db_pending Pk Nu Eu) as [(_ & _ & H & _) (_ & _ & C & _)].
  split; [exact H | exact C].
Defined.

Lemma X18_cli_register_outcomes_witness :
  fst (Cli_register_more.register any_date "" clock2025 args_bima db_empty)
  = Cli_register.mkOutcome 0
      ["SUCCESS: Calon mahasiswa tersimpan dengan status PENDING:";
       "  ID: 1"; "  Nama: Bima"; "  Email: Bima@gmail.com"; "  Phone: 081234567890";
       "  Program Studi: Teknik Informatika (TIF)"; "  Status: pending"; "  NIM: None"]
  /\
  exists row,
    calon_mahasiswa
      (snd (Cli_register_more.register any_date "" clock2025 args_bima db_empty))
    = [row] /\ status row = pending /\ nim row = None.
Proof.
  assert (fst (Cli_register_more.register any_date "" clock2025 args_bima db_empty)
          = Cli_register.mkOutcome 0
              ["SUCCESS: Calon mahasiswa tersimpan dengan status PENDING:";
               "  ID: 1"; "  Nama: Bima"; "  Email: Bima@gmail.com";
               "  Phone: 081234567890";
               "  Program Studi: Teknik Informatika (TIF)"; "  Status: pending";
               "  NIM: None"]) as O by (vm_compute; reflexivity).
  split; [exact O|].
  destruct (proj2 (proj2 (proj2 (proj2
              (X18_cli_register_outcomes any_date "" clock2025 args_bima db_empty))))
              _ O) as (row & E & St & Nn & _).
  exists row. split; [exact E|]. now split.
Defined.

Lemma X20_register_then_approve_witness :
  exists row db1 db2,
    Main_more.register_mahasiswa clock2025 payload_budi db_empty
      = (Main_more.Calon 201 row, db1) /\
    Main.approve_mahasiswa clock2025 (cm_id row) db1
      = (Main.Json_nim (Some "2025TIF0001"), db2) /\
    Main_more.get_status (cm_id row) db2
      = Main_more.Calon 200 (assign_approval "2025TIF0001" (clock2025 1) row).
Proof.
  destruct (X20_register_then_approve clock2025 clock2025 payload_budi db_empty tif
              eq_refl eq_refl eq_refl eq_refl eq_refl)
    as (row & db1 & db2 & R & _ & _ & _ & A & G).
  exists row, db1, db2. split; [exact R|]. split; [exact A | exact G].
Defined.

End Witnesses.

Section EmailFacts.

Import Re.

Lemma lang_plus_class (p : ascii -> bool) (s : string) :
  lang (Plus (Class p)) s <-> s <> "" /\ all_chars p s = true.
Proof.
  unfold Plus. split.
  - intros H. apply lang_cat_inv in H as (s1 & s2 & -> & H1 & H2).
    apply lang_class_inv in H1 as (c & -> & Pc). apply lang_star_class in H2.
    cbn [append all_chars]. rewrite Pc, H2. split; [discriminate | reflexivity].
  - intros [N A]. destruct s as [|c s]; [congruence|].
    cbn [all_chars] in A. apply andb_prop in A as [Pc A].
    change (String c s) with (String c "" ++ s).
    constructor; [now constructor | now apply lang_star_class].
Qed.

(** The words of the e-mail pattern. *)
Lemma email_words (s : string) :
  lang Models_validators.EMAIL_REGEX s <->
  exists loc dom tld,
    s = loc ++ String "@" (dom ++ String "." tld) /\
    loc <> "" /\ all_chars (fun c => alpha c || digit c || one_of "._%+-" c) loc = true /\
    dom <> "" /\ all_chars (fun c => alpha c || digit c || one_of ".-" c) dom = true /\
    (2 <= String.length tld)%nat /\ all_chars alpha tld = true.
Proof.
  unfold Models_validators.EMAIL_REGEX. split.
  - intros H. apply lang_cat_inv in H as (loc & s2 & -> & Hl & H).
    apply lang_cat_inv in H as (a & s3 & -> & Ha & H).
    apply lang_cat_inv in H as (dom & s4 & -> & Hd & H).
    apply lang_cat_inv in H as (d & tld & -> & Hdot & Ht).
    apply lang_lit in Ha, Hdot. subst a d.
    apply lang_plus_class in Hl as [Nl Al], Hd as [Nd Ad].
    apply lang_atleast_class in Ht as [Lt At].
    exists loc, dom, tld. now repeat split.
  - intros (loc & dom & tld & -> & Nl & Al & Nd & Ad & Lt & At).
    constructor; [apply lang_plus_class; now split|].
    change (String "@" (dom ++ String "." tld))
      with (String "@" "" ++ dom ++ String "." "" ++ tld).
    constructor; [now apply lang_lit|].
    constructor; [apply lang_plus_class; now split|].
    constructor; [now apply lang_lit|].
    apply lang_atleast_class. now split.
Qed.

(** X21. The e-mail validator of the model returns an accepted address
    as it was given. An accepted address is a local part, one [@], a
    domain part, a dot and two or more letters, possibly followed by one
    newline; the local and the domain part are not empty and hold
    neither [@] nor white space. The check of the command line accepts
    the same addresses. *)
Theorem X21_validate_email_shape (value v : string) :
  Models_validators.validate_email value = Utils.Returned v ->
  v = value /\
  Cli_register_more.validate_email value = true /\
  exists loc dom tld nl,
    value = loc ++ String "@" (dom ++ String "." tld) ++ nl /\
    (nl = "" \/ nl = String "010" "") /\
    loc <> "" /\ dom <> "" /\
    (2 <= String.length tld)%nat /\ all_chars alpha tld = true /\
    all_chars (fun c => negb (Ascii.eqb c "@") && negb (PyStr.is_space c)) loc = true /\
    all_chars (fun c => negb (Ascii.eqb c "@") && negb (PyStr.is_space c)) dom = true.
Proof.
  unfold Models_validators.validate_email.
  destruct (re_match Models_validators.EMAIL_REGEX value) eqn:M; cbn [negb];
    [|discriminate].
  intros [= <-]. split; [reflexivity|]. split; [exact M|].
  assert (forall c, alpha c || digit c || one_of "._%+-" c = true ->
                    negb (Ascii.eqb c "@") && negb (PyStr.is_space c) = true) as Cl.
  { intros c. destruct c as [[] [] [] [] [] [] [] []]; vm_compute; congruence. }
  assert (forall c, alpha c || digit c || one_of ".-" c = true ->
                    negb (Ascii.eqb c "@") && negb (PyStr.is_space c) = true) as Cd.
  { intros c. destruct c as [[] [] [] [] [] [] [] []]; vm_compute; congruence. }
  assert (forall w, lang Models_validators.EMAIL_REGEX w ->
            exists loc dom tld,
              w = loc ++ String "@" (dom ++ String "." tld) /\
              loc <> "" /\ dom <> "" /\
              (2 <= String.length tld)%nat /\ all_chars alpha tld = true /\
              all_chars (fun c => negb (Ascii.eqb c "@") && negb (PyStr.is_space c)) loc
                = true /\
              all_chars (fun c => negb (Ascii.eqb c "@") && negb (PyStr.is_space c)) dom
                = true) as Shape.
  { intros w H. apply email_words in H as (loc & dom & tld & -> & Nl & Al & Nd & Ad & Lt & At).
    exists loc, dom, tld. repeat split; trivial.
    - exact (all_chars_weaken _ _ loc Cl Al).
    - exact (all_chars_weaken _ _ dom Cd Ad). }
  apply re_match_iff in M as [H|(t & -> & H)].
  - destruct (Shape value H) as (loc & dom & tld & -> & R).
    exists loc, dom, tld, "". rewrite append_nil_r. split; [reflexivity|].
    split; [now left | exact R].
  - destruct (Shape t H) as (loc & dom & tld & -> & R).
    exists loc, dom, tld, (String "010" "").
    split; [|split; [now right | exact R]].
    rewrite !append_assoc. cbn [append]. now rewrite !append_assoc.
Qed.

(** The validator on the address of [test_flow.py]. *)
Lemma X21_validate_email_shape_witness :
  Cli_register_more.validate_email "budi@example.com" = true.
Proof.
  exact (proj1 (proj2 (X21_validate_email_shape "budi@example.com" _ eq_refl))).
Defined.

End EmailFacts.

(** ** Concurrent callers: the invariant of the row lock *)

Section ConcurrentFacts.

Import Counters Utils Concurrent.











End ConcurrentFacts.

Section ConcurrentSteps.

Import Counters Utils Concurrent.








End ConcurrentSteps.

Section ConcurrentClaims.

Import Counters Utils Concurrent.









End ConcurrentClaims.

Section ConcurrentRuns.

Import Counters Utils Concurrent.

Lemma nth_put_same (i : nat) (p q : Point) (l : list Point) :
  nth_error l i = Some q -> nth_error (put i p l) i = Some p.
Proof.
  revert i. induction l as [|x l IH]; intros [|i]; cbn; try discriminate; auto.
Qed.

Lemma put_put (i : nat) (p q : Point) (l : list Point) :
  put i p (put i q l) = put i p l.
Proof.
  revert i. induction l as [|x l IH]; intros [|i]; cbn; trivial. now rewrite IH.
Qed.

Lemma others_put (i : nat) (p : Point) (l : list Point) :
  others i (put i p l) = others i l.
Proof.
  revert i. induction l as [|x l IH]; intros [|i]; cbn; trivial. now rewrite IH.
Qed.

Lemma idle_unlocked (l : list Point) :
  forallb idle l = true ->
  (forall id, existsb (row_lock id) l = false) /\
  (forall id, existsb (write_lock id) l = false) /\
  (forall t k, existsb (key_lock t k) l = false).
Proof.
  induction l as [|p l IH]; cbn; [auto|].
  intros H. apply andb_true_iff in H as [Hp Hl].
  destruct (IH Hl) as (A & B & C).
  repeat split; intros; rewrite ?A, ?B, ?C; now destruct p.
Qed.

Lemma filter_none (t : Z) (k : string) (rows : list NIMCounter) :
  filter (matches t k) rows = [] -> existsb (matches t k) rows = false.
Proof.
  induction rows as [|r rows IH]; cbn; [reflexivity|].
  destruct (matches t k r); [discriminate | exact IH].
Qed.

(** A caller that runs its four steps while the others are outside
    their transactions does what [Utils.generate_nim] does, whether
    the database honours [FOR UPDATE] or not. *)
Lemma alone_is_generate_nim (for_update : bool) (i : nat) (t : Z) (kp : string)
    (db : DB) (l : list Point) :
  nth_error l i = Some (Called t kp) ->
  forallb idle (others i l) = true ->
  exists p',
    run for_update [Step i; Step i; Step i; Step i] (mkState db l)
      = mkState (snd (generate_nim t kp db)) (put i p' l) /\
    match fst (generate_nim t kp db) with
    | Returned nim => exists seq, p' = Committed t (normalize kp) seq nim
    | Raised e => p' = Failed e
    end.
Proof.
  intros Hi Idle. destruct (idle_unlocked _ Idle) as (NoRow & NoWrite & NoKey).
  assert (forall p db', nth_error (callers (mkState db' (put i p l))) i = Some p) as At.
  { intros p db'. cbn [callers]. now apply (nth_put_same i p _ l Hi). }
  assert (forall e db', step for_update i (mkState db' (put i (Failed e) l))
                        = mkState db' (put i (Failed e) l)) as Stay.
  { intros e db'. unfold step. now rewrite At. }
  cbn [run]. unfold generate_nim. fold (normalize kp).
  unfold step at 4. cbn [callers store]. rewrite Hi. cbv zeta. fold (normalize kp).
  destruct (negb (PyStr.truthy (normalize kp))).
  { unfold move. cbn [store callers]. rewrite !Stay.
    eexists. split; reflexivity. }
  destruct ((t <? 2000) || (t >? 9999)).
  { unfold move. cbn [store callers]. rewrite !Stay.
    eexists. split; reflexivity. }
  unfold move. cbn [store callers].
  unfold step at 3. rewrite At. cbn [callers store].
  destruct (one_or_none (filter (matches t (normalize kp)) (nim_counters db)))
    as [|c|] eqn:Q.
  - unfold move. cbn [store callers]. rewrite put_put.
    unfold step at 2. rewrite At. cbn [callers store].
    assert (existsb (matches t (normalize kp)) (nim_counters db) = false) as ->.
    { apply filter_none. now destruct (filter _ _) as [|a [|b r]]. }
    rewrite others_put, NoKey. cbv zeta. unfold move. cbn [store callers].
    rewrite put_put. unfold step. rewrite At. cbn [callers store]. rewrite put_put.
    eexists. split; [reflexivity|]. cbn [fst]. eexists. reflexivity.
  - rewrite others_put, NoRow, andb_false_r.
    unfold move. cbn [store callers]. rewrite put_put.
    unfold step at 2. rewrite At. cbn [callers store].
    rewrite others_put, NoWrite. cbv zeta. unfold move. cbn [store callers].
    rewrite put_put. unfold step. rewrite At. cbn [callers store]. rewrite put_put.
    eexists. split; [reflexivity|]. cbn [fst]. eexists. reflexivity.
  - unfold move. cbn [store callers]. rewrite put_put.
    rewrite !Stay.
    eexists. split; reflexivity.
Qed.

(** Where [FOR UPDATE] is not honoured the update is lost: two callers
    for (2025, TIF) that both read the counter at 5 both return
    2025TIF0006, and the counter ends at 6. *)
Lemma lost_update_without_lock :
  run false (turns [0; 1; 0; 1; 0; 1; 0; 1; 1; 1]%nat)
      (start db_tif_5 [(2025, "TIF"); (2025, "TIF")])
  = mkState (mkDB [Samples.tif] [] [mkNIMCounter 1 2025 "TIF" 6])
            [Committed 2025 "TIF" 6 "2025TIF0006";
             Committed 2025 "TIF" 6 "2025TIF0006"].
Proof. reflexivity. Qed.

(** With the lock the second caller waits for the commit of the first
    and reads 6. *)
Lemma serialized_by_lock :
  run true (turns [0; 1; 0; 1; 0; 1; 0; 1; 1; 1]%nat)
      (start db_tif_5 [(2025, "TIF"); (2025, "TIF")])
  = mkState (mkDB [Samples.tif] [] [mkNIMCounter 1 2025 "TIF" 7])
            [Committed 2025 "TIF" 6 "2025TIF0006";
             Committed 2025 "TIF" 7 "2025TIF0007"].
Proof. reflexivity. Qed.

(** Two first calls for one key: the INSERT of the second waits for the
    first and then meets the unique constraint. *)
Lemma first_call_race :
  run true (turns [0; 1; 0; 1; 0; 1; 0; 1; 1; 1]%nat)
      (start Samples.db_empty [(2025, "TIF"); (2025, " tif")])
  = mkState (mkDB [Samples.tif] [] [mkNIMCounter 1 2025 "TIF" 1])
            [Committed 2025 "TIF" 1 "2025TIF0001"; IntegrityError].
Proof. reflexivity. Qed.

End ConcurrentRuns.

Section ConcurrentProgress.

Import Counters Utils Concurrent.

Lemma others_busy (f : Point -> bool) (i : nat) (l : list Point) :
  existsb f (others i l) = true ->
  exists j q, j <> i /\ nth_error l j = Some q /\ f q = true.
Proof.
  revert i. induction l as [|x l IH]; intros [|i]; cbn; try discriminate.
  - intros E. apply existsb_exists in E as (q & I & F).
    apply In_nth_error in I as [j I]. exists (S j), q. now repeat split.
  - intros E. apply orb_true_iff in E as [E|E].
    + exists 0%nat, x. now repeat split.
    + destruct (IH i E) as (j & q & N & H & F).
      exists (S j), q. repeat split; trivial. congruence.
Qed.

Lemma moved (i : nat) (p p' : Point) (db' : DB) (st : State) :
  nth_error (callers st) i = Some p -> p' <> p ->
  mkState db' (put i p' (callers st)) <> st.
Proof.
  intros H N E. apply (f_equal callers) in E. cbn [callers] in E.
  rewrite <- E in H. rewrite (nth_put_same i p' p (callers st)) in H.
  - congruence.
  - now rewrite E in H.
Qed.

(** No deadlock: a caller inside its call whose step leaves the state
    as it is waits for a lock, and the caller that holds this lock can
    move. *)
Lemma waiting_for_a_mover (st : State) (i : nat) (p : Point) :
  invariant st ->
  nth_error (callers st) i = Some p ->
  idle p = false ->
  step true i st = st ->
  exists j q, j <> i /\ nth_error (callers st) j = Some q /\
              idle q = false /\ step true j st <> st.
Proof.
  intros (W & G & X) Hi In Stay.
  assert (forall j t k id s n, nth_error (callers st) j = Some (Updated t k id s n) ->
                               step true j st <> st) as Up.
  { intros j t k id s n Hj. unfold step. rewrite Hj.
    apply (moved j _ _ _ st Hj). discriminate. }
  assert (forall j t k n, nth_error (callers st) j = Some (Inserted t k n) ->
                          step true j st <> st) as Ins.
  { intros j t k n Hj. unfold step. rewrite Hj. cbv zeta.
    apply (moved j _ _ _ st Hj). discriminate. }
  assert (forall j t k c, nth_error (callers st) j = Some (Holding t k c) ->
                          step true j st <> st) as Hold.
  { intros j t k c Hj. unfold step. rewrite Hj.
    destruct (existsb (write_lock (nc_id c)) (others j (callers st))) eqn:E.
    - exfalso. apply others_busy in E as (m & q & N & Hm & F).
      destruct (X j m _ _ (not_eq_sym N) Hj Hm) as (X1 & _).
      specialize (X1 (nc_id c)). cbn [row_lock] in X1.
      rewrite Z.eqb_refl in X1. specialize (X1 eq_refl).
      destruct q; cbn [write_lock row_lock] in *; congruence.
    - cbv zeta. unfold move. apply (moved j _ _ _ st Hj). discriminate. }
  unfold step in Stay. rewrite Hi in Stay.
  destruct p as [t kp|t k|t k|t k c|t k n|t k id s n|t k s n|e| |];
    try discriminate In.
  - destruct (one_or_none _) as [|c|].
    + exfalso. revert Stay. apply (moved i _ _ _ st Hi). discriminate.
    + cbn [andb] in Stay.
      destruct (existsb (row_lock (nc_id c)) (others i (callers st))) eqn:E.
      * apply others_busy in E as (j & q & N & Hj & F).
        exists j, q. split; [exact N|]. split; [exact Hj|].
        destruct q; cbn [row_lock write_lock] in F; try discriminate;
          (split; [reflexivity|]); eauto.
      * exfalso. revert Stay. apply (moved i _ _ _ st Hi). discriminate.
    + exfalso. revert Stay. apply (moved i _ _ _ st Hi). discriminate.
  - destruct (existsb (matches t k) _).
    { exfalso. revert Stay. apply (moved i _ _ _ st Hi). discriminate. }
    destruct (existsb (key_lock t k) (others i (callers st))) eqn:E.
    + apply others_busy in E as (j & q & N & Hj & F).
      exists j, q. split; [exact N|]. split; [exact Hj|].
      destruct q; cbn [key_lock] in F; try discriminate.
      split; [reflexivity|]. eauto.
    + exfalso. revert Stay. cbv zeta. apply (moved i _ _ _ st Hi). discriminate.
  - exfalso. apply (Hold i t k c Hi). unfold step. rewrite Hi. exact Stay.
  - exfalso. revert Stay. cbv zeta. apply (moved i _ _ _ st Hi). discriminate.
  - exfalso. revert Stay. apply (moved i _ _ _ st Hi). discriminate.
Qed.

End ConcurrentProgress.

Section ConcurrentTheorem.

Import Counters Utils Concurrent.



End ConcurrentTheorem.
